(** * WINK link layer: frame codec, simulated channel and link session

    A shallow embedding of [linklayer1.c], [linklayer.h] and
    [sim-physical.c], and the properties of the link layer proved on it.

    Conventions of the embedding.
    - A C [int] or [long] is a [Z]; the program's counters and cursors stay
      far from the limits of the machine type, and signed overflow has no
      defined result in C, so no wrap-around is written for them.
    - A [byte] (unsigned char) is a [Z] in [0, 255]; a conversion to [byte]
      is written out as [to_byte], reduction modulo 256.
    - The C operator [%] truncates towards zero: it is [Z.rem].
    - An array is a [list Z] of the array's size, read with [rd] and
      written with [wr].  An access outside the array has no defined result
      in C; here a read gives 0 and a write is dropped.  A pointer into an
      array is the array together with an offset.
    - The static variables of the two C files are the fields of [State].
      The C library's [rand], [clock] and [Sleep] act on the [Env] part of
      it, which carries the values the outside world will supply.
    - What the program prints is the [out] trace of [State]. *)

From Stdlib Require Import ZArith QArith Lia.
From stdpp Require Import base numbers list.

Open Scope Z_scope.

(** ** Constants of [linklayer.h] and [sim-physical.c] *)

Definition MAX_BLK : Z := 255.
Definition MOD_SEQNUM : Z := 16.
Definition STARTBYTE : Z := 206.
Definition ENDBYTE : Z := 204.
Definition STUFFBYTE : Z := 220.
Definition SEQNUMPOS : Z := 2.
Definition BYTECOUNTPOS : Z := 1.
Definition HEADERSIZE : Z := 3.
Definition TRAILERSIZE : Z := 2.
Definition RX_WAIT : Q := 20 # 1.
Definition PROB_ERR : Q := 3 # 10000.
Definition BUFSIZE : Z := 2000.

(** Constants of the C library on the platform the simulation is written
    for (it includes [windows.h]). *)
Definition RAND_MAX : Z := 32767.
Definition CLOCKS_PER_SEC : Z := 1000.

(** ** C values and arrays *)

Definition to_byte (x : Z) : Z := x mod 256.

(** Conversion of a floating-point value to an integer type drops the
    fraction.  Floating-point values are modelled by exact rationals. *)
Definition trunc (q : Q) : Z := Z.quot (Qnum q) (Zpos (Qden q)).

(** A C truth value. *)
Definition truth (b : bool) : Z := if b then 1 else 0.

Definition rd (a : list Z) (i : Z) : Z :=
  if i <? 0 then 0 else default 0 (a !! Z.to_nat i).

Definition wr (a : list Z) (i : Z) (v : Z) : list Z :=
  if i <? 0 then a else <[Z.to_nat i := v]> a.

(** [for (i = lo; i < hi; i++) body], on a loop state of type [S]. *)
Fixpoint for_loop {S : Type} (n : nat) (i : Z) (body : Z -> S -> S) (s : S) : S :=
  match n with
  | O => s
  | S n' => for_loop n' (i + 1) body (body i s)
  end.

Definition for_range {S : Type} (lo hi : Z) (body : Z -> S -> S) (s : S) : S :=
  for_loop (Z.to_nat (hi - lo)) lo body s.

(** ** What the program prints *)

Inductive Msg : Type :=
| LL_Connected
| LL_ConnectFailed (retCode : Z)
| LL_Disconnected (sent : Z)
| LL_Counters (good bad tmo : Z)
| LL_DisconFailed (retCode : Z)
| LL_SendNotConnected
| LL_BlockTooBig (nData maxBlk : Z)
| LL_SendFailed (seq : Z)
| LL_Sent (nFrame seq : Z)
| LL_RecvNotConnected
| LL_Timeout
| LL_GotFrame (nFrame : Z)
| LL_BadFrame
| LL_GoodFrame
| LL_RecvBlock (seq nData : Z)
| LLGF_Timeout (nRx : Z)
| LLCF_BadStart
| LLCF_BadEnd
| LLCF_BadChecksum
| LLCF_BadCount
| LL_FrameBytes (bytes : list Z)
| PHY_BufferFull
| PHY_SimulatedError.

(** ** The frame codec of [linklayer1.c] *)

Module Codec.

(** [buildDataFrame]: the frame array after the call, and the frame size
    returned. *)
Definition buildDataFrame (frameTx dataTx : list Z) (nData seq : Z) : list Z * Z :=
  let checkSum := 0 in
  let frameTx := wr frameTx 0 STARTBYTE in
  let frameTx := wr frameTx BYTECOUNTPOS (to_byte (HEADERSIZE + nData + TRAILERSIZE)) in
  let frameTx := wr frameTx SEQNUMPOS (to_byte seq) in
  let '(frameTx, checkSum) :=
    for_range 0 nData
      (fun i '(f, c) => (wr f (i + HEADERSIZE) (rd dataTx i), c + rd dataTx i))
      (frameTx, checkSum) in
  let checkSum := Z.rem (256 - Z.rem checkSum 256) 256 in
  let frameTx := wr frameTx (HEADERSIZE + nData) (to_byte checkSum) in
  let frameTx := wr frameTx (HEADERSIZE + nData + 1) ENDBYTE in
  (frameTx, HEADERSIZE + nData + TRAILERSIZE).

(** [checkFrame]: the value returned, and the message printed when a check
    fails. *)
Definition checkFrame (frameRx : list Z) (nFrame : Z) : Z * list Msg :=
  let nData := nFrame - (HEADERSIZE + TRAILERSIZE) in
  let checkSum := 0 in
  if negb (rd frameRx 0 =? STARTBYTE) then (0, [LLCF_BadStart])
  else if negb (rd frameRx (nFrame - 1) =? ENDBYTE) then (0, [LLCF_BadEnd])
  else
    let checkSum :=
      for_range HEADERSIZE (HEADERSIZE + nData + 1)
        (fun i c => c + rd frameRx i) checkSum in
    if negb (Z.rem checkSum 256 =? 0) then (0, [LLCF_BadChecksum])
    else if negb (nFrame =? rd frameRx BYTECOUNTPOS) then (0, [LLCF_BadCount])
    else (1, []).

(** [processFrame]: the data array after the call, the value returned and
    the value stored through [seqNum]. *)
Definition processFrame (frameRx : list Z) (nFrame : Z) (dataRx : list Z) (maxData : Z)
  : list Z * Z * Z :=
  let seqNum := rd frameRx SEQNUMPOS in
  let nData := nFrame - HEADERSIZE - TRAILERSIZE in
  let nData := if nData >? maxData then maxData else nData in
  let dataRx :=
    for_range 0 nData (fun i d => wr d i (rd frameRx (HEADERSIZE + i))) dataRx in
  (dataRx, nData, seqNum).

(** [sendAck] does nothing in this version. *)
Definition sendAck (type seq : Z) : Z := 0.

Definition next (seq : Z) : Z := Z.rem (seq + 1) MOD_SEQNUM.

(** [printFrame]: the bytes it prints.  A frame of at most 50 bytes is
    printed whole, in rows of ten (the row index here is the C loop's [i]
    divided by ten); of a larger one the first ten and the last ten bytes
    are printed.  Each row is printed as numbers and again as characters;
    the trace records its bytes once. *)
Definition printFrame (frame : list Z) (nByte : Z) : list Msg :=
  let row lo hi := LL_FrameBytes (for_range lo hi (fun j acc => acc ++ [rd frame j]) []) in
  if nByte <=? 50
  then for_range 0 ((nByte + 9) / 10)
         (fun r acc => acc ++ [row (10 * r) (Z.min (10 * r + 10) nByte)]) []
  else [row 0 10; row (nByte - 10) nByte].

End Codec.

(** ** The outside world: random numbers and time *)

(** [rand_src] lists the values [rand()] will return, which the C library
    takes from [0, RAND_MAX], and [tick_src] the time that passes before
    each reading of [clock()]; [rand_pos] and [tick_pos] count the values
    used so far and [now] is the clock, in ticks. *)
Record Env : Type := mkEnv {
  rand_src : nat -> N;
  rand_pos : nat;
  now : Z;
  tick_src : nat -> N;
  tick_pos : nat
}.

(** The variables of [sim-physical.c]. *)
Record Phy : Type := mkPhy {
  buffer : list Z;
  nBytesWritten : Z;
  nBytesUsed : Z;
  rxTimeLimit : Z;
  rxProbErr : Q
}.

(** The variables of [linklayer1.c]. *)
Record Link : Type := mkLink {
  seqNumTx : Z;
  connected : Z;
  framesSent : Z;
  badFrames : Z;
  goodFrames : Z;
  timeouts : Z;
  timerRx : Z
}.

Record State : Type := mkState {
  link : Link;
  phy : Phy;
  env : Env;
  out : list Msg
}.

Definition set_link (l : Link) (s : State) : State :=
  mkState l (phy s) (env s) (out s).
Definition set_phy (p : Phy) (s : State) : State :=
  mkState (link s) p (env s) (out s).
Definition set_env (e : Env) (s : State) : State :=
  mkState (link s) (phy s) e (out s).
Definition printf (m : list Msg) (s : State) : State :=
  mkState (link s) (phy s) (env s) (out s ++ m).

Definition set_buffer (b : list Z) (p : Phy) : Phy :=
  mkPhy b (nBytesWritten p) (nBytesUsed p) (rxTimeLimit p) (rxProbErr p).
Definition set_cursors (w u : Z) (p : Phy) : Phy :=
  mkPhy (buffer p) w u (rxTimeLimit p) (rxProbErr p).

Module Libc.

Definition rand (s : State) : Z * State :=
  let e := env s in
  (Z.of_N (rand_src e (rand_pos e)),
   set_env (mkEnv (rand_src e) (S (rand_pos e)) (now e) (tick_src e) (tick_pos e)) s).

(** [srand(time(NULL))] chooses the sequence [rand] will follow; every
    sequence is already allowed for [rand_src], so it changes nothing. *)
Definition srand_time (s : State) : State := s.

Definition clock (s : State) : Z * State :=
  let e := env s in
  let t := now e + Z.of_N (tick_src e (tick_pos e)) in
  (t, set_env (mkEnv (rand_src e) (rand_pos e) t (tick_src e) (S (tick_pos e))) s).

(** [Sleep] takes an unsigned 32-bit number of milliseconds; a tick of
    [clock] is a millisecond. *)
Definition Sleep (ms : Z) (s : State) : State :=
  let e := env s in
  set_env (mkEnv (rand_src e) (rand_pos e) (now e + ms mod 2 ^ 32)
             (tick_src e) (tick_pos e)) s.

End Libc.

(** ** The simulated physical layer of [sim-physical.c] *)

Module Sim.

Import Libc.

Definition PHY_open (portNum bitRate nDataBits parity rxTimeConst rxTimeIntv : Z)
    (probErr : Q) (s : State) : Z * State :=
  let p := phy s in
  let p := mkPhy (buffer p) 0 0 (rxTimeConst + rxTimeIntv) (rxProbErr p) in
  let s := srand_time (set_phy p s) in
  let p := phy s in
  let p :=
    if Qle_bool 0 probErr && Qle_bool probErr 1
    then mkPhy (buffer p) (nBytesWritten p) (nBytesUsed p) (rxTimeLimit p) probErr
    else p in
  (0, set_phy p s).

Definition PHY_close (s : State) : Z * State := (0, s).

(** The threshold for adding errors that [PHY_send] computes. *)
Definition threshold (probErr : Q) : Z :=
  if negb (Qeq_bool probErr 0)
  then 1 + trunc (8 * inject_Z RAND_MAX * probErr)%Q
  else 0.

(** The random bytes put in the array at the start of a frame: the body
    of [if (nBytesWritten == 0)]. *)
Definition line_noise (s : State) : State :=
  let '(r, s) := rand s in
  let s := set_phy (set_cursors (4 + Z.rem r 16) (nBytesUsed (phy s)) (phy s)) s in
  for_range 0 (nBytesWritten (phy s))
    (fun i s =>
       let '(r, s) := rand s in
       set_phy (set_buffer (wr (buffer (phy s)) i (to_byte (Z.rem r 200))) (phy s)) s)
    s.

Definition PHY_send (dataTx : list Z) (nBytesToSend : Z) (s : State) : Z * State :=
  let s := if nBytesWritten (phy s) =? 0 then line_noise s else s in
  let '(nBytesSent, s) :=
    if nBytesWritten (phy s) + nBytesToSend >? BUFSIZE
    then (BUFSIZE - nBytesWritten (phy s), printf [PHY_BufferFull] s)
    else (nBytesToSend, s) in
  let threshold := threshold (rxProbErr (phy s)) in
  let s :=
    for_range 0 nBytesSent
      (fun i s =>
         let byteTx := rd dataTx i in
         let '(r, s) := rand s in
         let '(byteTx, s) :=
           if r <? threshold
           then
             let '(flip, s) := rand s in
             let flip := Z.rem flip 8 in
             let flip := Z.shiftl 1 flip in
             (to_byte (Z.lxor byteTx (to_byte flip)), printf [PHY_SimulatedError] s)
           else (byteTx, s) in
         set_phy (set_buffer (wr (buffer (phy s)) (nBytesWritten (phy s) + i) byteTx)
                    (phy s)) s)
      s in
  let s := set_phy (set_cursors (nBytesWritten (phy s) + nBytesSent)
                      (nBytesUsed (phy s)) (phy s)) s in
  (nBytesSent, s).

(** [PHY_get (dataRx + off, nBytesToGet)]: the value returned, the array
    [dataRx] after the call and the state. *)
Definition PHY_get (dataRx : list Z) (off : Z) (nBytesToGet : Z) (s : State)
  : Z * list Z * State :=
  let nBytesAvailable := nBytesWritten (phy s) - nBytesUsed (phy s) in
  if nBytesAvailable =? 0
  then
    let '(r, s) := rand s in
    let dataRx := wr dataRx (off + 0) (to_byte (Z.rem r 256)) in
    let s :=
      if rxTimeLimit (phy s) =? 0 then Sleep 10000 s
      else Sleep (rxTimeLimit (phy s)) s in
    (1, dataRx, s)
  else
    let nBytesGot :=
      if nBytesToGet >? nBytesAvailable then nBytesAvailable else nBytesToGet in
    let dataRx :=
      for_range 0 nBytesGot
        (fun i d => wr d (off + i) (rd (buffer (phy s)) (nBytesUsed (phy s) + i)))
        dataRx in
    let s := set_phy (set_cursors (nBytesWritten (phy s))
                        (nBytesUsed (phy s) + nBytesGot) (phy s)) s in
    let s :=
      if nBytesUsed (phy s) =? nBytesWritten (phy s)
      then set_phy (set_cursors 0 0 (phy s)) s
      else s in
    (nBytesGot, dataRx, s).

End Sim.

(** ** The link layer of [linklayer1.c] *)

Module LL.

Import Libc Codec Sim.

Definition timeSet (limit : Q) (s : State) : Z * State :=
  let '(t, s) := clock s in
  (t + trunc (limit * inject_Z CLOCKS_PER_SEC)%Q, s).

Definition timeUp (timeLimit : Z) (s : State) : Z * State :=
  let '(t, s) := clock s in
  if t <? timeLimit then (0, s) else (1, s).

Definition set_timerRx (t : Z) (s : State) : State :=
  let l := link s in
  set_link (mkLink (seqNumTx l) (connected l) (framesSent l) (badFrames l)
              (goodFrames l) (timeouts l) t) s.

(** How a loop of [getFrame] ends: by a [return] of the function, or by
    leaving the loop with the local variables as they then are. *)
Inductive LoopEnd (A : Type) : Type :=
| Returned (v : Z)
| Left (locals : A).
Arguments Returned {A} v.
Arguments Left {A} locals.

(** The first loop of [getFrame], the search for the start of frame
    marker; the local variable it leaves is [retVal].  [fuel] bounds the
    number of iterations; [None] is a run cut short by it. *)
Fixpoint search_start (fuel : nat) (frameRx : list Z) (s : State)
  : option (LoopEnd Z * list Z * State) :=
  match fuel with
  | O => None
  | S fuel' =>
      let '(retVal, frameRx, s) := PHY_get frameRx 0 1 s in
      if retVal <? 0 then Some (Returned retVal, frameRx, s)
      else if (retVal <? 1) || negb (rd frameRx 0 =? STARTBYTE)
      then
        let '(up, s) := timeUp (timerRx (link s)) s in
        if up =? 0 then search_start fuel' frameRx s
        else Some (Left retVal, frameRx, s)
      else Some (Left retVal, frameRx, s)
  end.

(** The second loop of [getFrame], which collects the rest of the frame;
    the local variable it leaves is [nRx].  The value of [PHY_get] is not
    kept: [retVal] is what the read of the byte count left. *)
Fixpoint collect (fuel : nat) (retVal byteCount nRx : Z) (frameRx : list Z) (s : State)
  : option (LoopEnd Z * list Z * State) :=
  match fuel with
  | O => None
  | S fuel' =>
      let '(_, frameRx, s) := PHY_get frameRx nRx 1 s in
      if retVal <? 0 then Some (Returned retVal, frameRx, s)
      else
        let nRx := nRx + retVal in
        if nRx <? byteCount
        then
          let '(up, s) := timeUp (timerRx (link s)) s in
          if up =? 0 then collect fuel' retVal byteCount nRx frameRx s
          else Some (Left nRx, frameRx, s)
        else Some (Left nRx, frameRx, s)
  end.

Definition getFrame (fuel : nat) (frameRx : list Z) (maxSize : Z) (timeLimit : Q)
    (s : State) : option (Z * list Z * State) :=
  let nRx := 0 in
  let '(t, s) := timeSet timeLimit s in
  let s := set_timerRx t s in
  match search_start fuel frameRx s with
  | None => None
  | Some (Returned v, frameRx, s) => Some (v, frameRx, s)
  | Some (Left _, frameRx, s) =>
      let '(retVal, frameRx, s) := PHY_get frameRx 1 1 s in
      if retVal <? 0 then Some (retVal, frameRx, s)
      else
        let byteCount := rd frameRx BYTECOUNTPOS in
        let '(up, s) := timeUp (timerRx (link s)) s in
        if negb (up =? 0) then Some (0, frameRx, printf [LLGF_Timeout nRx] s)
        else
          let nRx := 2 in
          match collect fuel retVal byteCount nRx frameRx s with
          | None => None
          | Some (Returned v, frameRx, s) => Some (v, frameRx, s)
          | Some (Left nRx, frameRx, s) =>
              let '(up, s) := timeUp (timerRx (link s)) s in
              if negb (up =? 0) then Some (0, frameRx, printf [LLGF_Timeout nRx] s)
              else Some (nRx, frameRx, s)
          end
  end.

Definition set_connected (c : Z) (s : State) : State :=
  let l := link s in
  set_link (mkLink (seqNumTx l) c (framesSent l) (badFrames l)
              (goodFrames l) (timeouts l) (timerRx l)) s.

Definition LL_connect (debug : Z) (s : State) : Z * State :=
  let '(retCode, s) := PHY_open 1 4800 8 0 1000 50 PROB_ERR s in
  if retCode =? 0
  then
    let s := set_link (mkLink 0 1 0 0 0 0 (timerRx (link s))) s in
    let s := if negb (debug =? 0) then printf [LL_Connected] s else s in
    (0, s)
  else
    let s := set_connected 0 s in
    let s := printf [LL_ConnectFailed retCode] s in
    (- retCode, s).

Definition LL_discon (debug : Z) (s : State) : Z * State :=
  let '(retCode, s) := PHY_close s in
  let s := set_connected 0 s in
  if retCode =? 0
  then
    let s :=
      if negb (debug =? 0)
      then printf [LL_Disconnected (framesSent (link s));
                   LL_Counters (goodFrames (link s)) (badFrames (link s))
                     (timeouts (link s))] s
      else s in
    (0, s)
  else
    let s := printf [LL_DisconFailed retCode] s in
    (- retCode, s).

(** The local array [frameTx] of [LL_send] and [frameRx] of [LL_receive],
    [3*MAX_BLK] bytes; what it holds before it is written is not defined
    in C, and is taken as zeros. *)
Definition frame_array : list Z := replicate (Z.to_nat (3 * MAX_BLK)) 0.

Definition LL_send (dataTx : list Z) (nData : Z) (debug : Z) (s : State) : Z * State :=
  let frameTx := frame_array in
  if connected (link s) =? 0
  then (-10, printf [LL_SendNotConnected] s)
  else if nData >? MAX_BLK
  then (-11, printf [LL_BlockTooBig nData MAX_BLK] s)
  else
    let '(frameTx, nFrame) := buildDataFrame frameTx dataTx nData (seqNumTx (link s)) in
    let '(retVal, s) := PHY_send frameTx nFrame s in
    if negb (retVal =? nFrame)
    then (-12, printf [LL_SendFailed (seqNumTx (link s))] s)
    else
      let s := if negb (debug =? 0)
               then printf [LL_Sent nFrame (seqNumTx (link s))] s else s in
      let l := link s in
      let s := set_link (mkLink (seqNumTx l) (connected l) (framesSent l + 1)
                           (badFrames l) (goodFrames l) (timeouts l) (timerRx l)) s in
      let l := link s in
      let s := set_link (mkLink (next (seqNumTx l)) (connected l) (framesSent l)
                           (badFrames l) (goodFrames l) (timeouts l) (timerRx l)) s in
      (0, s).

(** [LL_receive]: the value returned, the caller's array [dataRx] after
    the call and the state; [None] when [fuel] cuts [getFrame] short. *)
Definition LL_receive (fuel : nat) (dataRx : list Z) (maxData : Z) (debug : Z)
    (s : State) : option (Z * list Z * State) :=
  let frameRx := frame_array in
  if connected (link s) =? 0
  then Some (-10, dataRx, printf [LL_RecvNotConnected] s)
  else
    match getFrame fuel frameRx (3 * MAX_BLK) RX_WAIT s with
    | None => None
    | Some (nFrame, frameRx, s) =>
        if nFrame <? 0 then Some (-9, dataRx, s)
        else if nFrame =? 0
        then
          let s := printf [LL_Timeout] s in
          let l := link s in
          let s := set_link (mkLink (seqNumTx l) (connected l) (framesSent l)
                               (badFrames l) (goodFrames l) (timeouts l + 1)
                               (timerRx l)) s in
          Some (-5, dataRx, s)
        else
          let s := if negb (debug =? 0) then printf [LL_GotFrame nFrame] s else s in
          let '(ok, msgs) := checkFrame frameRx nFrame in
          let s := printf msgs s in
          if ok =? 0
          then
            let s := if negb (debug =? 0) then printf [LL_BadFrame] s else s in
            let s := printf (printFrame frameRx nFrame) s in
            let l := link s in
            let s := set_link (mkLink (seqNumTx l) (connected l) (framesSent l)
                                 (badFrames l + 1) (goodFrames l) (timeouts l)
                                 (timerRx l)) s in
            let dataRx := for_range 0 10 (fun i d => wr d i 35) dataRx in
            Some (10, dataRx, s)
          else
            let s := if negb (debug =? 0) then printf [LL_GoodFrame] s else s in
            let l := link s in
            let s := set_link (mkLink (seqNumTx l) (connected l) (framesSent l)
                                 (badFrames l) (goodFrames l + 1) (timeouts l)
                                 (timerRx l)) s in
            let '(dataRx, nData, seqNumRx) :=
              processFrame frameRx nFrame dataRx maxData in
            let s := if negb (debug =? 0)
                     then printf [LL_RecvBlock seqNumRx nData] s else s in
            Some (nData, dataRx, s)
    end.

End LL.

(** ** The test program of [LLtest.c] *)

Module LLtest.

Import Libc LL.









End LLtest.

(** The state in which the program starts: static variables as they are
    initialised, nothing printed yet. *)
Definition initial (e : Env) : State :=
  mkState (mkLink 0 0 0 0 0 0 0)
          (mkPhy (replicate (Z.to_nat BUFSIZE) 0) 0 0 0 (0 # 1))
          e [].

Import Libc Codec Sim LL LLtest.

(** ** Notions used in the statements *)

Definition sum_list (l : list Z) : Z := foldr Z.add 0 l.

(** The sum of [f lo], ..., [f (lo + n - 1)]. *)
Fixpoint sum_from (f : Z -> Z) (lo : Z) (n : nat) : Z :=
  match n with
  | O => 0
  | S n' => f lo + sum_from f (lo + 1) n'
  end.

(** The checksum byte [buildDataFrame] computes from the sum of the
    data bytes. *)
Definition checksum_of (sum : Z) : Z := to_byte (Z.rem (256 - Z.rem sum 256) 256).

(** The number of random bytes [PHY_send] puts in front of a frame
    that starts on an empty array. *)
Definition noise_count (s : State) : Z := 4 + Z.rem (rand s).1 16.

(** What [PHY_send] stores for a byte of the caller: the byte itself, or
    the byte with one of its eight bits inverted. *)
Definition stored_for (byteTx stored : Z) : Prop :=
  stored = byteTx \/
  exists bit, 0 <= bit < 8 /\ stored = to_byte (Z.lxor byteTx (to_byte (Z.shiftl 1 bit))).

(** A channel without simulated errors: [rand] always gives 1234, which is
    not below the error threshold, and a tick passes before each reading
    of the clock. *)
Definition calm : Env := mkEnv (fun _ => 1234%N) 0 0 (fun _ => 1%N) 0.

(** A channel on which one simulated error strikes the second byte of the
    first frame, its byte count, and inverts the bit of value 4. *)
Definition count_error : Env :=
  mkEnv (fun i => if (i =? 8)%nat then 0%N else if (i =? 9)%nat then 2%N else 1234%N)
        0 0 (fun _ => 1%N) 0.

(** The state when the link layer has connected on that channel and sent
    a block of one byte: the frame's byte count, 6, is in the channel
    array as 2. *)
Definition short_count_state : State :=
  (LL_send [65] 1 0 (LL_connect 0 (initial count_error)).2).2.

(** C9 as first stated: the number returned is the byte count received
    when that is at least 2, and 2 otherwise. *)
Definition getFrame_count_as_stated : Prop :=
  forall fuel frameRx maxSize timeLimit s n frameRx' s',
    getFrame fuel frameRx maxSize timeLimit s = Some (n, frameRx', s') ->
    0 < n ->
    n = (if 2 <=? rd frameRx' BYTECOUNTPOS then rd frameRx' BYTECOUNTPOS else 2).

(** What a call leaves, apart from what it printed. *)
Definition silent_part (s : State) : Link * Phy * Env := (link s, phy s, env s).

(** Calls of [LL_send] one after the other: the values they return and
    the state they leave.  A block is the array, [nData] and the debug
    flag. *)
Fixpoint send_blocks (blocks : list (list Z * Z * Z)) (s : State) : list Z * State :=
  match blocks with
  | [] => ([], s)
  | (dataTx, nData, debug) :: rest =>
      let '(r, s) := LL_send dataTx nData debug s in
      let '(rs, s) := send_blocks rest s in
      (r :: rs, s)
  end.

(** The state after [LL_connect] on the calm channel. *)
Definition connected_calm : State := (LL_connect 0 (initial calm)).2.

(** A channel on which one simulated error strikes the eighth byte of
    the first frame. *)
Definition one_error : Env :=
  mkEnv (fun i => if (i =? 14)%nat then 0%N else 1234%N) 0 0 (fun _ => 1%N) 0.

Definition block10 : list Z := [1; 2; 3; 4; 5; 6; 7; 8; 9; 10].

(** The state after connecting on channel [e] and sending [block10],
    and the call of [LL_receive] that follows, into an array of twelve
    bytes. *)
Definition sent (e : Env) : State :=
  (LL_send block10 10 0 (LL_connect 0 (initial e)).2).2.

Definition received (e : Env) : option (Z * list Z * State) :=
  LL_receive 40 (replicate 12 0) 12 0 (sent e).

(** The bytes waiting in the channel array, and the time left on the
    receive timer. *)
Definition waiting (s : State) : Z :=
  Z.max 0 (nBytesWritten (phy s) - nBytesUsed (phy s)).

Definition time_left (s : State) : Z :=
  Z.max 0 (timerRx (link s) - now (env s)).

(** The channel array is in order: it has its declared size, and the
    read cursor is not beyond the write cursor, which is not beyond the
    end of the array. *)
Definition chan_ok (p : Phy) : Prop :=
  length (buffer p) = Z.to_nat BUFSIZE /\
  0 <= nBytesUsed p <= nBytesWritten p /\
  nBytesWritten p <= BUFSIZE.

(** The variables of the link layer are in order: the sequence number is
    below the modulus, the connection flag is 0 or 1 and no counter is
    negative. *)
Definition link_ok (l : Link) : Prop :=
  0 <= seqNumTx l < MOD_SEQNUM /\
  (connected l = 0 \/ connected l = 1) /\
  0 <= framesSent l /\ 0 <= badFrames l /\ 0 <= goodFrames l /\ 0 <= timeouts l.

(** A session in order: the variables of the link layer and the channel
    array are. *)
Definition session_ok (s : State) : Prop := link_ok (link s) /\ chan_ok (phy s).

(** A byte with one of its eight bits inverted, as [PHY_send] does it. *)
Definition flip_bit (b bit : Z) : Z := to_byte (Z.lxor b (to_byte (Z.shiftl 1 bit))).


(** The time a read of the empty channel takes, in milliseconds. *)
Definition sleep_time (p : Phy) : Z :=
  (if rxTimeLimit p =? 0 then 10000 else rxTimeLimit p) mod 2 ^ 32.

(** The clock is slow: at most 60 ticks pass before each reading. *)
Definition slow_clock (s : State) : Prop :=
  forall i, Z.of_N (tick_src (env s) i) <= 60.

(** State [s'] is state [s] after reads of the channel that took [m]
    waiting bytes, which puts the cursors back at 0 when they were the
    last, and readings of the clock in which at most [ticks] ticks
    passed; the variables of the link layer apart, nothing else
    differs. *)
Definition after_reads (m ticks : Z) (s s' : State) : Prop :=
  out s' = out s /\
  buffer (phy s') = buffer (phy s) /\
  rxTimeLimit (phy s') = rxTimeLimit (phy s) /\
  rxProbErr (phy s') = rxProbErr (phy s) /\
  (0 < m -> nBytesUsed (phy s) + m = nBytesWritten (phy s) ->
   nBytesWritten (phy s') = 0 /\ nBytesUsed (phy s') = 0) /\
  (m = 0 \/ nBytesUsed (phy s) + m <> nBytesWritten (phy s) ->
   nBytesWritten (phy s') = nBytesWritten (phy s) /\
   nBytesUsed (phy s') = nBytesUsed (phy s) + m) /\
  rand_src (env s') = rand_src (env s) /\
  rand_pos (env s') = rand_pos (env s) /\
  tick_src (env s') = tick_src (env s) /\
  now (env s) <= now (env s') <= now (env s) + ticks.

(** The bytes that wait in the channel, in the order in which they will
    be read. *)
Definition pending (p : Phy) : list Z :=
  take (Z.to_nat (nBytesWritten p - nBytesUsed p)) (drop (Z.to_nat (nBytesUsed p)) (buffer p)).


(** The state after connecting on the calm channel and sending seven
    blocks of 250 bytes, none of them received: 1791 of the 2000 bytes of
    the channel array are taken. *)
Definition nearly_full : State :=
  (send_blocks (replicate 7 (replicate 250 65, 250, 0)) connected_calm).2.

(** The state after connecting on the calm channel and sending, through
    the physical layer, the three bytes of a frame that has no sequence
    number, no data and no checksum. *)
Definition short_frame_state : State :=
  (PHY_send [STARTBYTE; 3; ENDBYTE] 3 connected_calm).2.

(** * Properties *)

(** ** Arrays and loops *)

Lemma length_wr (a : list Z) (i v : Z) : length (wr a i v) = length a.
Proof. unfold wr. destruct (i <? 0); [done | apply length_insert]. Qed.

Lemma rd_wr_eq (a : list Z) (i v : Z) :
  0 <= i < Z.of_nat (length a) -> rd (wr a i v) i = v.
Proof.
  intros Hi. unfold rd, wr.
  destruct (Z.ltb_spec i 0) as [Hn | _]; [lia |].
  rewrite list_lookup_insert_eq by lia. done.
Qed.

Lemma rd_wr_ne (a : list Z) (i j v : Z) : i <> j -> rd (wr a i v) j = rd a j.
Proof.
  intros Hne. unfold rd, wr.
  destruct (Z.ltb_spec j 0) as [Hj | Hj]; [done |].
  destruct (Z.ltb_spec i 0) as [Hi | Hi]; [done |].
  rewrite list_lookup_insert_ne by lia. done.
Qed.

Lemma rd_lookup (a : list Z) (i : nat) (x : Z) :
  a !! i = Some x -> rd a (Z.of_nat i) = x.
Proof.
  intros H. unfold rd.
  destruct (Z.ltb_spec (Z.of_nat i) 0) as [Hn | _]; [lia |].
  rewrite Nat2Z.id, H. done.
Qed.

Lemma rd_take (a : list Z) (n : nat) (i : Z) :
  i < Z.of_nat n -> rd (take n a) i = rd a i.
Proof.
  intros Hi. unfold rd. destruct (Z.ltb_spec i 0) as [Hn | Hp]; [done |].
  rewrite lookup_take_lt by lia. done.
Qed.

(** Two arrays of one size with the same bytes at every index are equal. *)
Lemma list_eq_rd (a b : list Z) :
  length a = length b ->
  (forall i, 0 <= i < Z.of_nat (length a) -> rd a i = rd b i) ->
  a = b.
Proof.
  intros Hlen Hrd. apply list_eq_same_length with (length a); [done | done |].
  intros i x y Hi Hx Hy.
  specialize (Hrd (Z.of_nat i) ltac:(lia)).
  rewrite (rd_lookup _ _ _ Hx), (rd_lookup _ _ _ Hy) in Hrd. done.
Qed.

Section Loops.
Context {S : Type}.
Variable body : Z -> S -> S.

Lemma for_loop_inv (P : Z -> S -> Prop) (n : nat) (lo : Z) (s : S) :
  P lo s ->
  (forall i t, lo <= i < lo + Z.of_nat n -> P i t -> P (i + 1) (body i t)) ->
  P (lo + Z.of_nat n) (for_loop n lo body s).
Proof.
  revert lo s. induction n as [| n IH]; intros lo s H0 Hstep; simpl for_loop.
  - replace (lo + Z.of_nat 0) with lo by lia. done.
  - replace (lo + Z.of_nat (Datatypes.S n)) with (lo + 1 + Z.of_nat n) by lia.
    apply IH.
    + apply Hstep; [lia | done].
    + intros i t Hi. apply Hstep. lia.
Qed.

(** The invariant rule of [for (i = lo; i < hi; i++)]. *)
Lemma for_range_inv (P : Z -> S -> Prop) (lo hi : Z) (s : S) :
  lo <= hi ->
  P lo s ->
  (forall i t, lo <= i < hi -> P i t -> P (i + 1) (body i t)) ->
  P hi (for_range lo hi body s).
Proof.
  intros Hle H0 Hstep. unfold for_range.
  replace hi with (lo + Z.of_nat (Z.to_nat (hi - lo))) at 1 by lia.
  apply for_loop_inv; [done |].
  intros i t Hi. apply Hstep. lia.
Qed.

Lemma for_range_none (lo hi : Z) (s : S) : hi <= lo -> for_range lo hi body s = s.
Proof.
  intros Hle. unfold for_range. replace (Z.to_nat (hi - lo)) with O by lia. done.
Qed.

(** A property that every turn of the loop keeps holds at its end. *)
Lemma for_range_keeps (P : S -> Prop) (lo hi : Z) (s : S) :
  P s -> (forall i t, lo <= i < hi -> P t -> P (body i t)) ->
  P (for_range lo hi body s).
Proof.
  intros H0 Hstep. destruct (Z.le_gt_cases lo hi) as [Hle | Hgt].
  - apply (for_range_inv (fun _ => P)); done.
  - rewrite for_range_none by lia. done.
Qed.
End Loops.

(** ** Sums of bytes *)

Lemma for_loop_sum (f : Z -> Z) (n : nat) (lo c : Z) :
  for_loop n lo (fun i c => c + f i) c = c + sum_from f lo n.
Proof.
  revert lo c. induction n as [| n IH]; intros lo c; simpl; [lia |].
  rewrite IH. lia.
Qed.

Lemma sum_from_ext (f g : Z -> Z) (lo : Z) (n : nat) :
  (forall i, lo <= i < lo + Z.of_nat n -> f i = g i) ->
  sum_from f lo n = sum_from g lo n.
Proof.
  revert lo. induction n as [| n IH]; intros lo H; simpl; [done |].
  rewrite H by lia. f_equal. apply IH. intros i Hi. apply H. lia.
Qed.

Lemma sum_from_shift (f : Z -> Z) (k lo : Z) (n : nat) :
  sum_from (fun i => f (i + k)) lo n = sum_from f (lo + k) n.
Proof.
  revert lo. induction n as [| n IH]; intros lo; simpl; [done |].
  rewrite IH. do 2 f_equal. lia.
Qed.

Lemma sum_from_last (f : Z -> Z) (lo : Z) (n : nat) :
  sum_from f lo (S n) = sum_from f lo n + f (lo + Z.of_nat n).
Proof.
  revert lo. induction n as [| n IH]; intros lo.
  - cbn [sum_from Z.of_nat]. rewrite !Z.add_0_r. done.
  - change (sum_from f lo (S (S n))) with (f lo + sum_from f (lo + 1) (S n)).
    rewrite IH. simpl sum_from.
    replace (lo + 1 + Z.of_nat n) with (lo + Z.of_nat (S n)) by lia. lia.
Qed.

(** The sum a loop takes over the indices of an array is the sum of that
    part of the list. *)
Lemma sum_from_rd (a : list Z) (lo n : nat) :
  (lo + n <= length a)%nat ->
  sum_from (rd a) (Z.of_nat lo) n = sum_list (take n (drop lo a)).
Proof.
  revert lo. induction n as [| n IH]; intros lo Hlen; simpl sum_from.
  - by rewrite take_0.
  - destruct (lookup_lt_is_Some_2 a lo ltac:(lia)) as [x Hx].
    rewrite (drop_S _ _ _ Hx). simpl. rewrite (rd_lookup _ _ _ Hx).
    replace (Z.of_nat lo + 1) with (Z.of_nat (S lo)) by lia.
    rewrite IH by lia. done.
Qed.

(** ** The frame codec *)

Section CodecFacts.

Lemma checksum_of_cancels (sum : Z) : Z.rem (sum + checksum_of sum) 256 = 0.
Proof.
  unfold checksum_of, to_byte. apply Z.rem_divide; [lia |].
  pose proof (Z.rem_mod_eq_0 (256 - Z.rem sum 256) 256 ltac:(lia)) as _.
  pose proof (Z.quot_rem' sum 256) as Hs.
  pose proof (Z.quot_rem' (256 - Z.rem sum 256) 256) as Ht.
  pose proof (Z.div_mod (Z.rem (256 - Z.rem sum 256) 256) 256 ltac:(lia)) as Hu.
  exists (Z.quot sum 256 + 1 - Z.quot (256 - Z.rem sum 256) 256
          - Z.rem (256 - Z.rem sum 256) 256 / 256).
  lia.
Qed.

(** What [buildDataFrame] leaves in the frame array, byte by byte. *)
Lemma buildDataFrame_bytes (frameTx dataTx : list Z) (nData seq : Z) :
  0 <= nData -> nData + 5 <= Z.of_nat (length frameTx) ->
  let '(f, n) := buildDataFrame frameTx dataTx nData seq in
  n = 5 + nData /\
  length f = length frameTx /\
  rd f 0 = STARTBYTE /\
  rd f BYTECOUNTPOS = to_byte (5 + nData) /\
  rd f SEQNUMPOS = to_byte seq /\
  (forall j, 0 <= j < nData -> rd f (HEADERSIZE + j) = rd dataTx j) /\
  rd f (HEADERSIZE + nData) = checksum_of (sum_from (rd dataTx) 0 (Z.to_nat nData)) /\
  rd f (HEADERSIZE + nData + 1) = ENDBYTE.
Proof.
  intros Hn Hlen. unfold buildDataFrame.
  set (f0 := wr (wr (wr frameTx 0 STARTBYTE) BYTECOUNTPOS _) SEQNUMPOS _).
  set (body := fun (i : Z) '(f, c) => (wr f (i + HEADERSIZE) (rd dataTx i), c + rd dataTx i)).
  assert (Hinv :
    let '(f, c) := for_range 0 nData body (f0, 0) in
    length f = length frameTx /\
    rd f 0 = STARTBYTE /\
    rd f BYTECOUNTPOS = to_byte (5 + nData) /\
    rd f SEQNUMPOS = to_byte seq /\
    (forall j, 0 <= j < nData -> rd f (HEADERSIZE + j) = rd dataTx j) /\
    c = sum_from (rd dataTx) 0 (Z.to_nat nData)).
  { apply (for_range_inv body
      (fun i '(f, c) =>
         length f = length frameTx /\
         rd f 0 = STARTBYTE /\
         rd f BYTECOUNTPOS = to_byte (5 + nData) /\
         rd f SEQNUMPOS = to_byte seq /\
         (forall j, 0 <= j < i -> rd f (HEADERSIZE + j) = rd dataTx j) /\
         c = sum_from (rd dataTx) 0 (Z.to_nat i))); [done | |].
    - unfold f0, BYTECOUNTPOS, SEQNUMPOS, HEADERSIZE, TRAILERSIZE.
      rewrite !length_wr. split; [done |].
      split; [rewrite !rd_wr_ne by lia; apply rd_wr_eq; lia |].
      split; [rewrite rd_wr_ne by lia; rewrite rd_wr_eq;
              [f_equal; lia | rewrite length_wr; lia] |].
      split; [apply rd_wr_eq; rewrite !length_wr; lia |].
      split; [intros j Hj; lia | done].
    - intros i [f c] Hi (Hl & H0 & H1 & H2 & Hd & Hc).
      unfold body, BYTECOUNTPOS, SEQNUMPOS, HEADERSIZE in *.
      rewrite length_wr. split; [done |].
      rewrite !rd_wr_ne by lia. do 3 (split; [done |]). split.
      + intros j Hj. destruct (decide (j = i)) as [-> | Hne].
        * replace (3 + i) with (i + 3) by lia. apply rd_wr_eq. lia.
        * rewrite rd_wr_ne by lia. apply Hd. lia.
      + replace (Z.to_nat (i + 1)) with (Datatypes.S (Z.to_nat i)) by lia.
        rewrite sum_from_last, Hc. f_equal. f_equal. lia. }
  destruct (for_range 0 nData body (f0, 0)) as [f c].
  destruct Hinv as (Hl & H0 & H1 & H2 & Hd & Hc).
  unfold BYTECOUNTPOS, SEQNUMPOS, HEADERSIZE, TRAILERSIZE in *.
  rewrite !length_wr. split; [lia |]. split; [done |].
  rewrite !rd_wr_ne by lia. do 3 (split; [done |]). split.
  { intros j Hj. rewrite !rd_wr_ne by lia. apply Hd. done. }
  split.
  - rewrite rd_wr_eq by lia. unfold checksum_of. by rewrite Hc.
  - apply rd_wr_eq. rewrite length_wr. lia.
Qed.

(** The loop of [checkFrame] adds up the bytes after the header up to
    and including the checksum byte. *)
Lemma checkFrame_value (frameRx : list Z) (nFrame : Z) :
  (checkFrame frameRx nFrame).1 =
  truth ((rd frameRx 0 =? STARTBYTE) && (rd frameRx (nFrame - 1) =? ENDBYTE)
         && (Z.rem (sum_from (rd frameRx) HEADERSIZE (Z.to_nat (nFrame - 4))) 256 =? 0)
         && (nFrame =? rd frameRx BYTECOUNTPOS)).
Proof.
  unfold checkFrame, for_range. rewrite for_loop_sum.
  replace (HEADERSIZE + (nFrame - (HEADERSIZE + TRAILERSIZE)) + 1 - HEADERSIZE)
    with (nFrame - 4) by (unfold HEADERSIZE, TRAILERSIZE; lia).
  rewrite Z.add_0_l.
  destruct (rd frameRx 0 =? STARTBYTE); [| done].
  destruct (rd frameRx (nFrame - 1) =? ENDBYTE); [| done].
  destruct (Z.rem _ 256 =? 0); [| done].
  destruct (nFrame =? rd frameRx BYTECOUNTPOS); done.
Qed.

(** [processFrame] copies the data bytes out of the frame. *)
Lemma processFrame_bytes (frameRx : list Z) (nFrame : Z) (dataRx : list Z) (maxData : Z) :
  let '(d, n, sq) := processFrame frameRx nFrame dataRx maxData in
  n = Z.min (nFrame - 5) maxData /\
  sq = rd frameRx SEQNUMPOS /\
  length d = length dataRx /\
  (forall j, 0 <= j < n -> j < Z.of_nat (length dataRx) ->
             rd d j = rd frameRx (HEADERSIZE + j)) /\
  (forall j, n <= j -> rd d j = rd dataRx j).
Proof.
  unfold processFrame.
  set (n := if (nFrame - HEADERSIZE - TRAILERSIZE) >? maxData then maxData else _).
  assert (Hn : n = Z.min (nFrame - 5) maxData).
  { unfold n, HEADERSIZE, TRAILERSIZE.
    destruct (Z.gtb_spec (nFrame - 3 - 2) maxData); lia. }
  split; [done |]. split; [done |].
  set (body := fun (i : Z) (d : list Z) => wr d i (rd frameRx (HEADERSIZE + i))).
  destruct (Z.le_gt_cases 0 n) as [Hle | Hgt].
  - apply (for_range_inv body
      (fun i d =>
         length d = length dataRx /\
         (forall j, 0 <= j < i -> j < Z.of_nat (length dataRx) ->
                    rd d j = rd frameRx (HEADERSIZE + j)) /\
         (forall j, i <= j -> rd d j = rd dataRx j))); [done | |].
    + split; [done |]. split; [intros; lia | done].
    + intros i d Hi (Hl & Hd & Hrest). unfold body. rewrite length_wr.
      split; [done |]. split.
      * intros j Hj Hjl. destruct (decide (j = i)) as [-> | Hne].
        -- apply rd_wr_eq. lia.
        -- rewrite rd_wr_ne by lia. apply Hd; lia.
      * intros j Hj. rewrite rd_wr_ne by lia. apply Hrest. lia.
  - rewrite for_range_none by lia. split; [done |]. split; [intros; lia | done].
Qed.
End CodecFacts.

Section CodecTheorems.

Lemma rem_256_zero (x : Z) : Z.rem x 256 = 0 <-> x mod 256 = 0.
Proof.
  rewrite Z.rem_divide by lia. rewrite Z.mod_divide by lia. done.
Qed.

(** For a block of at most 250 bytes the length byte is the frame size. *)
Lemma buildDataFrame_length_byte (frameTx dataTx : list Z) (nData seq : Z) :
  0 <= nData <= 250 -> nData + 5 <= Z.of_nat (length frameTx) ->
  rd (buildDataFrame frameTx dataTx nData seq).1 BYTECOUNTPOS = 5 + nData /\
  5 <= 5 + nData <= 255.
Proof.
  intros Hn Hlen.
  pose proof (buildDataFrame_bytes frameTx dataTx nData seq ltac:(lia) Hlen) as H.
  destruct (buildDataFrame frameTx dataTx nData seq) as [f n].
  destruct H as (_ & _ & _ & H1 & _). simpl. rewrite H1. unfold to_byte.
  rewrite Z.mod_small by lia. lia.
Qed.

(** C2.  A frame built by [buildDataFrame] from a block of 0 to 250
    bytes and a sequence number from 0 to 15 passes [checkFrame], and
    [processFrame] gives back from it the bytes of the block, their
    number and the sequence number, when the receiving array and
    [maxData] have room for the block. *)
Theorem build_check_process_roundtrip
    (frameTx dataTx dataRx : list Z) (seq maxData : Z) :
  let nData := Z.of_nat (length dataTx) in
  nData <= 250 ->
  0 <= seq <= 15 ->
  nData + 5 <= Z.of_nat (length frameTx) ->
  nData <= maxData ->
  nData <= Z.of_nat (length dataRx) ->
  let '(frame, nFrame) := buildDataFrame frameTx dataTx nData seq in
  (checkFrame frame nFrame).1 = 1 /\
  let '(data, n, seqNum) := processFrame frame nFrame dataRx maxData in
  take (length dataTx) data = dataTx /\ n = nData /\ seqNum = seq.
Proof.
  intros nData Hn Hseq Hlen Hmax Hrx.
  pose proof (buildDataFrame_bytes frameTx dataTx nData seq ltac:(lia) Hlen) as Hb.
  destruct (buildDataFrame frameTx dataTx nData seq) as [frame nFrame].
  destruct Hb as (-> & Hl & H0 & H1 & H2 & Hd & Hc & He).
  unfold BYTECOUNTPOS, SEQNUMPOS, HEADERSIZE in *. split.
  - rewrite checkFrame_value.
    replace (5 + nData - 1) with (3 + nData + 1) by lia.
    rewrite H0, He. unfold BYTECOUNTPOS, HEADERSIZE. rewrite H1.
    unfold to_byte. rewrite (Z.mod_small (5 + nData)) by lia.
    replace (Z.to_nat (5 + nData - 4)) with (S (Z.to_nat nData)) by lia.
    rewrite sum_from_last.
    replace (3 + Z.of_nat (Z.to_nat nData)) with (3 + nData) by lia.
    rewrite Hc.
    rewrite (sum_from_ext (rd frame) (fun i => rd dataTx (i + -3)) 3).
    + rewrite sum_from_shift. replace (3 + -3) with 0 by lia.
      rewrite checksum_of_cancels. rewrite !Z.eqb_refl. done.
    + intros i Hi. replace i with (3 + (i + -3)) at 1 by lia. apply Hd. lia.
  - pose proof (processFrame_bytes frame (5 + nData) dataRx maxData) as Hp.
    destruct (processFrame frame (5 + nData) dataRx maxData) as [[data n] seqNum].
    destruct Hp as (-> & -> & Hld & Hcopy & _).
    replace (Z.min (5 + nData - 5) maxData) with nData in * by lia.
    split; [| split; [done |]].
    + apply list_eq_rd.
      * rewrite length_take. lia.
      * intros i Hi. rewrite length_take in Hi.
        rewrite rd_take by lia. unfold HEADERSIZE in Hcopy.
        rewrite Hcopy by lia. apply Hd. lia.
    + unfold SEQNUMPOS. rewrite H2. unfold to_byte. apply Z.mod_small. lia.
Qed.

(** The hypotheses of C2 hold for a block of three bytes, sequence
    number 15 and arrays of the sizes the link layer uses. *)
Lemma build_check_process_roundtrip_witness :
  let '(frame, nFrame) := buildDataFrame (replicate 765 0) [65; 0; 255] 3 15 in
  (checkFrame frame nFrame).1 = 1 /\
  let '(data, n, seqNum) := processFrame frame nFrame (replicate 4 0) 4 in
  take 3 data = [65; 0; 255] /\ n = 3 /\ seqNum = 15.
Proof.
  apply (build_check_process_roundtrip (replicate 765 0) [65; 0; 255]
           (replicate 4 0) 15 4); simpl; lia.
Defined.

(** C3.  On a frame of [nFrame >= 5] bytes [checkFrame] returns 1 when
    the first byte is the start marker, the last byte is the end marker,
    the byte count at offset 1 is [nFrame] and the data bytes and the
    checksum byte add up to 0 modulo 256; it returns 0 when one of the
    four fails. *)
Theorem checkFrame_iff (frameRx : list Z) (nFrame : Z) :
  5 <= nFrame <= Z.of_nat (length frameRx) ->
  let payload := take (Z.to_nat (nFrame - 5)) (drop 3 frameRx) in
  let checksum := rd frameRx (nFrame - 2) in
  let good :=
    rd frameRx 0 = STARTBYTE /\
    rd frameRx (nFrame - 1) = ENDBYTE /\
    rd frameRx BYTECOUNTPOS = nFrame /\
    (sum_list payload + checksum) mod 256 = 0 in
  ((checkFrame frameRx nFrame).1 = 1 <-> good) /\
  (~ good -> (checkFrame frameRx nFrame).1 = 0).
Proof.
  intros Hn payload checksum good.
  assert (Hsum : sum_from (rd frameRx) HEADERSIZE (Z.to_nat (nFrame - 4))
                 = sum_list payload + checksum).
  { replace (Z.to_nat (nFrame - 4)) with (S (Z.to_nat (nFrame - 5))) by lia.
    rewrite sum_from_last. unfold HEADERSIZE, payload, checksum.
    change 3 with (Z.of_nat 3) at 1. rewrite sum_from_rd by lia.
    do 2 f_equal. lia. }
  assert (Hval : (checkFrame frameRx nFrame).1 = 1 \/ (checkFrame frameRx nFrame).1 = 0).
  { rewrite checkFrame_value. destruct (_ && _); simpl; auto. }
  assert (Hiff : (checkFrame frameRx nFrame).1 = 1 <-> good).
  { rewrite checkFrame_value, Hsum. unfold good.
    rewrite <- rem_256_zero.
    destruct (Z.eqb_spec (rd frameRx 0) STARTBYTE);
      destruct (Z.eqb_spec (rd frameRx (nFrame - 1)) ENDBYTE);
      destruct (Z.eqb_spec (Z.rem (sum_list payload + checksum) 256) 0);
      destruct (Z.eqb_spec nFrame (rd frameRx BYTECOUNTPOS));
      simpl; intuition congruence. }
  split; [done |]. intros Hbad. destruct Hval as [H1 | H0]; [| done].
  exfalso. apply Hbad, Hiff, H1.
Qed.

(** The hypothesis of C3 holds for a frame of five bytes, the frame of
    an empty block, which [checkFrame] accepts. *)
Lemma checkFrame_iff_witness :
  (checkFrame [206; 5; 0; 0; 204] 5).1 = 1.
Proof.
  apply (checkFrame_iff [206; 5; 0; 0; 204] 5); [simpl; lia |].
  repeat split; reflexivity.
Defined.
End CodecTheorems.

(** ** The simulated channel *)

Section SimFacts.

Lemma rem_bounds (r m : Z) : 0 <= r -> 0 < m -> 0 <= Z.rem r m < m.
Proof. intros Hr Hm. apply Z.rem_bound_pos; lia. Qed.

Lemma rand_nonneg (s : State) : 0 <= (rand s).1.
Proof. unfold rand. simpl. lia. Qed.

Lemma noise_count_bounds (s : State) : 4 <= noise_count s <= 19.
Proof.
  unfold noise_count.
  pose proof (rem_bounds (rand s).1 16 (rand_nonneg s) ltac:(lia)). lia.
Qed.

(** What [line_noise] does to the state. *)
Lemma line_noise_facts (s : State) :
  let s' := line_noise s in
  link s' = link s /\
  out s' = out s /\
  nBytesWritten (phy s') = noise_count s /\
  nBytesUsed (phy s') = nBytesUsed (phy s) /\
  rxTimeLimit (phy s') = rxTimeLimit (phy s) /\
  rxProbErr (phy s') = rxProbErr (phy s) /\
  length (buffer (phy s')) = length (buffer (phy s)) /\
  (forall i, 0 <= i < noise_count s -> i < Z.of_nat (length (buffer (phy s))) ->
             0 <= rd (buffer (phy s')) i <= 199).
Proof.
  unfold line_noise. cbn [rand fst snd].
  set (k := 4 + Z.rem _ 16).
  assert (Hk : k = noise_count s) by done.
  pose proof (noise_count_bounds s) as Hb. rewrite <- Hk in *.
  set (s1 := set_phy _ _).
  change (nBytesWritten (phy s1)) with k.
  match goal with |- context [for_range 0 k ?b s1] => set (body := b) end.
  apply (for_range_inv body
    (fun i t =>
       link t = link s /\ out t = out s /\
       nBytesWritten (phy t) = k /\
       nBytesUsed (phy t) = nBytesUsed (phy s) /\
       rxTimeLimit (phy t) = rxTimeLimit (phy s) /\
       rxProbErr (phy t) = rxProbErr (phy s) /\
       length (buffer (phy t)) = length (buffer (phy s)) /\
       (forall j, 0 <= j < i -> j < Z.of_nat (length (buffer (phy s))) ->
                  0 <= rd (buffer (phy t)) j <= 199))); [lia | |].
  - repeat split; try done; intros; lia.
  - intros i t Hi (Hl & Ho & Hw & Hu & Ht & Hp & Hlen & Hn).
    unfold body. cbn. rewrite length_wr.
    repeat (split; [done |]).
    intros j Hj Hjl. destruct (decide (j = i)) as [-> | Hne].
    + rewrite rd_wr_eq by lia. unfold to_byte.
      pose proof (rem_bounds (rand t).1 200 (rand_nonneg t) ltac:(lia)) as Hr.
      cbn in Hr. rewrite Z.mod_small by lia. lia.
    + rewrite rd_wr_ne by lia. apply Hn; lia.
Qed.

(** The bytes [PHY_send] stores leave alone everything below the place
    where the write cursor was, and go in from that place on, each as it
    is or with one bit inverted. *)
Lemma PHY_send_facts (dataTx : list Z) (nBytesToSend : Z) (s : State) :
  let s1 := if nBytesWritten (phy s) =? 0 then line_noise s else s in
  let '(ret, s') := PHY_send dataTx nBytesToSend s in
  link s' = link s /\
  nBytesWritten (phy s') = nBytesWritten (phy s1) + ret /\
  ret = (if nBytesWritten (phy s1) + nBytesToSend >? BUFSIZE
         then BUFSIZE - nBytesWritten (phy s1) else nBytesToSend) /\
  nBytesUsed (phy s') = nBytesUsed (phy s) /\
  length (buffer (phy s')) = length (buffer (phy s)) /\
  (forall j, j < nBytesWritten (phy s1) ->
             rd (buffer (phy s')) j = rd (buffer (phy s1)) j) /\
  (length (buffer (phy s)) = Z.to_nat BUFSIZE -> 0 <= nBytesWritten (phy s1) ->
   forall i, 0 <= i < ret ->
     stored_for (rd dataTx i) (rd (buffer (phy s')) (nBytesWritten (phy s1) + i))).
Proof.
  intros s1. unfold PHY_send. fold s1.
  assert (H1 : link s1 = link s /\ nBytesUsed (phy s1) = nBytesUsed (phy s) /\
               length (buffer (phy s1)) = length (buffer (phy s))).
  { unfold s1. destruct (nBytesWritten (phy s) =? 0); [| done].
    pose proof (line_noise_facts s) as H. cbv zeta in H. tauto. }
  destruct H1 as (Hl1 & Hu1 & Hlen1).
  set (W := nBytesWritten (phy s1)).
  set (full := W + nBytesToSend >? BUFSIZE).
  set (n := if full then BUFSIZE - W else nBytesToSend).
  set (s2 := if full then printf [PHY_BufferFull] s1 else s1).
  replace (if full then (BUFSIZE - W, printf [PHY_BufferFull] s1)
           else (nBytesToSend, s1)) with (n, s2) by (unfold n, s2; by destruct full).
  assert (H2 : link s2 = link s1 /\ phy s2 = phy s1) by (unfold s2; by destruct full).
  destruct H2 as (Hl2 & Hp2).
  assert (Hroom : W + n <= BUFSIZE).
  { unfold n, full. destruct (Z.gtb_spec (W + nBytesToSend) BUFSIZE); lia. }
  match goal with |- context [for_range 0 n ?b s2] => set (body := b) end.
  set (Inv := fun (i : Z) (t : State) =>
    link t = link s /\
    nBytesWritten (phy t) = W /\
    nBytesUsed (phy t) = nBytesUsed (phy s) /\
    length (buffer (phy t)) = length (buffer (phy s)) /\
    (forall j, j < W -> rd (buffer (phy t)) j = rd (buffer (phy s1)) j) /\
    (length (buffer (phy s)) = Z.to_nat BUFSIZE -> 0 <= W ->
     forall j, 0 <= j < i -> stored_for (rd dataTx j) (rd (buffer (phy t)) (W + j)))).
  assert (Hinv : Inv (Z.max 0 n) (for_range 0 n body s2)).
  { destruct (Z.le_gt_cases 0 n) as [Hn | Hn].
    2: { rewrite for_range_none by lia. unfold Inv. rewrite Hl2, Hp2.
         repeat split; try congruence. intros; lia. }
    rewrite Z.max_r by lia. apply (for_range_inv body Inv); [done | |].
    - unfold Inv. rewrite Hl2, Hp2. repeat split; try congruence. intros; lia.
    - intros i t Hi (Hl & Hw & Hu & Hlen & Hlow & Hst). unfold body, Inv.
      cbn [rand fst snd].
      assert (Hcase : forall v (t' : State),
        link t' = link t -> phy t' = phy t -> stored_for (rd dataTx i) v ->
        Inv (i + 1)
          (set_phy (set_buffer (wr (buffer (phy t')) (nBytesWritten (phy t') + i) v)
                      (phy t')) t')).
      { intros v t' Hlt Hpt Hv. unfold Inv. rewrite Hpt. cbn. rewrite length_wr, Hw.
        split; [congruence |]. do 3 (split; [done |]). split.
        - intros j Hj. rewrite rd_wr_ne by lia. by apply Hlow.
        - intros HB HW j Hj. destruct (decide (j = i)) as [-> | Hne].
          + rewrite rd_wr_eq; [done |]. rewrite Hlen, HB. lia.
          + rewrite rd_wr_ne by lia. apply Hst; [done | done | lia]. }
      destruct (_ <? threshold _).
      + apply Hcase; [done | done |]. right.
        exists (Z.rem (Z.of_N (rand_src (env t) (S (rand_pos (env t))))) 8).
        split; [apply rem_bounds; lia | done].
      + apply Hcase; [done | done |]. by left. }
  destruct Hinv as (Hl & Hw & Hu & Hlen & Hlow & Hst).
  cbn. rewrite Hw. repeat (split; [done |]).
  intros HB HW i Hi. apply Hst; [done | done | lia].
Qed.
End SimFacts.

(** ** Reading the channel and the clock *)

Section ReceiveFacts.

Lemma rd_wr_same (a : list Z) (i v : Z) : rd (wr a i v) i = v \/ rd (wr a i v) i = 0.
Proof.
  destruct (decide (0 <= i < Z.of_nat (length a))) as [Hin | Hout].
  - left. by apply rd_wr_eq.
  - right. unfold rd, wr. destruct (Z.ltb_spec i 0) as [Hn | Hp]; [done |].
    rewrite list_insert_ge by lia. rewrite lookup_ge_None_2 by lia. done.
Qed.

(** [timeUp] reads the clock and touches nothing else; once it has
    said that time is up it says so again, for the clock does not go
    back. *)
Lemma timeUp_facts (timeLimit : Z) (s : State) :
  let '(up, s') := timeUp timeLimit s in
  link s' = link s /\ phy s' = phy s /\ out s' = out s /\
  now (env s) <= now (env s') /\
  (up = 0 /\ now (env s') < timeLimit \/ up = 1 /\ timeLimit <= now (env s')).
Proof.
  unfold timeUp, clock. cbn.
  destruct (Z.ltb_spec (now (env s) + Z.of_N (tick_src (env s) (tick_pos (env s))))
              timeLimit); cbn; repeat split; try done; lia.
Qed.

Lemma timeUp_again (timeLimit : Z) (s : State) :
  timeLimit <= now (env s) -> (timeUp timeLimit s).1 = 1.
Proof.
  intros H. pose proof (timeUp_facts timeLimit s) as Hf.
  destruct (timeUp timeLimit s) as [up s'].
  destruct Hf as (_ & _ & _ & Hmono & [[_ Hlt] | [-> _]]); [lia | done].
Qed.

(** A read of one byte returns 1, or a negative number, and writes at
    most the byte it was pointed at. *)
Lemma PHY_get_one (dataRx : list Z) (off : Z) (s : State) :
  let '(r, d, s') := PHY_get dataRx off 1 s in
  link s' = link s /\ (r = 1 \/ r < 0) /\
  (forall j, j <> off -> rd d j = rd dataRx j).
Proof.
  unfold PHY_get.
  destruct (Z.eqb_spec (nBytesWritten (phy s) - nBytesUsed (phy s)) 0) as [H0 | H0].
  - cbn. split; [by destruct (rxTimeLimit (phy s) =? 0) |].
    split; [by left |]. intros j Hj. apply rd_wr_ne. lia.
  - destruct (Z.gtb_spec 1 (nBytesWritten (phy s) - nBytesUsed (phy s))) as [Hlt | Hge].
    + rewrite for_range_none by lia. split.
      * match goal with |- context [if ?c then _ else _] => by destruct c end.
      * split; [right; lia | done].
    + cbn. split.
      * match goal with |- context [if ?c then _ else _] => by destruct c end.
      * split; [by left |]. intros j Hj. apply rd_wr_ne. lia.
Qed.

(** A read of one byte when the array holds unread bytes. *)
Lemma PHY_get_one_avail (dataRx : list Z) (off : Z) (s : State) :
  nBytesUsed (phy s) < nBytesWritten (phy s) ->
  PHY_get dataRx off 1 s =
  (1, wr dataRx (off + 0) (rd (buffer (phy s)) (nBytesUsed (phy s) + 0)),
   let p := set_cursors (nBytesWritten (phy s)) (nBytesUsed (phy s) + 1) (phy s) in
   if nBytesUsed (phy s) + 1 =? nBytesWritten (phy s)
   then set_phy (set_cursors 0 0 p) (set_phy p s)
   else set_phy p s).
Proof.
  intros Hav. unfold PHY_get.
  destruct (Z.eqb_spec (nBytesWritten (phy s) - nBytesUsed (phy s)) 0) as [H0 | H0]; [lia |].
  destruct (Z.gtb_spec 1 (nBytesWritten (phy s) - nBytesUsed (phy s))) as [Hlt | Hge]; [lia |].
  reflexivity.
Qed.

(** The second loop of [getFrame], entered with [retVal = 1]: it keeps
    the byte at offset 1, and leaves with the larger of [nRx + 1] and
    the byte count, unless time was up. *)
Lemma collect_facts (fuel : nat) (byteCount nRx : Z) (frameRx : list Z) (s : State)
    (e : LoopEnd Z) (frameRx' : list Z) (s' : State) :
  collect fuel 1 byteCount nRx frameRx s = Some (e, frameRx', s') ->
  2 <= nRx ->
  link s' = link s /\
  rd frameRx' BYTECOUNTPOS = rd frameRx BYTECOUNTPOS /\
  exists n, e = Left n /\
    (n = Z.max (nRx + 1) byteCount \/ timerRx (link s') <= now (env s')).
Proof.
  revert nRx frameRx s. induction fuel as [| fuel IH]; intros nRx frameRx s Hc Hn;
    [done |].
  cbn [collect] in Hc.
  pose proof (PHY_get_one frameRx nRx s) as Hg.
  destruct (PHY_get frameRx nRx 1 s) as [[r f1] s1].
  destruct Hg as (Hl1 & _ & Hf1).
  change (1 <? 0) with false in Hc. cbv iota in Hc.
  destruct (Z.ltb_spec (nRx + 1) byteCount) as [Hlt | Hge].
  - pose proof (timeUp_facts (timerRx (link s1)) s1) as Ht.
    destruct (timeUp (timerRx (link s1)) s1) as [up s2].
    destruct Ht as (Hl2 & _ & _ & _ & Hup).
    destruct Hup as [[-> Hnow] | [-> Hnow]].
    + change (0 =? 0) with true in Hc. cbv iota in Hc.
      apply IH in Hc; [| lia].
      destruct Hc as (Hl & Hb & n & -> & Hend).
      split; [congruence |]. split.
      { rewrite Hb. apply Hf1. unfold BYTECOUNTPOS. lia. }
      exists n. split; [done |]. destruct Hend as [-> | Hup]; [left; lia | by right].
    + change (1 =? 0) with false in Hc. cbv iota in Hc.
      injection Hc as <- <- <-.
      split; [congruence |]. split.
      { apply Hf1. unfold BYTECOUNTPOS. lia. }
      exists (nRx + 1). split; [done |]. right. by rewrite Hl2.
  - injection Hc as <- <- <-.
    split; [done |]. split.
    { apply Hf1. unfold BYTECOUNTPOS. lia. }
    exists (nRx + 1). split; [done |]. left. lia.
Qed.

(** The first loop of [getFrame] ends with a negative return value or
    is left with [retVal = 1]. *)
Lemma search_start_facts (fuel : nat) (frameRx : list Z) (s : State)
    (e : LoopEnd Z) (frameRx' : list Z) (s' : State) :
  search_start fuel frameRx s = Some (e, frameRx', s') ->
  link s' = link s /\ (e = Left 1 \/ exists v, e = Returned v /\ v < 0).
Proof.
  revert frameRx s. induction fuel as [| fuel IH]; intros frameRx s Hs; [done |].
  cbn [search_start] in Hs.
  pose proof (PHY_get_one frameRx 0 s) as Hg.
  destruct (PHY_get frameRx 0 1 s) as [[r f1] s1].
  destruct Hg as (Hl1 & Hr & _).
  destruct (Z.ltb_spec r 0) as [Hneg | Hpos].
  - injection Hs as <- <- <-. split; [done |]. right. by exists r.
  - destruct Hr as [-> | Hr]; [| lia].
    destruct ((1 <? 1) || negb (rd f1 0 =? STARTBYTE)).
    + pose proof (timeUp_facts (timerRx (link s1)) s1) as Ht.
      destruct (timeUp (timerRx (link s1)) s1) as [up s2].
      destruct Ht as (Hl2 & _).
      destruct (up =? 0).
      * apply IH in Hs. destruct Hs as [Hl He]. split; [congruence | done].
      * injection Hs as <- <- <-. split; [congruence | by left].
    + injection Hs as <- <- <-. split; [done | by left].
Qed.
End ReceiveFacts.

(** ** Frames delivered by [getFrame] *)

Section GetFrame.

(** C9, as amended.  When [getFrame] returns a positive number of bytes
    [n], [n] is the byte count it received at offset 1 if that is at
    least 3, and 3 otherwise; so [checkFrame] can find the byte count of
    a frame delivered by [getFrame] wrong only when the byte count
    received is less than 3. *)
Theorem getFrame_count (fuel : nat) (frameRx : list Z) (maxSize : Z) (timeLimit : Q)
    (s : State) (n : Z) (frameRx' : list Z) (s' : State) :
  getFrame fuel frameRx maxSize timeLimit s = Some (n, frameRx', s') ->
  0 < n ->
  let b := rd frameRx' BYTECOUNTPOS in
  (3 <= b -> n = b) /\ (b < 3 -> n = 3) /\
  ((checkFrame frameRx' n).2 = [LLCF_BadCount] -> b < 3).
Proof.
  intros Hg Hn b.
  assert (Hmax : n = Z.max 3 b).
  { unfold getFrame in Hg.
    destruct (timeSet timeLimit s) as [t s0].
    destruct (search_start fuel frameRx (set_timerRx t s0)) as [[[e f1] s1] |] eqn:Hs;
      [| done].
    apply search_start_facts in Hs. destruct Hs as [_ [-> | (v & -> & Hv)]].
    2: { injection Hg as <- <- <-. lia. }
    pose proof (PHY_get_one f1 1 s1) as Hp.
    destruct (PHY_get f1 1 1 s1) as [[r f2] s2].
    destruct Hp as (_ & Hr & _).
    destruct (Z.ltb_spec r 0) as [Hneg | Hpos].
    { injection Hg as <- <- <-. lia. }
    destruct Hr as [-> | Hr]; [| lia].
    destruct (timeUp (timerRx (link s2)) s2) as [up s3].
    destruct (up =? 0); cbn [negb] in Hg.
    2: { injection Hg as <- <- <-. lia. }
    destruct (collect fuel 1 (rd f2 BYTECOUNTPOS) 2 f2 s3) as [[[e f4] s4] |] eqn:Hc;
      [| done].
    apply collect_facts in Hc; [| lia].
    destruct Hc as (_ & Hb & m & -> & Hend).
    pose proof (timeUp_again (timerRx (link s4)) s4) as Hup.
    destruct (timeUp (timerRx (link s4)) s4) as [up' s5].
    destruct (Z.eqb_spec up' 0) as [-> | Hne]; cbn [negb] in Hg.
    2: { injection Hg as <- <- <-. lia. }
    injection Hg as <- <- <-.
    destruct Hend as [-> | Hlate].
    - unfold b. rewrite Hb. lia.
    - specialize (Hup Hlate). done. }
  split; [lia |]. split; [lia |].
  intros Hbad. unfold checkFrame in Hbad. fold b in Hbad.
  destruct (negb (rd frameRx' 0 =? STARTBYTE)); [done |].
  destruct (negb (rd frameRx' (n - 1) =? ENDBYTE)); [done |].
  destruct (negb (Z.rem _ 256 =? 0)); [done |].
  destruct (Z.eqb_spec n b) as [Heq | Hne]; [done |]. lia.
Qed.

(** The hypotheses of C9 hold in [short_count_state], where [getFrame]
    returns three bytes. *)
Lemma getFrame_count_witness :
  let frameRx' := wr (wr (wr frame_array 0 206) 1 2) 2 0 in
  let b := rd frameRx' BYTECOUNTPOS in
  (3 <= b -> 3 = b) /\ (b < 3 -> 3 = 3) /\
  ((checkFrame frameRx' 3).2 = [LLCF_BadCount] -> b < 3).
Proof.
  refine (getFrame_count 40 frame_array (3 * MAX_BLK) RX_WAIT short_count_state 3
            (wr (wr (wr frame_array 0 206) 1 2) 2 0) _ _ _).
  - vm_compute. reflexivity.
  - lia.
Defined.

(** It fails in [short_count_state]: the byte count received is 2 and
    [getFrame] returns 3, for its second loop reads a byte before it
    compares. *)
Lemma getFrame_count_as_stated_fails : ~ getFrame_count_as_stated.
Proof.
  intros H.
  specialize (H 40%nat frame_array (3 * MAX_BLK) RX_WAIT short_count_state 3
                (wr (wr (wr frame_array 0 206) 1 2) 2 0)).
  assert (Hrun : exists s',
    getFrame 40 frame_array (3 * MAX_BLK) RX_WAIT short_count_state
    = Some (3, wr (wr (wr frame_array 0 206) 1 2) 2 0, s')).
  { eexists. vm_compute. reflexivity. }
  destruct Hrun as [s' Hrun]. specialize (H s' Hrun ltac:(lia)).
  vm_compute in H. discriminate H.
Qed.
End GetFrame.

(** ** Line noise *)

Section LineNoise.

(** C7.  When [PHY_send] is called with the write cursor at 0, the
    number of random bytes it puts in the array ahead of the caller's
    bytes is at least 4 and at most 19, whatever [rand] gives: the write
    cursor ends that number beyond the number of bytes sent, and the
    caller's bytes are stored from that index on, each as it is or with
    one bit inverted. *)
Theorem PHY_send_noise_count (dataTx : list Z) (nBytesToSend : Z) (s : State) :
  nBytesWritten (phy s) = 0 ->
  length (buffer (phy s)) = Z.to_nat BUFSIZE ->
  let '(nBytesSent, s') := PHY_send dataTx nBytesToSend s in
  let noise := nBytesWritten (phy s') - nBytesSent in
  noise = noise_count s /\
  4 <= noise <= 19 /\
  (forall i, 0 <= i < nBytesSent ->
     stored_for (rd dataTx i) (rd (buffer (phy s')) (noise + i))).
Proof.
  intros Hw Hlen. pose proof (PHY_send_facts dataTx nBytesToSend s) as Hf.
  destruct (PHY_send dataTx nBytesToSend s) as [ret s'].
  cbv zeta in Hf. rewrite Hw in Hf. change (0 =? 0) with true in Hf. cbv iota in Hf.
  destruct Hf as (_ & Hw' & _ & _ & _ & _ & Hst).
  pose proof (line_noise_facts s) as Hn. cbv zeta in Hn.
  destruct Hn as (_ & _ & Hk & _).
  pose proof (noise_count_bounds s) as Hb. rewrite Hk in Hw', Hst.
  cbv zeta. replace (nBytesWritten (phy s') - ret) with (noise_count s) by lia.
  split; [done |]. split; [done |].
  intros i Hi. apply Hst; [done | lia | done].
Qed.

(** The hypotheses of C7 hold in the state the program starts in; the
    random source there gives 1234, and so 6 bytes of noise. *)
Lemma PHY_send_noise_count_witness :
  let '(nBytesSent, s') := PHY_send [1; 2; 3] 3 (initial calm) in
  let noise := nBytesWritten (phy s') - nBytesSent in
  noise = noise_count (initial calm) /\
  4 <= noise <= 19 /\
  (forall i, 0 <= i < nBytesSent ->
     stored_for (rd [1; 2; 3] i) (rd (buffer (phy s')) (noise + i))).
Proof.
  apply (PHY_send_noise_count [1; 2; 3] 3 (initial calm)); reflexivity.
Defined.

(** Both ends of the range are reached: a random source that gives 0
    makes 4 bytes of noise, one that gives 15 makes 19. *)
Lemma noise_count_ends :
  noise_count (initial (mkEnv (fun _ => 0%N) 0 0 (fun _ => 1%N) 0)) = 4 /\
  noise_count (initial (mkEnv (fun _ => 15%N) 0 0 (fun _ => 1%N) 0)) = 19.
Proof. split; reflexivity. Qed.

(** While the read cursor is among bytes that are not start markers,
    the search for the start of frame is not left with a start marker
    found. *)
Lemma search_start_skips (k : Z) (fuel : nat) (frameRx : list Z) (s : State)
    (retVal : Z) (frameRx' : list Z) (s' : State) :
  0 <= nBytesUsed (phy s) ->
  nBytesUsed (phy s) + Z.of_nat fuel <= k <= nBytesWritten (phy s) ->
  (forall j, nBytesUsed (phy s) <= j < k -> rd (buffer (phy s)) j <> STARTBYTE) ->
  search_start fuel frameRx s = Some (Left retVal, frameRx', s') ->
  rd frameRx' 0 <> STARTBYTE.
Proof.
  revert frameRx s. induction fuel as [| fuel IH]; intros frameRx s Hu Hk Hnoise Hs;
    [done |].
  cbn [search_start] in Hs.
  rewrite PHY_get_one_avail in Hs by lia.
  change (1 <? 0) with false in Hs. change (1 <? 1) with false in Hs.
  cbv iota in Hs. rewrite !Z.add_0_r in Hs. cbn [orb] in Hs.
  set (f1 := wr frameRx 0 (rd (buffer (phy s)) (nBytesUsed (phy s)))) in *.
  assert (Hf1 : rd f1 0 <> STARTBYTE).
  { unfold f1.
    destruct (rd_wr_same frameRx 0 (rd (buffer (phy s)) (nBytesUsed (phy s))))
      as [-> | ->]; [apply Hnoise; lia | done]. }
  destruct (Z.eqb_spec (rd f1 0) STARTBYTE) as [Heq | _]; [done |].
  cbn [negb] in Hs.
  match type of Hs with context [timeUp ?l ?t] =>
    pose proof (timeUp_facts l t) as Ht; destruct (timeUp l t) as [up s2] end.
  destruct Ht as (_ & Hp2 & _).
  destruct (up =? 0).
  - destruct (Z.eqb_spec (nBytesUsed (phy s) + 1) (nBytesWritten (phy s))) as [Hend | Hmore].
    + assert (fuel = O) as -> by lia. done.
    + cbn in Hp2. apply IH in Hs; [done | | |]; rewrite Hp2; cbn; [lia | lia |].
      intros j Hj. apply Hnoise. lia.
  - injection Hs as _ <- _. done.
Qed.

(** C8.  After [PHY_send] has started a frame on an empty array, every
    byte of line noise is from 0 to 199, and so below the end marker
    and the start marker; and the search for the start of frame in
    [getFrame], set to read that array, is not left with a start marker
    found while it reads the bytes of noise (its first [noise_count]
    turns, each of which reads one byte), whatever [rand] and the clock
    give. *)
Theorem line_noise_below_markers (dataTx : list Z) (nBytesToSend : Z) (s : State) :
  nBytesWritten (phy s) = 0 ->
  nBytesUsed (phy s) = 0 ->
  length (buffer (phy s)) = Z.to_nat BUFSIZE ->
  0 <= nBytesToSend ->
  let s1 := (PHY_send dataTx nBytesToSend s).2 in
  let k := noise_count s in
  (forall i, 0 <= i < k ->
     0 <= rd (buffer (phy s1)) i <= 199 /\
     rd (buffer (phy s1)) i < ENDBYTE /\ rd (buffer (phy s1)) i < STARTBYTE) /\
  (forall (s2 : State) (fuel : nat) (frameRx : list Z) retVal frameRx' s3,
     phy s2 = phy s1 ->
     (Z.of_nat fuel <= k) ->
     search_start fuel frameRx s2 = Some (Left retVal, frameRx', s3) ->
     rd frameRx' 0 <> STARTBYTE).
Proof.
  intros Hw Hu Hlen Hn s1 k.
  pose proof (PHY_send_facts dataTx nBytesToSend s) as Hf.
  unfold s1. destruct (PHY_send dataTx nBytesToSend s) as [ret s'].
  cbv zeta in Hf. rewrite Hw in Hf. change (0 =? 0) with true in Hf. cbv iota in Hf.
  destruct Hf as (_ & Hw' & Hret & Hu' & _ & Hlow & _).
  pose proof (line_noise_facts s) as Hno. cbv zeta in Hno.
  destruct Hno as (_ & _ & Hk & _ & _ & _ & _ & Hbytes).
  pose proof (noise_count_bounds s) as Hkb. fold k in Hk, Hbytes, Hkb.
  rewrite Hk in Hw', Hret, Hlow. cbn [snd].
  assert (Hnoise : forall i, 0 <= i < k -> 0 <= rd (buffer (phy s')) i <= 199).
  { intros i Hi. rewrite Hlow by lia. apply Hbytes; [done |].
    rewrite Hlen. unfold BUFSIZE. lia. }
  split.
  - intros i Hi. specialize (Hnoise i Hi). unfold ENDBYTE, STARTBYTE. lia.
  - intros s2 fuel frameRx retVal frameRx' s3 Hp Hfuel.
    apply (search_start_skips k); rewrite Hp.
    + lia.
    + rewrite Hu', Hu, Hw'. unfold BUFSIZE in Hret.
      destruct (k + nBytesToSend >? 2000); lia.
    + intros j Hj. rewrite Hu', Hu in Hj. specialize (Hnoise j ltac:(lia)).
      unfold STARTBYTE. lia.
Qed.

(** The hypotheses of C8 hold in the state the program starts in. *)
Lemma line_noise_below_markers_witness :
  0 <= rd (buffer (phy (PHY_send [206; 5; 0; 0; 204] 5 (initial calm)).2)) 5 <= 199.
Proof.
  apply (line_noise_below_markers [206; 5; 0; 0; 204] 5 (initial calm));
    [reflexivity | reflexivity | reflexivity | lia | vm_compute; split; [discriminate | reflexivity]].
Defined.
End LineNoise.

(** ** The link session *)

Section Session.

(** C4.  Called when not connected, [LL_send] and [LL_receive] return
    -10 and only print a message: the variables of the link layer, the
    channel array with its cursors and settings, the random source and
    the clock are as before, and the caller's array is as it was. *)
Theorem not_connected_rejected (dataTx : list Z) (nData : Z) (dataRx : list Z)
    (maxData debug : Z) (fuel : nat) (s : State) :
  connected (link s) = 0 ->
  let silent t := link t = link s /\ phy t = phy s /\ env t = env s in
  (exists s', LL_send dataTx nData debug s = (-10, s') /\ silent s') /\
  (exists s', LL_receive fuel dataRx maxData debug s = Some (-10, dataRx, s') /\
              silent s').
Proof.
  intros Hc silent. unfold LL_send, LL_receive. rewrite Hc.
  change (0 =? 0) with true. cbv iota.
  split; eexists; (split; [reflexivity | by repeat split]).
Qed.

(** The hypothesis of C4 holds in the state the program starts in. *)
Lemma not_connected_rejected_witness :
  exists s', LL_send [1; 2; 3] 3 1 (initial calm) = (-10, s') /\
             (link s' = link (initial calm) /\ phy s' = phy (initial calm) /\
              env s' = env (initial calm)).
Proof.
  apply (not_connected_rejected [1; 2; 3] 3 [] 0 1 0 (initial calm)). reflexivity.
Defined.

(** C5.  From one state and with the same arguments, two calls of
    [LL_connect], [LL_discon], [LL_send] or [LL_receive] that differ in
    the debug flag return the same value and leave the same link layer
    variables, channel, random source, clock and caller's array; only
    what is printed may differ. *)
Theorem debug_only_prints (debug1 debug2 : Z) (dataTx : list Z) (nData : Z)
    (dataRx : list Z) (maxData : Z) (fuel : nat) (s : State) :
  let quiet (r : Z * State) := (r.1, silent_part r.2) in
  let quiet_rx (r : option (Z * list Z * State)) :=
    match r with
    | Some (v, d, t) => Some (v, d, silent_part t)
    | None => None
    end in
  quiet (LL_connect debug1 s) = quiet (LL_connect debug2 s) /\
  quiet (LL_discon debug1 s) = quiet (LL_discon debug2 s) /\
  quiet (LL_send dataTx nData debug1 s) = quiet (LL_send dataTx nData debug2 s) /\
  quiet_rx (LL_receive fuel dataRx maxData debug1 s)
  = quiet_rx (LL_receive fuel dataRx maxData debug2 s).
Proof.
  intros quiet quiet_rx. repeat split.
  - unfold LL_connect.
    destruct (PHY_open 1 4800 8 0 1000 50 PROB_ERR s) as [retCode s1].
    destruct (retCode =? 0); [| done].
    by destruct (debug1 =? 0), (debug2 =? 0).
  - unfold LL_discon. destruct (PHY_close s) as [retCode s1].
    destruct (retCode =? 0); [| done].
    by destruct (debug1 =? 0), (debug2 =? 0).
  - unfold LL_send.
    destruct (connected (link s) =? 0); [done |].
    destruct (nData >? MAX_BLK); [done |].
    destruct (buildDataFrame frame_array dataTx nData (seqNumTx (link s))) as [f n].
    destruct (PHY_send f n s) as [retVal s1].
    destruct (retVal =? n); [| done].
    by destruct (debug1 =? 0), (debug2 =? 0).
  - unfold LL_receive.
    destruct (connected (link s) =? 0); [done |].
    destruct (getFrame fuel frame_array (3 * MAX_BLK) RX_WAIT s)
      as [[[nFrame f] s1] |]; [| done].
    destruct (nFrame <? 0); [done |].
    destruct (nFrame =? 0); [done |].
    destruct (checkFrame f nFrame) as [ok msgs].
    destruct (ok =? 0).
    + by destruct (debug1 =? 0), (debug2 =? 0).
    + destruct (processFrame f nFrame dataRx maxData) as [[d n] sq].
      by destruct (debug1 =? 0), (debug2 =? 0).
Qed.

(** A call of [LL_send] that returns 0 has moved the sequence number on
    by [next]. *)
Lemma LL_send_seq (dataTx : list Z) (nData debug : Z) (s : State) :
  (LL_send dataTx nData debug s).1 = 0 ->
  seqNumTx (link (LL_send dataTx nData debug s).2) = next (seqNumTx (link s)).
Proof.
  unfold LL_send.
  destruct (connected (link s) =? 0); [done |].
  destruct (nData >? MAX_BLK); [done |].
  destruct (buildDataFrame frame_array dataTx nData (seqNumTx (link s))) as [f n].
  pose proof (PHY_send_facts f n s) as Hf.
  destruct (PHY_send f n s) as [retVal s1]. cbv zeta in Hf. destruct Hf as (Hl & _).
  destruct (retVal =? n); [| done].
  intros _. destruct (debug =? 0); cbn; by rewrite Hl.
Qed.

Lemma next_mod (seq : Z) : 0 <= seq -> next seq = (seq + 1) mod 16.
Proof. intros H. unfold next, MOD_SEQNUM. apply Z.rem_mod_nonneg; lia. Qed.

Lemma send_blocks_seq (blocks : list (list Z * Z * Z)) (s : State) :
  0 <= seqNumTx (link s) < 16 ->
  Forall (fun r => r = 0) (send_blocks blocks s).1 ->
  seqNumTx (link (send_blocks blocks s).2)
  = (seqNumTx (link s) + Z.of_nat (length blocks)) mod 16.
Proof.
  revert s. induction blocks as [| [[dataTx nData] debug] rest IH]; intros s Hs Hok.
  - cbn. rewrite Z.add_0_r. symmetry. apply Z.mod_small. lia.
  - cbn [send_blocks] in *.
    pose proof (LL_send_seq dataTx nData debug s) as Hseq.
    destruct (LL_send dataTx nData debug s) as [r s1].
    specialize (IH s1).
    destruct (send_blocks rest s1) as [rs s2]. cbn [fst snd] in *.
    apply Forall_cons in Hok. destruct Hok as [-> Hok].
    specialize (Hseq eq_refl). rewrite next_mod in Hseq by lia.
    rewrite IH; [| rewrite Hseq; apply Z.mod_pos_bound; lia | done].
    rewrite Hseq. cbn [length]. rewrite Zplus_mod_idemp_l. f_equal. lia.
Qed.

(** C6.  [next 15] is 0 and [next seq] is [(seq + 1) mod 16] for every
    sequence number; so after 16 calls of [LL_send] one after the other
    that all return 0 the transmit sequence number is what it was. *)
Theorem seq_wraps_after_16 :
  next 15 = 0 /\
  (forall seq, 0 <= seq -> next seq = (seq + 1) mod 16) /\
  (forall (blocks : list (list Z * Z * Z)) (s : State),
     length blocks = 16%nat ->
     0 <= seqNumTx (link s) < 16 ->
     Forall (fun r => r = 0) (send_blocks blocks s).1 ->
     seqNumTx (link (send_blocks blocks s).2) = seqNumTx (link s)).
Proof.
  split; [reflexivity |]. split; [exact next_mod |].
  intros blocks s Hlen Hs Hok.
  rewrite send_blocks_seq by done. rewrite Hlen.
  change (Z.of_nat 16) with (1 * 16). rewrite Z.mod_add by lia.
  apply Z.mod_small. lia.
Qed.
End Session.

Section Runs.

(** The hypotheses of C6 hold for 16 blocks of three bytes sent after
    connecting. *)
Lemma seq_wraps_after_16_witness :
  seqNumTx (link (send_blocks (replicate 16 ([7; 8; 9], 3, 0)) connected_calm).2)
  = seqNumTx (link connected_calm).
Proof.
  apply (proj2 (proj2 seq_wraps_after_16)
           (replicate 16 ([7; 8; 9], 3, 0)) connected_calm).
  - reflexivity.
  - change (0 <= 0 < 16). lia.
  - vm_compute. repeat constructor.
Defined.

(** C10.  The value 10 returned by [LL_receive] has two meanings.  In
    one run, a block of ten bytes is sent and a simulated error spoils
    its frame: [LL_receive] counts a bad frame, fills the caller's array
    with ten bytes 35 and returns 10.  In another run, the same block
    arrives intact: [LL_receive] counts a good frame, gives the ten
    bytes of the block and returns 10. *)
Theorem receive_10_two_meanings :
  (exists dataRx s',
     received one_error = Some (10, dataRx, s') /\
     take 10 dataRx = replicate 10 35 /\
     badFrames (link s') = badFrames (link (sent one_error)) + 1 /\
     goodFrames (link s') = goodFrames (link (sent one_error))) /\
  (exists dataRx s',
     received calm = Some (10, dataRx, s') /\
     take 10 dataRx = block10 /\
     goodFrames (link s') = goodFrames (link (sent calm)) + 1 /\
     badFrames (link s') = badFrames (link (sent calm))).
Proof.
  split; do 2 eexists; (split; [vm_compute; reflexivity |]);
    vm_compute; repeat split.
Qed.

(** C1, at a block of 251 bytes.  [LL_send] lets the block through, as
    251 is not above [MAX_BLK]; [buildDataFrame] makes a frame of 256
    bytes whose byte count, kept in one byte, is 0 and not 256; the
    frame is sent, [LL_send] returns 0, and on a channel without errors
    [LL_receive] takes three bytes for the frame and counts it bad. *)
Theorem block_251_count_byte_wraps :
  let dataTx := replicate 251 65 in
  let '(frame, nFrame) := buildDataFrame frame_array dataTx 251 0 in
  let '(ret, s1) := LL_send dataTx 251 0 connected_calm in
  (251 >? MAX_BLK) = false /\
  nFrame = 256 /\
  rd frame BYTECOUNTPOS = 0 /\
  ret = 0 /\
  exists dataRx s2,
    LL_receive 40 (replicate 255 0) 255 0 s1 = Some (10, dataRx, s2) /\
    badFrames (link s2) = 1 /\ goodFrames (link s2) = 0.
Proof.
  vm_compute. repeat split. do 2 eexists. repeat split.
Qed.
End Runs.

(** ** [getFrame] and [LL_receive] return *)

Section Returns.

(** More fuel does not change what a loop that ended has given. *)
Lemma search_start_more (fuel fuel' : nat) (frameRx : list Z) (s : State)
    (r : LoopEnd Z * list Z * State) :
  search_start fuel frameRx s = Some r -> (fuel <= fuel')%nat ->
  search_start fuel' frameRx s = Some r.
Proof.
  revert fuel' frameRx s. induction fuel as [| fuel IH]; intros fuel' frameRx s Hs Hle;
    [done |].
  destruct fuel' as [| fuel']; [lia |]. cbn [search_start] in *.
  destruct (PHY_get frameRx 0 1 s) as [[rv f1] s1].
  destruct (rv <? 0); [done |].
  destruct ((rv <? 1) || negb (rd f1 0 =? STARTBYTE)); [| done].
  destruct (timeUp (timerRx (link s1)) s1) as [up s2].
  destruct (up =? 0); [| done]. apply IH; [done | lia].
Qed.

Lemma collect_more (fuel fuel' : nat) (retVal byteCount nRx : Z) (frameRx : list Z)
    (s : State) (r : LoopEnd Z * list Z * State) :
  collect fuel retVal byteCount nRx frameRx s = Some r -> (fuel <= fuel')%nat ->
  collect fuel' retVal byteCount nRx frameRx s = Some r.
Proof.
  revert fuel' nRx frameRx s.
  induction fuel as [| fuel IH]; intros fuel' nRx frameRx s Hs Hle; [done |].
  destruct fuel' as [| fuel']; [lia |]. cbn [collect] in *.
  destruct (PHY_get frameRx nRx 1 s) as [[rv f1] s1].
  destruct (retVal <? 0); [done |].
  destruct (nRx + retVal <? byteCount); [| done].
  destruct (timeUp (timerRx (link s1)) s1) as [up s2].
  destruct (up =? 0); [| done]. apply IH; [done | lia].
Qed.

Lemma getFrame_more (fuel fuel' : nat) (frameRx : list Z) (maxSize : Z) (timeLimit : Q)
    (s : State) (r : Z * list Z * State) :
  getFrame fuel frameRx maxSize timeLimit s = Some r -> (fuel <= fuel')%nat ->
  getFrame fuel' frameRx maxSize timeLimit s = Some r.
Proof.
  unfold getFrame. intros Hg Hle.
  destruct (timeSet timeLimit s) as [t s0].
  destruct (search_start fuel frameRx (set_timerRx t s0)) as [r1 |] eqn:Hs; [| done].
  rewrite (search_start_more _ _ _ _ _ Hs Hle).
  destruct r1 as [[[v | rv] f1] s1]; [done |].
  destruct (PHY_get f1 1 1 s1) as [[rv2 f2] s2].
  destruct (rv2 <? 0); [done |].
  destruct (timeUp (timerRx (link s2)) s2) as [up s3].
  destruct (negb (up =? 0)); [done |].
  destruct (collect fuel rv2 (rd f2 BYTECOUNTPOS) 2 f2 s3) as [r2 |] eqn:Hc; [| done].
  by rewrite (collect_more _ _ _ _ _ _ _ _ Hc Hle).
Qed.

(** A read of one byte takes a waiting byte, or finds none and lets at
    least a millisecond pass, when the channel's time limit is a proper
    number of milliseconds. *)
Lemma PHY_get_one_progress (dataRx : list Z) (off : Z) (s : State) :
  0 <= rxTimeLimit (phy s) < 2 ^ 32 ->
  let '(r, d, s') := PHY_get dataRx off 1 s in
  rxTimeLimit (phy s') = rxTimeLimit (phy s) /\
  now (env s) <= now (env s') /\
  (r < 0 \/
   waiting s' + 1 <= waiting s \/
   waiting s' = 0 /\ now (env s) + 1 <= now (env s')).
Proof.
  intros Hlim. unfold PHY_get, waiting.
  destruct (Z.eqb_spec (nBytesWritten (phy s) - nBytesUsed (phy s)) 0) as [H0 | H0].
  - cbn [rand fst snd]. unfold Sleep. cbn.
    destruct (Z.eqb_spec (rxTimeLimit (phy s)) 0) as [Hz | Hnz]; cbn.
    + change (10000 mod 2 ^ 32) with 10000. split; [done |]. split; [lia |].
      right. right. lia.
    + rewrite (Z.mod_small (rxTimeLimit (phy s))) by lia. split; [done |].
      split; [lia |]. right. right. lia.
  - destruct (Z.gtb_spec 1 (nBytesWritten (phy s) - nBytesUsed (phy s))) as [Hlt | Hge].
    + split; [by destruct (_ =? _) |]. split; [by destruct (_ =? _) |]. left. lia.
    + cbn. destruct (Z.eqb_spec (nBytesUsed (phy s) + 1) (nBytesWritten (phy s)));
        cbn; (split; [done |]); (split; [lia |]); right; left; lia.
Qed.

(** The search for the start of frame ends within as many turns as there
    are bytes waiting and milliseconds left. *)
Lemma search_start_returns (fuel : nat) (frameRx : list Z) (s : State) :
  0 <= rxTimeLimit (phy s) < 2 ^ 32 ->
  waiting s + time_left s < Z.of_nat fuel ->
  is_Some (search_start fuel frameRx s).
Proof.
  revert frameRx s. induction fuel as [| fuel IH]; intros frameRx s Hlim Hfuel.
  - unfold waiting, time_left in Hfuel. lia.
  - cbn [search_start].
    pose proof (PHY_get_one_progress frameRx 0 s Hlim) as Hp.
    pose proof (PHY_get_one frameRx 0 s) as Hg.
    destruct (PHY_get frameRx 0 1 s) as [[rv f1] s1].
    destruct Hp as (Hrx & Hnow & Hprog). destruct Hg as (Hl1 & _).
    destruct (Z.ltb_spec rv 0) as [Hneg | Hpos]; [done |].
    destruct ((rv <? 1) || negb (rd f1 0 =? STARTBYTE)); [| done].
    pose proof (timeUp_facts (timerRx (link s1)) s1) as Ht.
    destruct (timeUp (timerRx (link s1)) s1) as [up s2].
    destruct Ht as (Hl2 & Hp2 & _ & Hnow2 & Hup).
    destruct Hup as [[-> Hearly] | [-> _]]; [| done].
    change (0 =? 0) with true. cbv iota. apply IH.
    + rewrite Hp2. lia.
    + unfold waiting, time_left in *. rewrite Hp2, Hl2, Hl1 in *. lia.
Qed.

(** The loop that collects the frame ends within as many turns as
    there are bytes to collect. *)
Lemma collect_returns (fuel : nat) (byteCount nRx : Z) (frameRx : list Z) (s : State) :
  Z.max 0 (byteCount - nRx) < Z.of_nat fuel ->
  is_Some (collect fuel 1 byteCount nRx frameRx s).
Proof.
  revert nRx frameRx s. induction fuel as [| fuel IH]; intros nRx frameRx s Hfuel;
    [lia |].
  cbn [collect]. destruct (PHY_get frameRx nRx 1 s) as [[rv f1] s1].
  change (1 <? 0) with false. cbv iota.
  destruct (Z.ltb_spec (nRx + 1) byteCount) as [Hlt | Hge]; [| done].
  destruct (timeUp (timerRx (link s1)) s1) as [up s2].
  destruct (up =? 0); [| done]. apply IH. lia.
Qed.

(** [getFrame] returns: with enough fuel it gives a result, whatever the
    channel holds and whatever [rand] and the clock give, when the
    channel's time limit is a proper number of milliseconds (as it is
    after [LL_connect], which sets 1050). *)
Lemma getFrame_returns (frameRx : list Z) (maxSize : Z) (timeLimit : Q) (s : State) :
  0 <= rxTimeLimit (phy s) < 2 ^ 32 ->
  exists fuel, is_Some (getFrame fuel frameRx maxSize timeLimit s).
Proof.
  intros Hlim. unfold getFrame.
  destruct (timeSet timeLimit s) as [t s0] eqn:Hts.
  assert (Hp0 : phy s0 = phy s).
  { unfold timeSet, clock in Hts. cbn in Hts. by injection Hts as _ <-. }
  set (sA := set_timerRx t s0).
  set (F1 := S (Z.to_nat (waiting sA + time_left sA))).
  destruct (search_start_returns F1 frameRx sA) as [r1 Hs].
  { unfold sA. cbn. by rewrite Hp0. }
  { unfold F1, waiting, time_left. lia. }
  destruct r1 as [[[v | rv] f1] s1].
  { exists F1. by rewrite Hs. }
  destruct (PHY_get f1 1 1 s1) as [[rv2 f2] s2] eqn:Hg.
  pose proof (PHY_get_one f1 1 s1) as Hone. rewrite Hg in Hone.
  destruct Hone as (_ & Hrv2 & _).
  destruct (Z.ltb_spec rv2 0) as [Hneg | Hpos].
  { exists F1. rewrite Hs, Hg. destruct (Z.ltb_spec rv2 0); [done | lia]. }
  destruct Hrv2 as [-> | Hrv2]; [| lia].
  destruct (timeUp (timerRx (link s2)) s2) as [up s3] eqn:Hup.
  destruct (negb (up =? 0)) eqn:Hlate.
  { exists F1. by rewrite Hs, Hg, Hup, Hlate. }
  set (F2 := S (Z.to_nat (Z.max 0 (rd f2 BYTECOUNTPOS - 2)))).
  exists (F1 `max` F2)%nat.
  rewrite (search_start_more _ _ _ _ _ Hs) by lia.
  rewrite Hg. change (1 <? 0) with false. cbv iota. rewrite Hup, Hlate.
  destruct (collect_returns (F1 `max` F2) (rd f2 BYTECOUNTPOS) 2 f2 s3) as [r2 Hc].
  { unfold F2. lia. }
  rewrite Hc. destruct r2 as [[[v | n] f4] s4]; [done |].
  destruct (timeUp (timerRx (link s4)) s4) as [up' s5].
  by destruct (negb (up' =? 0)).
Qed.

(** [LL_receive] returns under the same condition. *)
Lemma LL_receive_returns (dataRx : list Z) (maxData debug : Z) (s : State) :
  0 <= rxTimeLimit (phy s) < 2 ^ 32 ->
  exists fuel, is_Some (LL_receive fuel dataRx maxData debug s).
Proof.
  intros Hlim.
  destruct (getFrame_returns frame_array (3 * MAX_BLK) RX_WAIT s Hlim)
    as [fuel [[[nFrame f] s1] Hg]].
  exists fuel. unfold LL_receive. rewrite Hg.
  destruct (connected (link s) =? 0); [done |].
  destruct (nFrame <? 0); [done |]. destruct (nFrame =? 0); [done |].
  destruct (checkFrame f nFrame) as [ok msgs].
  destruct (ok =? 0); [done |].
  by destruct (processFrame f nFrame dataRx maxData) as [[d n] sq].
Qed.

(** And more fuel does not change what it returned. *)
Lemma LL_receive_more (fuel fuel' : nat) (dataRx : list Z) (maxData debug : Z)
    (s : State) (r : Z * list Z * State) :
  LL_receive fuel dataRx maxData debug s = Some r -> (fuel <= fuel')%nat ->
  LL_receive fuel' dataRx maxData debug s = Some r.
Proof.
  unfold LL_receive. intros Hr Hle.
  destruct (connected (link s) =? 0); [done |].
  destruct (getFrame fuel frame_array (3 * MAX_BLK) RX_WAIT s) as [r1 |] eqn:Hg; [| done].
  by rewrite (getFrame_more _ _ _ _ _ _ _ Hg Hle).
Qed.
End Returns.

(** * Further properties of the code *)

(** ** The frame on the wire *)

Lemma rd_nat (a : list Z) (i : nat) : rd a (Z.of_nat i) = default 0 (a !! i).
Proof.
  unfold rd. destruct (Z.ltb_spec (Z.of_nat i) 0); [lia |]. by rewrite Nat2Z.id.
Qed.

Lemma rd_app (a b : list Z) (i : Z) :
  0 <= i ->
  rd (a ++ b) i = if i <? Z.of_nat (length a) then rd a i else rd b (i - Z.of_nat (length a)).
Proof.
  intros Hi. replace i with (Z.of_nat (Z.to_nat i)) at 1 by lia. rewrite rd_nat.
  destruct (Z.ltb_spec i (Z.of_nat (length a))).
  - rewrite lookup_app_l by lia. rewrite <- rd_nat. f_equal. lia.
  - rewrite lookup_app_r by lia. rewrite <- rd_nat. f_equal. lia.
Qed.

Lemma rd_drop (a : list Z) (n : nat) (i : Z) :
  0 <= i -> rd (drop n a) i = rd a (Z.of_nat n + i).
Proof.
  intros Hi. replace i with (Z.of_nat (Z.to_nat i)) at 1 by lia. rewrite rd_nat.
  rewrite lookup_drop, <- rd_nat. f_equal. lia.
Qed.

Lemma buildDataFrame_rest (frameTx dataTx : list Z) (nData seq i : Z) :
  0 <= nData -> HEADERSIZE + nData + TRAILERSIZE <= i ->
  rd (buildDataFrame frameTx dataTx nData seq).1 i = rd frameTx i.
Proof.
  intros Hn Hi. unfold buildDataFrame, BYTECOUNTPOS, SEQNUMPOS, HEADERSIZE, TRAILERSIZE in *.
  set (f0 := wr (wr (wr frameTx 0 STARTBYTE) 1 _) 2 _).
  match goal with |- context [for_range 0 nData ?b (f0, 0)] => set (body := b) end.
  assert (Hkeep : rd (for_range 0 nData body (f0, 0)).1 i = rd f0 i).
  { apply (for_range_keeps body (fun t => rd t.1 i = rd f0 i)); [done |].
    intros j [f1 c1] Hj Hk. unfold body. cbn in *. rewrite rd_wr_ne by lia. done. }
  destruct (for_range 0 nData body (f0, 0)) as [f c]. cbn [fst] in *.
  rewrite !rd_wr_ne by lia. rewrite Hkeep. unfold f0. rewrite !rd_wr_ne by lia. done.
Qed.

Lemma sum_from_all (l : list Z) : sum_from (rd l) 0 (length l) = sum_list l.
Proof.
  change 0 with (Z.of_nat 0). rewrite sum_from_rd by lia.
  rewrite drop_0. by rewrite take_ge.
Qed.

(** X1.  The frame that [buildDataFrame] makes of a block of at most 250
    bytes is, byte for byte, the start marker, the frame size, the
    sequence number, the block, the checksum of the block and the end
    marker; the rest of the frame array is left as it was. *)
Theorem buildDataFrame_layout (frameTx dataTx : list Z) (seq : Z) :
  let nData := Z.of_nat (length dataTx) in
  nData <= 250 ->
  0 <= seq <= 255 ->
  nData + 5 <= Z.of_nat (length frameTx) ->
  let '(frame, nFrame) := buildDataFrame frameTx dataTx nData seq in
  nFrame = 5 + nData /\
  take (Z.to_nat nFrame) frame
  = [STARTBYTE; 5 + nData; seq] ++ dataTx ++ [checksum_of (sum_list dataTx); ENDBYTE] /\
  drop (Z.to_nat nFrame) frame = drop (Z.to_nat nFrame) frameTx.
Proof.
  intros nData Hn Hseq Hlen.
  pose proof (buildDataFrame_bytes frameTx dataTx nData seq ltac:(lia) Hlen) as Hb.
  pose proof (fun i => buildDataFrame_rest frameTx dataTx nData seq i ltac:(lia)) as Hrest.
  destruct (buildDataFrame frameTx dataTx nData seq) as [f n].
  destruct Hb as (-> & Hl & H0 & H1 & H2 & Hd & Hc & He). cbn [fst] in Hrest.
  unfold BYTECOUNTPOS, SEQNUMPOS, HEADERSIZE, TRAILERSIZE in *.
  split; [done |]. split.
  - apply list_eq_rd.
    + rewrite length_take, Hl. cbn [length app]. rewrite !length_app. cbn [length]. lia.
    + intros i Hi. rewrite length_take, Hl in Hi. rewrite rd_take by lia.
      change ([STARTBYTE; 5 + nData; seq] ++ dataTx ++ [checksum_of (sum_list dataTx); ENDBYTE])
        with ([STARTBYTE; 5 + nData; seq] ++ (dataTx ++ [checksum_of (sum_list dataTx); ENDBYTE])).
      rewrite rd_app by lia. cbn [length].
      destruct (Z.ltb_spec i (Z.of_nat 3)) as [H3 | H3].
      * destruct (decide (i = 0)) as [-> | ?]; [by rewrite H0 |].
        destruct (decide (i = 1)) as [-> | ?].
        { rewrite H1. unfold to_byte. by rewrite Z.mod_small by lia. }
        assert (i = 2) as -> by lia.
        rewrite H2. unfold to_byte. by rewrite Z.mod_small by lia.
      * rewrite rd_app by lia.
        destruct (Z.ltb_spec (i - Z.of_nat 3) (Z.of_nat (length dataTx))) as [Hin | Hout].
        -- replace i with (3 + (i - Z.of_nat 3)) at 1 by lia. apply Hd. lia.
        -- destruct (decide (i = 3 + nData)) as [-> | ?].
           ++ rewrite Hc. unfold nData. rewrite Nat2Z.id, sum_from_all.
              replace (3 + Z.of_nat (length dataTx) - Z.of_nat 3 - Z.of_nat (length dataTx))
                with 0 by lia. done.
           ++ replace i with (3 + nData + 1) by lia. rewrite He.
              replace (3 + nData + 1 - Z.of_nat 3 - Z.of_nat (length dataTx)) with 1
                by (unfold nData; lia). done.
  - apply list_eq_rd.
    + rewrite !length_drop. by rewrite Hl.
    + intros i Hi. rewrite !rd_drop by lia. apply Hrest. lia.
Qed.

(** The hypotheses of X1 hold for a block of two bytes. *)
Lemma buildDataFrame_layout_witness :
  let '(frame, nFrame) := buildDataFrame (replicate 765 9) [200; 100] 2 7 in
  nFrame = 5 + 2 /\
  take (Z.to_nat nFrame) frame
  = [STARTBYTE; 5 + 2; 7] ++ [200; 100] ++ [checksum_of (sum_list [200; 100]); ENDBYTE] /\
  drop (Z.to_nat nFrame) frame = drop (Z.to_nat nFrame) (replicate 765 9).
Proof.
  apply (buildDataFrame_layout (replicate 765 9) [200; 100] 7); simpl; lia.
Defined.

(** ** What [checkFrame] detects *)

Lemma land_pow2_clear (b k : Z) :
  0 <= k -> Z.testbit b k = false -> Z.land b (2 ^ k) = 0.
Proof.
  intros Hk Hb. apply Z.bits_inj'. intros n Hn.
  rewrite Z.land_spec, Z.bits_0, Z.pow2_bits_eqb by lia.
  destruct (Z.eqb_spec k n) as [<- | ?]; [by rewrite Hb | by rewrite andb_false_r].
Qed.

(** Inverting bit [k] adds or takes away [2 ^ k]. *)
Lemma lxor_pow2 (b k : Z) :
  0 <= k -> Z.lxor b (2 ^ k) = b + 2 ^ k \/ Z.lxor b (2 ^ k) = b - 2 ^ k.
Proof.
  intros Hk. destruct (Z.testbit b k) eqn:Hb.
  - right. set (c := Z.lxor b (2 ^ k)).
    assert (Hc : Z.testbit c k = false).
    { unfold c. rewrite Z.lxor_spec, Hb, Z.pow2_bits_eqb, Z.eqb_refl by lia. done. }
    pose proof (Z.add_nocarry_lxor c (2 ^ k) (land_pow2_clear c k Hk Hc)) as Hadd.
    unfold c in Hadd at 2. rewrite Z.lxor_assoc, Z.lxor_nilpotent, Z.lxor_0_r in Hadd. lia.
  - left. symmetry. apply Z.add_nocarry_lxor. by apply land_pow2_clear.
Qed.

Lemma flip_bit_moves (b bit : Z) :
  0 <= bit < 8 ->
  exists d, (d = 2 ^ bit \/ d = - 2 ^ bit) /\ flip_bit b bit = (b + d) mod 256.
Proof.
  intros Hbit. unfold flip_bit, to_byte. rewrite Z.shiftl_1_l.
  assert (Hp : 0 < 2 ^ bit < 256).
  { split; [apply Z.pow_pos_nonneg; lia |].
    change 256 with (2 ^ 8). apply Z.pow_lt_mono_r; lia. }
  rewrite (Z.mod_small (2 ^ bit)) by lia.
  destruct (lxor_pow2 b bit ltac:(lia)) as [-> | ->].
  - exists (2 ^ bit). split; [by left | done].
  - exists (- 2 ^ bit). split; [by right | f_equal; lia].
Qed.

Lemma flip_bit_differs (b bit : Z) :
  0 <= bit < 8 -> 0 <= b -> flip_bit b bit <> b.
Proof.
  intros Hbit Hb Heq. destruct (flip_bit_moves b bit Hbit) as (d & Hd & Hf).
  assert (Hp : 0 < 2 ^ bit < 256).
  { split; [apply Z.pow_pos_nonneg; lia |].
    change 256 with (2 ^ 8). apply Z.pow_lt_mono_r; lia. }
  rewrite Heq in Hf.
  pose proof (Z.div_mod (b + d) 256 ltac:(lia)) as Hdm.
  pose proof (Z.mod_pos_bound (b + d) 256 ltac:(lia)).
  destruct Hd as [-> | ->]; lia.
Qed.

(** A sum over indices of an array of which one entry is changed. *)
Lemma sum_from_update (f g : Z -> Z) (lo : Z) (n : nat) (i : Z) :
  (forall j, j <> i -> g j = f j) -> lo <= i < lo + Z.of_nat n ->
  sum_from g lo n = sum_from f lo n - f i + g i.
Proof.
  intros Hext. induction n as [| n IH]; intros Hi; [lia |].
  rewrite !sum_from_last. destruct (decide (i = lo + Z.of_nat n)) as [-> | Hne].
  - rewrite (sum_from_ext g f); [lia |]. intros j Hj. apply Hext. lia.
  - rewrite IH by lia. rewrite (Hext (lo + Z.of_nat n)) by lia. lia.
Qed.

(** X2.  [checkFrame] detects every error of one bit outside the
    sequence number: when it accepts a frame of bytes, it rejects the
    frame in which one bit of the start marker, the byte count, a data
    byte, the checksum or the end marker is inverted. *)
Theorem checkFrame_rejects_bit_flip (frameRx : list Z) (nFrame i bit : Z) :
  5 <= nFrame <= Z.of_nat (length frameRx) ->
  (checkFrame frameRx nFrame).1 = 1 ->
  0 <= i < nFrame -> i <> SEQNUMPOS ->
  0 <= bit < 8 ->
  (checkFrame (wr frameRx i (flip_bit (rd frameRx i) bit)) nFrame).1 = 0.
Proof.
  intros Hn Hok Hi Hseq Hbit.
  rewrite checkFrame_value in Hok. rewrite checkFrame_value.
  unfold SEQNUMPOS, BYTECOUNTPOS, HEADERSIZE in *.
  destruct (Z.eqb_spec (rd frameRx 0) STARTBYTE) as [H0 | ?]; [| done].
  destruct (Z.eqb_spec (rd frameRx (nFrame - 1)) ENDBYTE) as [He | ?]; [| done].
  destruct (Z.eqb_spec (Z.rem (sum_from (rd frameRx) 3 (Z.to_nat (nFrame - 4))) 256) 0)
    as [Hs | ?]; [| done].
  destruct (Z.eqb_spec nFrame (rd frameRx 1)) as [Hc | ?]; [| done].
  clear Hok. set (v := flip_bit (rd frameRx i) bit).
  assert (Hat : rd (wr frameRx i v) i = v) by (apply rd_wr_eq; lia).
  destruct (decide (i = 0)) as [-> | Hi0].
  { rewrite Hat. unfold v. rewrite H0.
    destruct (Z.eqb_spec (flip_bit STARTBYTE bit) STARTBYTE) as [Heq | ?]; [| done].
    exfalso. revert Heq. apply flip_bit_differs; [done | unfold STARTBYTE; lia]. }
  rewrite (rd_wr_ne _ i 0) by lia. rewrite H0, Z.eqb_refl. cbn [andb].
  destruct (decide (i = nFrame - 1)) as [-> | Hie].
  { rewrite Hat. unfold v. rewrite He.
    destruct (Z.eqb_spec (flip_bit ENDBYTE bit) ENDBYTE) as [Heq | ?]; [| done].
    exfalso. revert Heq. apply flip_bit_differs; [done | unfold ENDBYTE; lia]. }
  rewrite (rd_wr_ne _ i (nFrame - 1)) by lia. rewrite He, Z.eqb_refl. cbn [andb].
  destruct (decide (i = 1)) as [-> | Hi1].
  { rewrite Hat. unfold v. rewrite <- Hc.
    destruct (Z.eqb_spec nFrame (flip_bit nFrame bit)) as [Heq | ?];
      [| by rewrite andb_false_r].
    exfalso. symmetry in Heq. revert Heq. apply flip_bit_differs; [done |].
    lia. }
  assert (Hsum : sum_from (rd (wr frameRx i v)) 3 (Z.to_nat (nFrame - 4))
                 = sum_from (rd frameRx) 3 (Z.to_nat (nFrame - 4)) - rd frameRx i + v).
  { rewrite (sum_from_update (rd frameRx) (rd (wr frameRx i v)) 3 _ i).
    - by rewrite Hat.
    - intros j Hj. apply rd_wr_ne. lia.
    - lia. }
  rewrite Hsum.
  destruct (Z.eqb_spec (Z.rem (sum_from (rd frameRx) 3 (Z.to_nat (nFrame - 4))
                               - rd frameRx i + v) 256) 0) as [Hz | ?]; [| done].
  exfalso. apply rem_256_zero in Hz. apply rem_256_zero in Hs.
  destruct (flip_bit_moves (rd frameRx i) bit Hbit) as (d & Hd & Hf). fold v in Hf.
  assert (Hp : 0 < 2 ^ bit < 256).
  { split; [apply Z.pow_pos_nonneg; lia |].
    change 256 with (2 ^ 8). apply Z.pow_lt_mono_r; lia. }
  set (S := sum_from (rd frameRx) 3 (Z.to_nat (nFrame - 4))) in *.
  pose proof (Z.div_mod S 256 ltac:(lia)) as HS.
  pose proof (Z.div_mod (S - rd frameRx i + v) 256 ltac:(lia)) as HS'.
  pose proof (Z.div_mod (rd frameRx i + d) 256 ltac:(lia)) as Hv.
  rewrite Hs in HS. rewrite Hz in HS'. rewrite <- Hf in Hv.
  destruct Hd as [-> | ->]; lia.
Qed.

(** The hypotheses of X2 hold for the frame of the block [7; 9], of
    which bit 3 of the first data byte is inverted. *)
Lemma checkFrame_rejects_bit_flip_witness :
  (checkFrame (wr [206; 7; 0; 7; 9; 240; 204] 3 (flip_bit 7 3)) 7).1 = 0.
Proof.
  apply (checkFrame_rejects_bit_flip [206; 7; 0; 7; 9; 240; 204] 7 3 3);
    [simpl; lia | reflexivity | lia | discriminate | lia].
Defined.

(** X3.  The sequence number is outside what [checkFrame] checks: a
    frame of at least five bytes is accepted or rejected whatever byte
    is put at the place of the sequence number, and [processFrame]
    reports that byte as the sequence number of the block, with the same
    data. *)
Theorem seq_byte_not_checked (frameRx dataRx : list Z) (nFrame maxData v : Z) :
  5 <= nFrame <= Z.of_nat (length frameRx) ->
  (checkFrame (wr frameRx SEQNUMPOS v) nFrame).1 = (checkFrame frameRx nFrame).1 /\
  (processFrame (wr frameRx SEQNUMPOS v) nFrame dataRx maxData).2 = v /\
  (processFrame (wr frameRx SEQNUMPOS v) nFrame dataRx maxData).1
  = (processFrame frameRx nFrame dataRx maxData).1.
Proof.
  intros Hn. unfold SEQNUMPOS. split; [| split].
  - rewrite !checkFrame_value. unfold BYTECOUNTPOS, HEADERSIZE.
    rewrite !(rd_wr_ne _ 2) by lia.
    rewrite (sum_from_ext (rd (wr frameRx 2 v)) (rd frameRx)); [done |].
    intros j Hj. apply rd_wr_ne. lia.
  - unfold processFrame, SEQNUMPOS. cbn [snd]. apply rd_wr_eq. lia.
  - unfold processFrame, HEADERSIZE, TRAILERSIZE. cbn [fst]. f_equal.
    set (n := if nFrame - 3 - 2 >? maxData then maxData else nFrame - 3 - 2).
    unfold for_range. generalize (Z.to_nat (n - 0)) as k. generalize dataRx as d.
    assert (Hgen : forall (k : nat) (lo : Z) (d : list Z), 0 <= lo ->
      for_loop k lo (fun i d0 => wr d0 i (rd (wr frameRx 2 v) (3 + i))) d
      = for_loop k lo (fun i d0 => wr d0 i (rd frameRx (3 + i))) d).
    { induction k as [| k IH]; intros lo d Hlo; [done |]. cbn [for_loop].
      rewrite rd_wr_ne by lia. apply IH. lia. }
    intros d k. by apply Hgen.
Qed.

(** The hypothesis of X3 holds for the frame of the block [7; 9], in
    which the sequence number 0 is replaced by 5. *)
Lemma seq_byte_not_checked_witness :
  (checkFrame (wr [206; 7; 0; 7; 9; 240; 204] SEQNUMPOS 5) 7).1
  = (checkFrame [206; 7; 0; 7; 9; 240; 204] 7).1.
Proof.
  apply (seq_byte_not_checked [206; 7; 0; 7; 9; 240; 204] [] 7 0 5). simpl. lia.
Defined.

(** X4.  [processFrame] gives [maxData] bytes when the frame holds more,
    and all the data bytes of the frame otherwise; it writes no byte of
    the caller's array at or beyond the number it returns, and it does
    not change the size of the array. *)
Theorem processFrame_truncates (frameRx : list Z) (nFrame : Z) (dataRx : list Z)
    (maxData : Z) :
  let '(data, n, seqNum) := processFrame frameRx nFrame dataRx maxData in
  n = Z.min (nFrame - HEADERSIZE - TRAILERSIZE) maxData /\
  length data = length dataRx /\
  (forall j, 0 <= j < n -> j < Z.of_nat (length dataRx) ->
             rd data j = rd frameRx (HEADERSIZE + j)) /\
  (forall j, n <= j -> rd data j = rd dataRx j).
Proof.
  pose proof (processFrame_bytes frameRx nFrame dataRx maxData) as H.
  destruct (processFrame frameRx nFrame dataRx maxData) as [[data n] seqNum].
  destruct H as (Hn & _ & Hl & Hc & Hr). unfold HEADERSIZE, TRAILERSIZE.
  repeat split; [lia | done | done | done].
Qed.

(** ** The simulated channel: opening, reading, capacity *)

(** X5.  [PHY_open] always returns 0; it empties the channel by putting
    both cursors at 0, sets the time limit to the sum of its two timeout
    arguments and leaves the bytes of the array alone; it takes the
    error probability when that is from 0 to 1, and keeps the one it had
    otherwise. *)
Theorem PHY_open_resets (portNum bitRate nDataBits parity rxTimeConst rxTimeIntv : Z)
    (probErr : Q) (s : State) :
  let '(r, s') := PHY_open portNum bitRate nDataBits parity rxTimeConst rxTimeIntv
                    probErr s in
  r = 0 /\
  nBytesWritten (phy s') = 0 /\ nBytesUsed (phy s') = 0 /\
  rxTimeLimit (phy s') = rxTimeConst + rxTimeIntv /\
  buffer (phy s') = buffer (phy s) /\
  ((0 <= probErr /\ probErr <= 1)%Q -> rxProbErr (phy s') = probErr) /\
  (~ (0 <= probErr /\ probErr <= 1)%Q -> rxProbErr (phy s') = rxProbErr (phy s)) /\
  link s' = link s /\ env s' = env s /\ out s' = out s.
Proof.
  unfold PHY_open, srand_time. cbn [phy set_phy link env out].
  destruct (Qle_bool 0 probErr) eqn:H0; destruct (Qle_bool probErr 1) eqn:H1;
    cbn [andb nBytesWritten nBytesUsed rxTimeLimit buffer rxProbErr];
    repeat split; try done;
    try (intros [Ha Hb]; apply Qle_bool_iff in Ha; apply Qle_bool_iff in Hb; congruence);
    intros Hn; exfalso; apply Hn; split; by apply Qle_bool_iff.
Qed.

(** X6.  A read of the empty channel, whatever number of bytes is asked
    for, returns 1: it gives one byte made up from [rand], changes
    nothing else in the caller's array, leaves the channel as it is and
    lets the time limit of the channel pass (ten seconds when the limit
    is 0). *)
Theorem PHY_get_empty (dataRx : list Z) (off nBytesToGet : Z) (s : State) :
  nBytesWritten (phy s) = nBytesUsed (phy s) ->
  let '(r, d, s') := PHY_get dataRx off nBytesToGet s in
  r = 1 /\
  (0 <= off < Z.of_nat (length dataRx) -> 0 <= rd d off <= 255) /\
  (forall j, j <> off -> rd d j = rd dataRx j) /\
  length d = length dataRx /\
  phy s' = phy s /\ link s' = link s /\
  now (env s') = now (env s) + sleep_time (phy s).
Proof.
  intros He. unfold PHY_get, sleep_time. rewrite He, Z.sub_diag. change (0 =? 0) with true.
  cbv iota. cbn [rand fst snd]. rewrite Z.add_0_r.
  set (b := to_byte _).
  assert (Hb : 0 <= b <= 255).
  { unfold b, to_byte. pose proof (Z.mod_pos_bound
      (Z.rem (Z.of_N (rand_src (env s) (rand_pos (env s)))) 256) 256 ltac:(lia)). lia. }
  split; [done |]. split; [intros Ho; by rewrite rd_wr_eq |].
  split; [intros j Hj; by apply rd_wr_ne |]. split; [apply length_wr |].
  cbn [phy set_env]. destruct (rxTimeLimit (phy s) =? 0); unfold Sleep; cbn; done.
Qed.

(** The hypothesis of X6 holds in the state the program starts in. *)
Lemma PHY_get_empty_witness :
  let '(r, d, s') := PHY_get [0; 0] 0 0 (initial calm) in
  r = 1 /\
  (0 <= 0 < Z.of_nat (length [0; 0]) -> 0 <= rd d 0 <= 255) /\
  (forall j, j <> 0 -> rd d j = rd [0; 0] j) /\
  length d = length [0; 0] /\
  phy s' = phy (initial calm) /\ link s' = link (initial calm) /\
  now (env s') = now (env (initial calm)) + sleep_time (phy (initial calm)).
Proof.
  apply (PHY_get_empty [0; 0] 0 0 (initial calm)). reflexivity.
Defined.

(** Copying [n] bytes from one array into another. *)
Lemma copy_loop (src dst : list Z) (so doff : Z) (n : Z) :
  0 <= n -> 0 <= doff -> doff + n <= Z.of_nat (length dst) ->
  let d := for_range 0 n (fun i d => wr d (doff + i) (rd src (so + i))) dst in
  length d = length dst /\
  (forall j, 0 <= j < n -> rd d (doff + j) = rd src (so + j)) /\
  (forall j, ~ (doff <= j < doff + n) -> rd d j = rd dst j).
Proof.
  intros Hn Hd Hlen.
  apply (for_range_inv (fun i d => wr d (doff + i) (rd src (so + i)))
    (fun i d =>
       length d = length dst /\
       (forall j, 0 <= j < i -> rd d (doff + j) = rd src (so + j)) /\
       (forall j, ~ (doff <= j < doff + i) -> rd d j = rd dst j))); [done | |].
  - split; [done |]. split; [intros; lia | done].
  - intros i d Hi (Hl & Hc & Hr). rewrite length_wr. split; [done |]. split.
    + intros j Hj. destruct (decide (j = i)) as [-> | ?].
      * apply rd_wr_eq. lia.
      * rewrite rd_wr_ne by lia. apply Hc. lia.
    + intros j Hj. rewrite rd_wr_ne by lia. apply Hr. lia.
Qed.

(** X7.  A read of a channel that holds bytes gives the bytes asked for,
    or all that wait when these are fewer, in the order they were
    written; it takes no time and uses no random number, and it puts
    both cursors back at 0 when it has taken the last byte. *)
Theorem PHY_get_fifo (dataRx : list Z) (off nBytesToGet : Z) (s : State) :
  nBytesUsed (phy s) < nBytesWritten (phy s) ->
  0 <= nBytesToGet -> 0 <= off ->
  off + Z.min nBytesToGet (nBytesWritten (phy s) - nBytesUsed (phy s))
  <= Z.of_nat (length dataRx) ->
  let '(r, d, s') := PHY_get dataRx off nBytesToGet s in
  r = Z.min nBytesToGet (nBytesWritten (phy s) - nBytesUsed (phy s)) /\
  length d = length dataRx /\
  (forall j, 0 <= j < r -> rd d (off + j) = rd (buffer (phy s)) (nBytesUsed (phy s) + j)) /\
  (forall j, ~ (off <= j < off + r) -> rd d j = rd dataRx j) /\
  buffer (phy s') = buffer (phy s) /\
  (nBytesUsed (phy s) + r = nBytesWritten (phy s) ->
   nBytesWritten (phy s') = 0 /\ nBytesUsed (phy s') = 0) /\
  (nBytesUsed (phy s) + r <> nBytesWritten (phy s) ->
   nBytesWritten (phy s') = nBytesWritten (phy s) /\
   nBytesUsed (phy s') = nBytesUsed (phy s) + r) /\
  link s' = link s /\ env s' = env s /\ out s' = out s.
Proof.
  intros Hav Hn Hoff Hroom. unfold PHY_get.
  set (avail := nBytesWritten (phy s) - nBytesUsed (phy s)) in *.
  destruct (Z.eqb_spec avail 0) as [? | _]; [lia |].
  set (got := if nBytesToGet >? avail then avail else nBytesToGet).
  assert (Hgot : got = Z.min nBytesToGet avail).
  { unfold got. destruct (Z.gtb_spec nBytesToGet avail); lia. }
  pose proof (copy_loop (buffer (phy s)) dataRx (nBytesUsed (phy s)) off got
                ltac:(lia) Hoff ltac:(lia)) as Hcopy.
  cbv zeta in Hcopy. destruct Hcopy as (Hl & Hc & Hr).
  rewrite <- Hgot. split; [done |]. split; [done |]. split; [done |]. split; [done |].
  cbn [phy set_phy nBytesUsed nBytesWritten set_cursors].
  destruct (Z.eqb_spec (nBytesUsed (phy s) + got) (nBytesWritten (phy s))) as [Heq | Hne];
    cbn; repeat split; try done; try lia.
Qed.

(** The hypotheses of X7 hold when a block was sent on the calm channel
    and two bytes are read. *)
Lemma PHY_get_fifo_witness :
  let '(r, d, s') := PHY_get [0; 0] 0 2 (sent calm) in
  r = Z.min 2 (nBytesWritten (phy (sent calm)) - nBytesUsed (phy (sent calm))) /\
  length d = length [0; 0] /\
  (forall j, 0 <= j < r ->
     rd d (0 + j) = rd (buffer (phy (sent calm))) (nBytesUsed (phy (sent calm)) + j)) /\
  (forall j, ~ (0 <= j < 0 + r) -> rd d j = rd [0; 0] j) /\
  buffer (phy s') = buffer (phy (sent calm)) /\
  (nBytesUsed (phy (sent calm)) + r = nBytesWritten (phy (sent calm)) ->
   nBytesWritten (phy s') = 0 /\ nBytesUsed (phy s') = 0) /\
  (nBytesUsed (phy (sent calm)) + r <> nBytesWritten (phy (sent calm)) ->
   nBytesWritten (phy s') = nBytesWritten (phy (sent calm)) /\
   nBytesUsed (phy s') = nBytesUsed (phy (sent calm)) + r) /\
  link s' = link (sent calm) /\ env s' = env (sent calm) /\ out s' = out (sent calm).
Proof.
  refine (PHY_get_fifo [0; 0] 0 2 (sent calm) _ _ _ _).
  - vm_compute. reflexivity.
  - lia.
  - lia.
  - vm_compute. discriminate.
Defined.

(** ** The simulated channel: writing *)

(** The write cursor from which [PHY_send] stores the caller's bytes:
    beyond the line noise when the array was empty. *)
Lemma write_start (s : State) :
  let s1 := if nBytesWritten (phy s) =? 0 then line_noise s else s in
  nBytesWritten (phy s1)
  = (if nBytesWritten (phy s) =? 0 then noise_count s else nBytesWritten (phy s)).
Proof.
  cbv zeta. destruct (nBytesWritten (phy s) =? 0); [| done].
  pose proof (line_noise_facts s) as H. cbv zeta in H. tauto.
Qed.

(** X8.  [PHY_send] keeps the channel in order and never writes beyond
    the end of the array: it stores all the bytes when there is room
    after the write cursor (and the line noise, on an empty array), and
    otherwise only those that fit, returns their number and leaves the
    write cursor at the end of the array. *)
Theorem PHY_send_capacity (dataTx : list Z) (nBytesToSend : Z) (s : State) :
  chan_ok (phy s) -> 0 <= nBytesToSend ->
  let start := if nBytesWritten (phy s) =? 0 then noise_count s else nBytesWritten (phy s) in
  let '(nBytesSent, s') := PHY_send dataTx nBytesToSend s in
  chan_ok (phy s') /\
  nBytesSent = Z.min nBytesToSend (BUFSIZE - start) /\
  nBytesWritten (phy s') = start + nBytesSent /\
  (nBytesSent < nBytesToSend -> nBytesWritten (phy s') = BUFSIZE).
Proof.
  intros (Hlen & Hu & Hw) Hn start.
  pose proof (PHY_send_facts dataTx nBytesToSend s) as Hf.
  pose proof (write_start s) as Hs. cbv zeta in Hf, Hs. fold start in Hs.
  destruct (PHY_send dataTx nBytesToSend s) as [ret s'].
  rewrite Hs in Hf. destruct Hf as (_ & Hw' & Hret & Hu' & Hlen' & _).
  assert (Hst : 0 <= start <= BUFSIZE /\ nBytesUsed (phy s) <= start).
  { unfold start. destruct (Z.eqb_spec (nBytesWritten (phy s)) 0) as [H0 | ?]; [| lia].
    pose proof (noise_count_bounds s). unfold BUFSIZE in *. lia. }
  assert (Hmin : ret = Z.min nBytesToSend (BUFSIZE - start)).
  { rewrite Hret. destruct (Z.gtb_spec (start + nBytesToSend) BUFSIZE); lia. }
  unfold chan_ok. rewrite Hlen', Hu', Hw'. repeat split; lia.
Qed.

(** The hypotheses of X8 hold in the state the program starts in. *)
Lemma PHY_send_capacity_witness :
  let start := if nBytesWritten (phy (initial calm)) =? 0 then noise_count (initial calm)
               else nBytesWritten (phy (initial calm)) in
  let '(nBytesSent, s') := PHY_send [1; 2; 3] 3 (initial calm) in
  chan_ok (phy s') /\
  nBytesSent = Z.min 3 (BUFSIZE - start) /\
  nBytesWritten (phy s') = start + nBytesSent /\
  (nBytesSent < 3 -> nBytesWritten (phy s') = BUFSIZE).
Proof.
  refine (PHY_send_capacity [1; 2; 3] 3 (initial calm) _ _).
  - unfold chan_ok. cbn [initial phy buffer nBytesUsed nBytesWritten].
    rewrite length_replicate. unfold BUFSIZE. lia.
  - lia.
Defined.

Lemma PHY_get_chan_ok (dataRx : list Z) (off nBytesToGet : Z) (s : State) :
  chan_ok (phy s) -> 0 <= nBytesToGet ->
  chan_ok (phy (PHY_get dataRx off nBytesToGet s).2).
Proof.
  intros (Hlen & Hu & Hw) Hn. unfold PHY_get.
  destruct (Z.eqb_spec (nBytesWritten (phy s) - nBytesUsed (phy s)) 0) as [He | Hne].
  - cbn [rand fst snd]. destruct (rxTimeLimit _ =? 0); unfold Sleep; cbn; done.
  - set (got := if nBytesToGet >? _ then _ else nBytesToGet).
    assert (Hgot : 0 <= got <= nBytesWritten (phy s) - nBytesUsed (phy s)).
    { unfold got.
      destruct (Z.gtb_spec nBytesToGet (nBytesWritten (phy s) - nBytesUsed (phy s))); lia. }
    cbn [snd phy set_phy nBytesUsed nBytesWritten set_cursors].
    destruct (Z.eqb_spec (nBytesUsed (phy s) + got) (nBytesWritten (phy s)));
      unfold chan_ok; cbn; unfold BUFSIZE in *; repeat split; try done; lia.
Qed.

(** X9.  [PHY_open] and [PHY_get] keep the channel in order: the read
    cursor stays at or below the write cursor, and the write cursor
    within the array. *)
Theorem chan_ok_kept (s : State) :
  chan_ok (phy s) ->
  (forall portNum bitRate nDataBits parity rxTimeConst rxTimeIntv probErr,
     chan_ok (phy (PHY_open portNum bitRate nDataBits parity rxTimeConst rxTimeIntv
                     probErr s).2)) /\
  (forall dataRx off nBytesToGet,
     0 <= nBytesToGet -> chan_ok (phy (PHY_get dataRx off nBytesToGet s).2)).
Proof.
  intros Hok. split.
  - intros. destruct Hok as (Hlen & Hu & Hw). unfold PHY_open, srand_time, chan_ok.
    cbn [snd phy set_phy].
    destruct (Qle_bool 0 probErr && Qle_bool probErr 1); cbn; unfold BUFSIZE in *;
      repeat split; try done; lia.
  - intros dataRx off n Hn. by apply PHY_get_chan_ok.
Qed.

(** The hypothesis of X9 holds in the state the program starts in. *)
Lemma chan_ok_kept_witness :
  (forall portNum bitRate nDataBits parity rxTimeConst rxTimeIntv probErr,
     chan_ok (phy (PHY_open portNum bitRate nDataBits parity rxTimeConst rxTimeIntv
                     probErr (initial calm)).2)) /\
  (forall dataRx off nBytesToGet,
     0 <= nBytesToGet -> chan_ok (phy (PHY_get dataRx off nBytesToGet (initial calm)).2)).
Proof.
  refine (chan_ok_kept (initial calm) _).
  unfold chan_ok. cbn [initial phy buffer nBytesUsed nBytesWritten].
  rewrite length_replicate. unfold BUFSIZE. lia.
Defined.



(** ** A frame that waits in the channel is delivered *)

Lemma after_reads_refl (s : State) : after_reads 0 0 s s.
Proof. unfold after_reads. repeat split; try done; lia. Qed.

(** Reads one after the other add up, when the first left bytes
    waiting or the second took none. *)
Lemma after_reads_trans (m1 m2 t1 t2 : Z) (s1 s2 s3 : State) :
  0 <= m1 -> 0 <= m2 ->
  m2 = 0 \/ nBytesUsed (phy s1) + m1 <> nBytesWritten (phy s1) ->
  after_reads m1 t1 s1 s2 -> after_reads m2 t2 s2 s3 ->
  after_reads (m1 + m2) (t1 + t2) s1 s3.
Proof.
  intros H1 H2 Hne (Ho & Hb & Hx & He & Hz & Hc & Hr & Hp & Ht & Hn)
                   (Ho' & Hb' & Hx' & He' & Hz' & Hc' & Hr' & Hp' & Ht' & Hn').
  unfold after_reads. rewrite Ho', Hb', Hx', He', Hr', Hp', Ht'.
  repeat (split; [done |]). split; [| split; [| repeat split; try done; lia]].
  - intros Hpos Heq. destruct (decide (m2 = 0)) as [-> | Hm2].
    + destruct Hz as [Hw Hu]; [lia | lia |].
      destruct Hc' as [Hw' Hu']; [by left |]. lia.
    + destruct Hne as [? | Hne]; [done |].
      destruct Hc as [Hw Hu]; [by right |]. apply Hz'; lia.
  - intros Hcase. destruct (decide (m2 = 0)) as [-> | Hm2].
    + destruct Hc' as [Hw' Hu']; [by left |].
      destruct Hc as [Hw Hu]; [destruct Hcase; [left | right]; lia |]. lia.
    + destruct Hne as [? | Hne]; [done |].
      destruct Hc as [Hw Hu]; [by right |].
      destruct Hc' as [Hw' Hu']; [right; destruct Hcase; lia |]. lia.
Qed.

(** While the timer has room for the ticks of one more reading of a slow
    clock, [timeUp] answers 0. *)
Lemma timeUp_slow (timeLimit : Z) (s : State) :
  slow_clock s -> now (env s) + 60 < timeLimit ->
  exists s', timeUp timeLimit s = (0, s') /\
    link s' = link s /\ after_reads 0 60 s s'.
Proof.
  intros Hslow Hroom. unfold timeUp, clock. cbn [fst snd].
  specialize (Hslow (tick_pos (env s))).
  destruct (Z.ltb_spec (now (env s) + Z.of_N (tick_src (env s) (tick_pos (env s))))
              timeLimit) as [_ | Hge]; [| lia].
  eexists. split; [reflexivity |]. unfold after_reads. cbn. repeat split; try done; lia.
Qed.

(** A read of one byte of a channel that holds at least one. *)
Lemma PHY_get_one_waiting (dataRx : list Z) (off : Z) (s : State) :
  nBytesUsed (phy s) < nBytesWritten (phy s) ->
  exists s', PHY_get dataRx off 1 s
             = (1, wr dataRx off (rd (buffer (phy s)) (nBytesUsed (phy s))), s') /\
    link s' = link s /\ after_reads 1 0 s s'.
Proof.
  intros Hav. rewrite PHY_get_one_avail by lia. rewrite !Z.add_0_r.
  destruct (Z.eqb_spec (nBytesUsed (phy s) + 1) (nBytesWritten (phy s)));
    (eexists; split; [reflexivity |]); unfold after_reads; cbn;
    repeat split; try done; lia.
Qed.

Lemma slow_clock_after (m t : Z) (s s' : State) :
  after_reads m t s s' -> slow_clock s -> slow_clock s'.
Proof.
  intros (_ & _ & _ & _ & _ & _ & _ & _ & Ht & _) Hs i. rewrite Ht. apply Hs.
Qed.

(** The search for the start of frame passes [k] waiting bytes that are
    not start markers and stops at the start marker behind them. *)
Lemma search_start_finds (k : nat) (fuel : nat) (frameRx : list Z) (s : State) :
  slow_clock s ->
  0 <= nBytesUsed (phy s) ->
  nBytesUsed (phy s) + Z.of_nat k < nBytesWritten (phy s) ->
  (forall j, 0 <= j < Z.of_nat k ->
     rd (buffer (phy s)) (nBytesUsed (phy s) + j) <> STARTBYTE) ->
  rd (buffer (phy s)) (nBytesUsed (phy s) + Z.of_nat k) = STARTBYTE ->
  (1 <= length frameRx)%nat ->
  now (env s) + 60 * Z.of_nat k < timerRx (link s) ->
  (k < fuel)%nat ->
  exists f' s', search_start fuel frameRx s = Some (Left 1, f', s') /\
    length f' = length frameRx /\ rd f' 0 = STARTBYTE /\
    (forall j, j <> 0 -> rd f' j = rd frameRx j) /\
    link s' = link s /\ after_reads (Z.of_nat k + 1) (60 * Z.of_nat k) s s'.
Proof.
  revert fuel frameRx s.
  induction k as [| k IH]; intros fuel frameRx s Hslow Hu Hw Hnoise Hmark Hlen Htime Hfuel;
    (destruct fuel as [| fuel]; [lia |]); cbn [search_start];
    destruct (PHY_get_one_waiting frameRx 0 s ltac:(lia)) as (s1 & Hg & Hl1 & Hr1);
    rewrite Hg; change (1 <? 0) with false; change (1 <? 1) with false; cbn [orb];
    cbv iota.
  - rewrite Z.add_0_r in Hmark. rewrite rd_wr_eq by lia. rewrite Hmark, Z.eqb_refl.
    cbn [negb]. do 2 eexists. split; [reflexivity |]. rewrite length_wr.
    split; [done |]. split; [rewrite rd_wr_eq by lia; done |].
    split; [intros j Hj; by rewrite rd_wr_ne by lia |]. split; [done |].
    replace (60 * Z.of_nat 0) with 0 by lia. done.
  - rewrite rd_wr_eq by lia.
    pose proof (Hnoise 0 ltac:(lia)) as Hb. rewrite Z.add_0_r in Hb.
    destruct (Z.eqb_spec (rd (buffer (phy s)) (nBytesUsed (phy s))) STARTBYTE); [done |].
    cbn [negb].
    pose proof Hr1 as (_ & Hb1 & _ & _ & _ & Hc1 & _ & _ & _ & Hn1).
    destruct Hc1 as [Hw1 Hu1]; [right; lia |].
    destruct (timeUp_slow (timerRx (link s1)) s1) as (s2 & Ht & Hl2 & Hr2).
    { eapply slow_clock_after; eauto. } { rewrite Hl1. lia. }
    rewrite Ht. change (0 =? 0) with true. cbv iota.
    pose proof Hr2 as (_ & Hb2 & _ & _ & _ & Hc2 & _ & _ & _ & Hn2).
    destruct Hc2 as [Hw2 Hu2]; [by left |].
    destruct (IH fuel (wr frameRx 0 (rd (buffer (phy s)) (nBytesUsed (phy s)))) s2)
      as (f' & s' & Hs & Hlf & Hf0 & Hfr & Hl' & Hr').
    { eapply slow_clock_after; eauto. eapply slow_clock_after; eauto. }
    { lia. } { lia. }
    { intros j Hj. rewrite Hb2, Hb1, Hu2, Hu1.
      replace (nBytesUsed (phy s) + 1 + 0 + j) with (nBytesUsed (phy s) + (j + 1)) by lia.
      apply Hnoise. lia. }
    { rewrite Hb2, Hb1, Hu2, Hu1. rewrite <- Hmark. f_equal. lia. }
    { by rewrite length_wr. }
    { rewrite Hl2, Hl1. lia. }
    { lia. }
    exists f', s'. split; [done |]. rewrite length_wr in Hlf. split; [done |].
    split; [done |]. split.
    { intros j Hj. rewrite Hfr by done. by rewrite rd_wr_ne by lia. }
    split; [congruence |].
    replace (Z.of_nat (S k) + 1) with (1 + 0 + (Z.of_nat k + 1)) by lia.
    replace (60 * Z.of_nat (S k)) with (0 + 60 + 60 * Z.of_nat k) by lia.
    eapply after_reads_trans; [lia | lia | | | exact Hr'].
    + right. rewrite Z.add_0_r. lia.
    + eapply after_reads_trans; [lia | lia | by left | exact Hr1 | exact Hr2].
Qed.

(** The loop that collects the frame takes the [m + 1] waiting bytes that
    the byte count still asks for. *)
Lemma collect_gathers (m : nat) (fuel : nat) (byteCount nRx : Z) (frameRx : list Z)
    (s : State) :
  slow_clock s ->
  0 <= nBytesUsed (phy s) ->
  nBytesUsed (phy s) + Z.of_nat m < nBytesWritten (phy s) ->
  0 <= nRx -> byteCount = nRx + Z.of_nat m + 1 ->
  byteCount <= Z.of_nat (length frameRx) ->
  now (env s) + 60 * Z.of_nat m < timerRx (link s) ->
  (m < fuel)%nat ->
  exists f' s', collect fuel 1 byteCount nRx frameRx s = Some (Left byteCount, f', s') /\
    length f' = length frameRx /\
    (forall j, 0 <= j <= Z.of_nat m ->
       rd f' (nRx + j) = rd (buffer (phy s)) (nBytesUsed (phy s) + j)) /\
    (forall j, ~ (nRx <= j <= nRx + Z.of_nat m) -> rd f' j = rd frameRx j) /\
    link s' = link s /\ after_reads (Z.of_nat m + 1) (60 * Z.of_nat m) s s'.
Proof.
  revert fuel nRx frameRx s.
  induction m as [| m IH];
    intros fuel nRx frameRx s Hslow Hu Hw HnRx Hbc Hlen Htime Hfuel;
    (destruct fuel as [| fuel]; [lia |]); cbn [collect];
    destruct (PHY_get_one_waiting frameRx nRx s ltac:(lia)) as (s1 & Hg & Hl1 & Hr1);
    rewrite Hg; change (1 <? 0) with false; cbv iota.
  - destruct (Z.ltb_spec (nRx + 1) byteCount); [lia |].
    do 2 eexists. split; [f_equal; f_equal; f_equal; f_equal; lia |].
    rewrite length_wr. split; [done |]. split.
    { intros j Hj. assert (j = 0) as -> by lia. rewrite !Z.add_0_r.
      apply rd_wr_eq. lia. }
    split; [intros j Hj; apply rd_wr_ne; lia |]. split; [done |].
    replace (60 * Z.of_nat 0) with 0 by lia. done.
  - destruct (Z.ltb_spec (nRx + 1) byteCount); [| lia].
    pose proof Hr1 as (_ & Hb1 & _ & _ & _ & Hc1 & _ & _ & _ & Hn1).
    destruct Hc1 as [Hw1 Hu1]; [right; lia |].
    destruct (timeUp_slow (timerRx (link s1)) s1) as (s2 & Ht & Hl2 & Hr2).
    { eapply slow_clock_after; eauto. } { rewrite Hl1. lia. }
    rewrite Ht. change (0 =? 0) with true. cbv iota.
    pose proof Hr2 as (_ & Hb2 & _ & _ & _ & Hc2 & _ & _ & _ & Hn2).
    destruct Hc2 as [Hw2 Hu2]; [by left |].
    destruct (IH fuel (nRx + 1)
                (wr frameRx nRx (rd (buffer (phy s)) (nBytesUsed (phy s)))) s2)
      as (f' & s' & Hs & Hlf & Hfd & Hfr & Hl' & Hr').
    { eapply slow_clock_after; eauto. eapply slow_clock_after; eauto. }
    { lia. } { lia. } { lia. } { lia. }
    { rewrite length_wr. lia. }
    { rewrite Hl2, Hl1. lia. }
    { lia. }
    exists f', s'. split; [done |]. rewrite length_wr in Hlf. split; [done |]. split.
    { intros j Hj. destruct (decide (j = 0)) as [-> | Hj0].
      - rewrite !Z.add_0_r. rewrite Hfr by lia. apply rd_wr_eq. lia.
      - replace (nRx + j) with (nRx + 1 + (j - 1)) by lia. rewrite Hfd by lia.
        rewrite Hb2, Hb1, Hu2, Hu1. f_equal. lia. }
    split.
    { intros j Hj. rewrite Hfr by lia. apply rd_wr_ne. lia. }
    split; [congruence |].
    replace (Z.of_nat (S m) + 1) with (1 + 0 + (Z.of_nat m + 1)) by lia.
    replace (60 * Z.of_nat (S m)) with (0 + 60 + 60 * Z.of_nat m) by lia.
    eapply after_reads_trans; [lia | lia | | | exact Hr'].
    + right. rewrite Z.add_0_r. lia.
    + eapply after_reads_trans; [lia | lia | by left | exact Hr1 | exact Hr2].
Qed.

Lemma timeSet_slow (limit : Q) (s : State) :
  slow_clock s ->
  exists s', timeSet limit s
             = (now (env s') + trunc (limit * inject_Z CLOCKS_PER_SEC)%Q, s') /\
    link s' = link s /\ after_reads 0 60 s s'.
Proof.
  intros Hslow. unfold timeSet, clock. cbn [fst snd].
  specialize (Hslow (tick_pos (env s))).
  exists (clock s).2. split; [reflexivity |]. unfold after_reads, clock. cbn.
  repeat split; try done; lia.
Qed.

(** When the channel holds [k] bytes that are not start markers, then a
    start marker, then a byte count [L] of at least 3, and at least [L]
    bytes from the start marker on, [getFrame] returns [L] with those
    [L] bytes in the frame array and has taken [k + L] bytes from the
    channel, if the receive timer allows 60 ticks for each byte and the
    clock is slow. *)
Lemma getFrame_takes (k : nat) (L : Z) (fuel : nat) (frameRx : list Z)
    (maxSize : Z) (timeLimit : Q) (s : State) :
  slow_clock s ->
  0 <= nBytesUsed (phy s) ->
  nBytesUsed (phy s) + Z.of_nat k + L <= nBytesWritten (phy s) ->
  (forall j, 0 <= j < Z.of_nat k ->
     rd (buffer (phy s)) (nBytesUsed (phy s) + j) <> STARTBYTE) ->
  rd (buffer (phy s)) (nBytesUsed (phy s) + Z.of_nat k) = STARTBYTE ->
  rd (buffer (phy s)) (nBytesUsed (phy s) + Z.of_nat k + 1) = L ->
  3 <= L <= Z.of_nat (length frameRx) ->
  60 * (Z.of_nat k + L) <= trunc (timeLimit * inject_Z CLOCKS_PER_SEC)%Q ->
  Z.of_nat k + L <= Z.of_nat fuel ->
  exists frameRx' s' t,
    getFrame fuel frameRx maxSize timeLimit s = Some (L, frameRx', s') /\
    length frameRx' = length frameRx /\
    (forall j, 0 <= j < L ->
       rd frameRx' j = rd (buffer (phy s)) (nBytesUsed (phy s) + Z.of_nat k + j)) /\
    (forall j, L <= j -> rd frameRx' j = rd frameRx j) /\
    link s' = link (set_timerRx t s) /\
    after_reads (Z.of_nat k + L) (60 * (Z.of_nat k + L)) s s'.
Proof.
  intros Hslow Hu Hw Hnoise Hmark Hcount HL Htime Hfuel.
  set (T := trunc (timeLimit * inject_Z CLOCKS_PER_SEC)%Q) in *.
  set (u := nBytesUsed (phy s)) in *. set (w := nBytesWritten (phy s)) in *.
  set (buf := buffer (phy s)) in *.
  unfold getFrame.
  destruct (timeSet_slow timeLimit s Hslow) as (s0 & Hts & Hl0 & Hr0).
  rewrite Hts. fold T. set (sA := set_timerRx (now (env s0) + T) s0).
  assert (HrA : after_reads 0 60 s sA) by exact Hr0.
  assert (HtA : timerRx (link sA) = now (env sA) + T) by done.
  pose proof HrA as (_ & HbA & _ & _ & _ & HcA & _ & _ & _ & HnA).
  destruct HcA as [HwA HuA]; [by left |]. rewrite Z.add_0_r in HuA. fold u in HuA. fold w in HwA.
  fold buf in HbA.
  (* the search *)
  destruct (search_start_finds k fuel frameRx sA) as (f1 & s1 & Hs & Hlf1 & Hf10 & Hf1r & Hl1 & Hr1).
  { eapply slow_clock_after; eauto. } { lia. } { lia. }
  { intros j Hj. rewrite HbA, HuA. by apply Hnoise. }
  { by rewrite HbA, HuA. } { lia. } { lia. } { lia. }
  rewrite Hs.
  pose proof Hr1 as (_ & Hb1 & _ & _ & _ & Hc1 & _ & _ & _ & Hn1).
  destruct Hc1 as [Hw1 Hu1]; [right; lia |].
  (* the byte count *)
  destruct (PHY_get_one_waiting f1 1 s1 ltac:(lia)) as (s2 & Hg & Hl2 & Hr2).
  rewrite Hg. change (1 <? 0) with false. cbv iota.
  set (f2 := wr f1 1 _) in *.
  assert (Hf21 : rd f2 BYTECOUNTPOS = L).
  { unfold f2, BYTECOUNTPOS. rewrite rd_wr_eq by lia.
    rewrite Hb1, HbA, Hu1, HuA. rewrite <- Hcount. f_equal. lia. }
  rewrite Hf21.
  pose proof Hr2 as (_ & Hb2 & _ & _ & _ & Hc2 & _ & _ & _ & Hn2).
  destruct Hc2 as [Hw2 Hu2]; [right; lia |].
  destruct (timeUp_slow (timerRx (link s2)) s2) as (s3 & Ht3 & Hl3 & Hr3).
  { repeat (eapply slow_clock_after; [eassumption |]). done. }
  { rewrite Hl2, Hl1, HtA. lia. }
  rewrite Ht3. change (negb (0 =? 0)) with false. cbv iota.
  pose proof Hr3 as (_ & Hb3 & _ & _ & _ & Hc3 & _ & _ & _ & Hn3).
  destruct Hc3 as [Hw3 Hu3]; [by left |].
  (* the rest of the frame *)
  destruct (collect_gathers (Z.to_nat (L - 3)) fuel L 2 f2 s3)
    as (f4 & s4 & Hc & Hlf4 & Hf4d & Hf4r & Hl4 & Hr4).
  { repeat (eapply slow_clock_after; [eassumption |]). done. }
  { lia. } { lia. } { lia. } { lia. }
  { unfold f2. rewrite length_wr. lia. }
  { rewrite Hl3, Hl2, Hl1, HtA. lia. }
  { lia. }
  rewrite Hc.
  destruct (timeUp_slow (timerRx (link s4)) s4) as (s5 & Ht5 & Hl5 & Hr5).
  { repeat (eapply slow_clock_after; [eassumption |]). done. }
  { destruct Hr4 as (_ & _ & _ & _ & _ & _ & _ & _ & _ & Hn4).
    rewrite Hl4, Hl3, Hl2, Hl1, HtA. lia. }
  rewrite Ht5. change (negb (0 =? 0)) with false. cbv iota.
  exists f4, s5, (now (env s0) + T). split; [done |].
  split; [rewrite Hlf4; unfold f2; by rewrite length_wr |]. split.
  { intros j Hj. destruct (decide (j = 0)) as [-> | Hj0].
    { rewrite Hf4r by lia. unfold f2. rewrite rd_wr_ne by lia.
      rewrite Hf10, Z.add_0_r. by rewrite Hmark. }
    destruct (decide (j = 1)) as [-> | Hj1].
    { rewrite Hf4r by lia. change (rd f2 1) with (rd f2 BYTECOUNTPOS).
      rewrite Hf21. by rewrite Hcount. }
    replace j with (2 + (j - 2)) at 1 by lia. rewrite Hf4d by lia.
    rewrite Hb3, Hb2, Hb1, HbA, Hu3, Hu2, Hu1, HuA. f_equal. lia. }
  split.
  { intros j Hj. rewrite Hf4r by lia. unfold f2. rewrite rd_wr_ne by lia.
    apply Hf1r. lia. }
  split.
  { rewrite Hl5, Hl4, Hl3, Hl2, Hl1. unfold sA, set_timerRx. by rewrite Hl0. }
  replace (Z.of_nat k + L)
    with (0 + (Z.of_nat k + 1) + 1 + 0 + (Z.of_nat (Z.to_nat (L - 3)) + 1) + 0) at 1 by lia.
  replace (60 * (Z.of_nat k + L))
    with (60 + 60 * Z.of_nat k + 0 + 60 + 60 * Z.of_nat (Z.to_nat (L - 3)) + 60) by lia.
  eapply after_reads_trans; [lia | lia | by left | | exact Hr5].
  eapply after_reads_trans; [lia | lia | | | exact Hr4].
  { right. lia. }
  eapply after_reads_trans; [lia | lia | by left | | exact Hr3].
  eapply after_reads_trans; [lia | lia | | | exact Hr2].
  { right. lia. }
  eapply after_reads_trans; [lia | lia | | exact HrA | exact Hr1].
  right. lia.
Qed.

(** ** A block sent is the block received *)

(** [checkFrame] prints nothing about a frame it accepts. *)
Lemma checkFrame_silent (frameRx : list Z) (nFrame : Z) :
  (checkFrame frameRx nFrame).1 = 1 -> (checkFrame frameRx nFrame).2 = [].
Proof.
  unfold checkFrame.
  destruct (negb (rd frameRx 0 =? STARTBYTE)); [done |].
  destruct (negb (rd frameRx (nFrame - 1) =? ENDBYTE)); [done |].
  destruct (negb (Z.rem _ 256 =? 0)); [done |].
  by destruct (negb (nFrame =? rd frameRx BYTECOUNTPOS)).
Qed.



(** ** The bytes that wait in the channel *)

Lemma length_pending (p : Phy) :
  chan_ok p -> Z.of_nat (length (pending p)) = nBytesWritten p - nBytesUsed p.
Proof.
  intros (Hlen & Hu & Hw). unfold pending. rewrite length_take, length_drop, Hlen. lia.
Qed.

Lemma rd_pending (p : Phy) (j : Z) :
  0 <= nBytesUsed p -> 0 <= j < nBytesWritten p - nBytesUsed p ->
  rd (pending p) j = rd (buffer p) (nBytesUsed p + j).
Proof.
  intros Hu Hj. unfold pending. rewrite rd_take by lia. rewrite rd_drop by lia.
  f_equal. lia.
Qed.

Lemma rd_Forall (P : Z -> Prop) (l : list Z) (j : Z) :
  Forall P l -> 0 <= j < Z.of_nat (length l) -> P (rd l j).
Proof.
  intros HP Hj. destruct (lookup_lt_is_Some_2 l (Z.to_nat j) ltac:(lia)) as [x Hx].
  replace j with (Z.of_nat (Z.to_nat j)) by lia. rewrite (rd_lookup _ _ _ Hx).
  eapply Forall_lookup_1; eauto.
Qed.

(** [getFrame] on a channel where a frame waits after bytes that hold no
    start marker. *)
Lemma getFrame_pending (junk frame rest : list Z) (fuel : nat) (frameRx : list Z)
    (maxSize : Z) (timeLimit : Q) (s : State) :
  chan_ok (phy s) -> slow_clock s ->
  pending (phy s) = junk ++ frame ++ rest ->
  Forall (fun b => b <> STARTBYTE) junk ->
  frame !! 0%nat = Some STARTBYTE ->
  frame !! 1%nat = Some (Z.of_nat (length frame)) ->
  (3 <= length frame <= length frameRx)%nat ->
  60 * Z.of_nat (length junk + length frame)
  <= trunc (timeLimit * inject_Z CLOCKS_PER_SEC)%Q ->
  (length junk + length frame <= fuel)%nat ->
  exists frameRx' s' t,
    getFrame fuel frameRx maxSize timeLimit s
    = Some (Z.of_nat (length frame), frameRx', s') /\
    link s' = link (set_timerRx t s) /\
    take (length frame) frameRx' = frame /\
    drop (length frame) frameRx' = drop (length frame) frameRx /\
    pending (phy s') = rest /\
    chan_ok (phy s').
Proof.
  intros Hok Hslow Hpend Hjunk Hf0 Hf1 HL Htime Hfuel.
  pose proof (length_pending _ Hok) as Hlp. rewrite Hpend, !length_app in Hlp.
  pose proof Hok as (Hlen & Hu & Hw).
  assert (Hrd : forall j, 0 <= j < Z.of_nat (length junk + length frame + length rest) ->
            rd (buffer (phy s)) (nBytesUsed (phy s) + j) = rd (junk ++ frame ++ rest) j).
  { intros j Hj. rewrite <- Hpend. symmetry. apply rd_pending; lia. }
  destruct (getFrame_takes (length junk) (Z.of_nat (length frame)) fuel frameRx maxSize
              timeLimit s) as (f' & s' & t & Hg & Hlf & Hfb & Hfr & Hlk & Hr).
  - done.
  - lia.
  - lia.
  - intros j Hj. rewrite Hrd by lia. rewrite rd_app by lia.
    destruct (Z.ltb_spec j (Z.of_nat (length junk))); [| lia].
    by apply (rd_Forall (fun b => b <> STARTBYTE)).
  - rewrite Hrd by lia. rewrite rd_app by lia.
    destruct (Z.ltb_spec (Z.of_nat (length junk)) (Z.of_nat (length junk))); [lia |].
    rewrite Z.sub_diag, rd_app by lia.
    destruct (Z.ltb_spec 0 (Z.of_nat (length frame))); [| lia].
    apply (rd_lookup _ 0%nat). done.
  - rewrite <- Z.add_assoc. rewrite Hrd by lia. rewrite rd_app by lia.
    destruct (Z.ltb_spec (Z.of_nat (length junk) + 1) (Z.of_nat (length junk))); [lia |].
    replace (Z.of_nat (length junk) + 1 - Z.of_nat (length junk)) with 1 by lia.
    rewrite rd_app by lia.
    destruct (Z.ltb_spec 1 (Z.of_nat (length frame))); [| lia].
    apply (rd_lookup _ 1%nat). done.
  - lia.
  - lia.
  - lia.
  - exists f', s', t. split; [done |]. split; [done |].
    assert (Hframe : forall j, 0 <= j < Z.of_nat (length frame) -> rd f' j = rd frame j).
    { intros j Hj. rewrite Hfb by done. rewrite <- Z.add_assoc, Hrd by lia.
      rewrite rd_app by lia.
      destruct (Z.ltb_spec (Z.of_nat (length junk) + j) (Z.of_nat (length junk))); [lia |].
      replace (Z.of_nat (length junk) + j - Z.of_nat (length junk)) with j by lia.
      rewrite rd_app by lia. destruct (Z.ltb_spec j (Z.of_nat (length frame))); [done | lia]. }
    split.
    { apply list_eq_rd.
      - rewrite length_take. lia.
      - intros j Hj. rewrite length_take in Hj. rewrite rd_take by lia. apply Hframe. lia. }
    split.
    { apply list_eq_rd.
      - rewrite !length_drop. by rewrite Hlf.
      - intros j Hj. rewrite !rd_drop by lia. apply Hfr. lia. }
    destruct Hr as (_ & Hb' & _ & _ & Hz & Hc & _).
    destruct (decide (nBytesUsed (phy s) + (Z.of_nat (length junk) + Z.of_nat (length frame))
                      = nBytesWritten (phy s))) as [Hall | Hsome].
    + destruct Hz as [Hw' Hu']; [lia | done |].
      assert (length rest = 0%nat) by lia.
      split.
      * unfold pending. rewrite Hw', Hu'. cbn. by destruct rest.
      * unfold chan_ok. rewrite Hw', Hu', Hb'. unfold BUFSIZE. repeat split; [done | lia..].
    + destruct Hc as [Hw' Hu']; [by right |].
      split.
      * apply list_eq_rd.
        -- unfold pending. rewrite length_take, length_drop, Hw', Hu', Hb', Hlen. lia.
        -- intros j Hj. unfold pending in Hj.
           rewrite length_take, length_drop, Hw', Hu', Hb', Hlen in Hj.
           rewrite rd_pending by (rewrite ?Hw', ?Hu'; lia).
           rewrite Hb', Hu'.
           replace (nBytesUsed (phy s) + (Z.of_nat (length junk) + Z.of_nat (length frame)) + j)
             with (nBytesUsed (phy s)
                   + (Z.of_nat (length junk) + Z.of_nat (length frame) + j)) by lia.
           rewrite Hrd by lia. rewrite rd_app by lia.
           destruct (Z.ltb_spec (Z.of_nat (length junk) + Z.of_nat (length frame) + j)
                       (Z.of_nat (length junk))); [lia |].
           rewrite rd_app by lia.
           destruct (Z.ltb_spec (Z.of_nat (length junk) + Z.of_nat (length frame) + j
                                 - Z.of_nat (length junk)) (Z.of_nat (length frame))); [lia |].
           f_equal. lia.
      * unfold chan_ok. rewrite Hw', Hu', Hb'. repeat split; [done | lia..].
Qed.

(** X10.  When the bytes that wait in the channel are some bytes without
    a start marker, then a frame (a start marker, the size of the frame,
    which is at least 3, and the rest of its bytes) and then other
    bytes, [getFrame] returns the size of the frame, puts the frame at
    the start of the frame array and leaves the other bytes waiting, if
    the receive timer allows 60 ticks for each byte and the clock is
    slow. *)
Theorem getFrame_delivers (junk frame rest : list Z) (fuel : nat) (frameRx : list Z)
    (maxSize : Z) (timeLimit : Q) (s : State) :
  chan_ok (phy s) -> slow_clock s ->
  pending (phy s) = junk ++ frame ++ rest ->
  Forall (fun b => b <> STARTBYTE) junk ->
  frame !! 0%nat = Some STARTBYTE ->
  frame !! 1%nat = Some (Z.of_nat (length frame)) ->
  (3 <= length frame <= length frameRx)%nat ->
  60 * Z.of_nat (length junk + length frame)
  <= trunc (timeLimit * inject_Z CLOCKS_PER_SEC)%Q ->
  (length junk + length frame <= fuel)%nat ->
  exists frameRx' s',
    getFrame fuel frameRx maxSize timeLimit s
    = Some (Z.of_nat (length frame), frameRx', s') /\
    take (length frame) frameRx' = frame /\
    drop (length frame) frameRx' = drop (length frame) frameRx /\
    pending (phy s') = rest /\
    chan_ok (phy s').
Proof.
  intros Hok Hslow Hpend Hjunk Hf0 Hf1 HL Htime Hfuel.
  destruct (getFrame_pending junk frame rest fuel frameRx maxSize timeLimit s)
    as (f' & s' & _ & Hg & _ & Hrest); try done.
  by exists f', s'.
Qed.

(** The hypotheses of X10 hold after [LL_connect] and a call of
    [LL_send] on the calm channel: six bytes of line noise wait before
    the frame of [block10]. *)
Lemma getFrame_delivers_witness :
  exists frameRx' s',
    getFrame 30 frame_array (3 * MAX_BLK) RX_WAIT (sent calm)
    = Some (Z.of_nat (length [206; 15; 0; 1; 2; 3; 4; 5; 6; 7; 8; 9; 10; 201; 204]),
            frameRx', s') /\
    take (length [206; 15; 0; 1; 2; 3; 4; 5; 6; 7; 8; 9; 10; 201; 204]) frameRx'
    = [206; 15; 0; 1; 2; 3; 4; 5; 6; 7; 8; 9; 10; 201; 204] /\
    drop (length [206; 15; 0; 1; 2; 3; 4; 5; 6; 7; 8; 9; 10; 201; 204]) frameRx'
    = drop (length [206; 15; 0; 1; 2; 3; 4; 5; 6; 7; 8; 9; 10; 201; 204]) frame_array /\
    pending (phy s') = [] /\
    chan_ok (phy s').
Proof.
  refine (getFrame_delivers [34; 34; 34; 34; 34; 34]
            [206; 15; 0; 1; 2; 3; 4; 5; 6; 7; 8; 9; 10; 201; 204] [] 30 frame_array
            (3 * MAX_BLK) RX_WAIT (sent calm) _ _ _ _ _ _ _ _ _).
  - unfold chan_ok. split_and!.
    + vm_compute. reflexivity.
    + vm_compute. discriminate.
    + vm_compute. discriminate.
    + vm_compute. discriminate.
  - intros i. vm_compute. discriminate.
  - vm_compute. reflexivity.
  - repeat (constructor; [discriminate |]). constructor.
  - reflexivity.
  - reflexivity.
  - unfold frame_array. rewrite length_replicate. cbn [length]. unfold MAX_BLK. lia.
  - vm_compute. discriminate.
  - cbn [length]. lia.
Defined.

(** ** The test program copies the file *)




Lemma next_range (seq : Z) : 0 <= seq -> 0 <= next seq < MOD_SEQNUM.
Proof.
  intros H. rewrite next_mod by done. unfold MOD_SEQNUM. apply Z.mod_pos_bound. lia.
Qed.







(** ** Connecting, disconnecting and the outcomes of [LL_send] *)

(** X13.  On the simulated channel [LL_connect] always returns 0, from
    any state: the link is then connected with sequence number 0 and all
    counters at 0, and the channel is empty, with a time limit of 1050
    milliseconds and the error probability [PROB_ERR]; bytes that were
    waiting in the channel are dropped. *)
Theorem LL_connect_resets (debug : Z) (s : State) :
  let '(r, s') := LL_connect debug s in
  r = 0 /\
  link s' = mkLink 0 1 0 0 0 0 (timerRx (link s)) /\
  pending (phy s') = [] /\
  nBytesWritten (phy s') = 0 /\ nBytesUsed (phy s') = 0 /\
  rxTimeLimit (phy s') = 1050 /\ rxProbErr (phy s') = PROB_ERR /\
  buffer (phy s') = buffer (phy s) /\ env s' = env s.
Proof.
  unfold LL_connect, PHY_open, srand_time.
  change (Qle_bool 0 PROB_ERR && Qle_bool PROB_ERR 1) with true. cbv iota.
  cbn [fst snd phy set_phy link set_link]. change (0 =? 0) with true. cbv iota.
  destruct (negb (debug =? 0)); cbn; repeat split; done.
Qed.

(** X14.  [LL_discon] always returns 0 and leaves the link disconnected:
    the calls of [LL_send] and [LL_receive] that follow are refused with
    -10.  It keeps the sequence number and the counters, and does not
    touch the channel, so bytes that wait there stay. *)
Theorem LL_discon_closes (debug : Z) (s : State) :
  let '(r, s') := LL_discon debug s in
  r = 0 /\
  link s' = mkLink (seqNumTx (link s)) 0 (framesSent (link s)) (badFrames (link s))
              (goodFrames (link s)) (timeouts (link s)) (timerRx (link s)) /\
  phy s' = phy s /\ env s' = env s /\
  (forall dataTx nData debug', (LL_send dataTx nData debug' s').1 = -10) /\
  (forall fuel dataRx maxData debug',
     exists s'', LL_receive fuel dataRx maxData debug' s' = Some (-10, dataRx, s'')).
Proof.
  unfold LL_discon, PHY_close. change (0 =? 0) with true. cbv iota.
  destruct (negb (debug =? 0)); cbn [fst snd]; (split; [done |]);
    (split; [done |]); (split; [done |]); (split; [done |]); split;
    intros; unfold LL_send, LL_receive; cbn; eauto.
Qed.

(** X15.  [LL_send] returns 0, -10, -11 or -12.  It never changes the
    connection flag or the counters of received frames and timeouts;
    when it returns 0 it has counted one frame more as sent and moved
    the sequence number on by [next], and otherwise it has left both as
    they were. *)
Theorem LL_send_outcomes (dataTx : list Z) (nData debug : Z) (s : State) :
  let '(r, s') := LL_send dataTx nData debug s in
  (r = 0 \/ r = -10 \/ r = -11 \/ r = -12) /\
  connected (link s') = connected (link s) /\
  badFrames (link s') = badFrames (link s) /\
  goodFrames (link s') = goodFrames (link s) /\
  timeouts (link s') = timeouts (link s) /\
  (r = 0 -> framesSent (link s') = framesSent (link s) + 1 /\
            seqNumTx (link s') = next (seqNumTx (link s))) /\
  (r <> 0 -> framesSent (link s') = framesSent (link s) /\
             seqNumTx (link s') = seqNumTx (link s)).
Proof.
  unfold LL_send.
  destruct (connected (link s) =? 0); [cbn; repeat split; auto; lia |].
  destruct (nData >? MAX_BLK); [cbn; repeat split; auto; lia |].
  destruct (buildDataFrame frame_array dataTx nData (seqNumTx (link s))) as [f n].
  pose proof (PHY_send_facts f n s) as Hf.
  destruct (PHY_send f n s) as [retVal s1]. cbv zeta in Hf. destruct Hf as (Hl & _).
  destruct (retVal =? n); cbn [negb].
  - destruct (negb (debug =? 0)); cbn; rewrite Hl; repeat split; auto; lia.
  - cbn. rewrite Hl. repeat split; auto; lia.
Qed.

(** X16.  A block of more than [MAX_BLK] bytes given to [LL_send] on a
    connected link is refused with -11 before anything is done: the
    variables of the link layer, the channel, the random source and the
    clock are as before. *)
Theorem LL_send_too_big (dataTx : list Z) (nData debug : Z) (s : State) :
  connected (link s) <> 0 -> MAX_BLK < nData ->
  let '(r, s') := LL_send dataTx nData debug s in
  r = -11 /\ link s' = link s /\ phy s' = phy s /\ env s' = env s.
Proof.
  intros Hc Hn. unfold LL_send.
  destruct (Z.eqb_spec (connected (link s)) 0); [done |].
  destruct (Z.gtb_spec nData MAX_BLK); [| lia]. cbn. done.
Qed.

(** The hypotheses of X16 hold for a block of 256 bytes after
    [LL_connect] on the calm channel. *)
Lemma LL_send_too_big_witness :
  let '(r, s') := LL_send [] 256 0 connected_calm in
  r = -11 /\ link s' = link connected_calm /\ phy s' = phy connected_calm /\
  env s' = env connected_calm.
Proof.
  refine (LL_send_too_big [] 256 0 connected_calm _ _).
  - vm_compute. congruence.
  - unfold MAX_BLK. lia.
Defined.

(** X17.  When the frame of a block does not fit in what is left of the
    channel array, [LL_send] returns -12: it has counted no frame and
    kept the sequence number, but it has filled the array to its end
    with the first bytes of the frame. *)
Theorem LL_send_no_room (dataTx : list Z) (nData debug : Z) (s : State) :
  connected (link s) <> 0 -> 0 <= nData <= MAX_BLK ->
  0 < nBytesWritten (phy s) ->
  BUFSIZE < nBytesWritten (phy s) + (HEADERSIZE + nData + TRAILERSIZE) ->
  let '(r, s') := LL_send dataTx nData debug s in
  r = -12 /\
  link s' = link s /\
  nBytesWritten (phy s') = BUFSIZE /\
  nBytesUsed (phy s') = nBytesUsed (phy s).
Proof.
  intros Hc Hn Hw Hfull. unfold LL_send.
  destruct (Z.eqb_spec (connected (link s)) 0); [done |].
  destruct (Z.gtb_spec nData MAX_BLK); [lia |].
  pose proof (buildDataFrame_bytes frame_array dataTx nData (seqNumTx (link s))
                ltac:(lia) ltac:(unfold frame_array; rewrite length_replicate;
                                 unfold MAX_BLK in *; lia)) as Hb.
  destruct (buildDataFrame frame_array dataTx nData (seqNumTx (link s))) as [f nFrame].
  destruct Hb as (-> & _).
  pose proof (PHY_send_facts f (5 + nData) s) as Hf.
  destruct (PHY_send f (5 + nData) s) as [retVal s1]. cbv zeta in Hf.
  destruct (Z.eqb_spec (nBytesWritten (phy s)) 0) as [? | _]; [lia |].
  destruct Hf as (Hl & Hw' & Hret & Hu' & _).
  unfold HEADERSIZE, TRAILERSIZE in Hfull.
  destruct (Z.gtb_spec (nBytesWritten (phy s) + (5 + nData)) BUFSIZE); [| lia].
  destruct (Z.eqb_spec retVal (5 + nData)); [lia |]. cbn.
  repeat split; [done | lia | done].
Qed.

(** The hypotheses of X17 hold for an eighth block of 250 bytes after
    seven that were not received. *)
Lemma LL_send_no_room_witness :
  let '(r, s') := LL_send (replicate 250 65) 250 0 nearly_full in
  r = -12 /\
  link s' = link nearly_full /\
  nBytesWritten (phy s') = BUFSIZE /\
  nBytesUsed (phy s') = nBytesUsed (phy nearly_full).
Proof.
  refine (LL_send_no_room (replicate 250 65) 250 0 nearly_full _ _ _ _).
  - vm_compute. discriminate.
  - unfold MAX_BLK. lia.
  - vm_compute. reflexivity.
  - vm_compute. reflexivity.
Defined.

(** ** The outcomes of [LL_receive] *)

(** On a channel in order a read of one byte returns 1. *)
Lemma PHY_get_one_ok (dataRx : list Z) (off : Z) (s : State) :
  chan_ok (phy s) ->
  let '(r, d, s') := PHY_get dataRx off 1 s in
  r = 1 /\ chan_ok (phy s') /\ link s' = link s /\ length d = length dataRx.
Proof.
  intros Hok. pose proof (PHY_get_chan_ok dataRx off 1 s Hok ltac:(lia)) as Hok'.
  pose proof (PHY_get_one dataRx off s) as H1.
  destruct (PHY_get dataRx off 1 s) as [[r d] s'] eqn:Hg.
  cbn [snd] in Hok'. destruct H1 as (Hl & _ & _).
  split; [| split; [done | split; [done |]]].
  - destruct Hok as (_ & Hu & _). unfold PHY_get in Hg.
    destruct (Z.eqb_spec (nBytesWritten (phy s) - nBytesUsed (phy s)) 0).
    + cbn in Hg. by injection Hg as <- _ _.
    + destruct (Z.gtb_spec 1 (nBytesWritten (phy s) - nBytesUsed (phy s))); [lia |].
      by injection Hg as <- _ _.
  - unfold PHY_get in Hg.
    destruct (Z.eqb_spec (nBytesWritten (phy s) - nBytesUsed (phy s)) 0).
    + cbn in Hg. injection Hg as _ <- _. apply length_wr.
    + destruct Hok as (_ & Hu & _).
      destruct (Z.gtb_spec 1 (nBytesWritten (phy s) - nBytesUsed (phy s))); [lia |].
      injection Hg as _ <- _.
      apply (for_range_inv _ (fun _ d => length d = length dataRx)); [lia | done |].
      intros k d0 _ Hd. by rewrite length_wr.
Qed.

Lemma timeUp_phy (timeLimit : Z) (s : State) :
  phy (timeUp timeLimit s).2 = phy s /\ link (timeUp timeLimit s).2 = link s.
Proof.
  pose proof (timeUp_facts timeLimit s) as H. destruct (timeUp timeLimit s) as [up s'].
  cbn. tauto.
Qed.

Lemma search_start_ok (fuel : nat) (frameRx : list Z) (s : State)
    (e : LoopEnd Z) (frameRx' : list Z) (s' : State) :
  chan_ok (phy s) ->
  search_start fuel frameRx s = Some (e, frameRx', s') ->
  e = Left 1 /\ chan_ok (phy s') /\ link s' = link s /\ length frameRx' = length frameRx.
Proof.
  revert frameRx s. induction fuel as [| fuel IH]; intros frameRx s Hok Hs; [done |].
  cbn [search_start] in Hs.
  pose proof (PHY_get_one_ok frameRx 0 s Hok) as Hg.
  destruct (PHY_get frameRx 0 1 s) as [[r f1] s1].
  destruct Hg as (-> & Hok1 & Hl1 & Hlen1).
  change (1 <? 0) with false in Hs. cbv iota in Hs.
  destruct ((1 <? 1) || negb (rd f1 0 =? STARTBYTE)).
  - pose proof (timeUp_phy (timerRx (link s1)) s1) as [Hp2 Hl2].
    destruct (timeUp (timerRx (link s1)) s1) as [up s2]. cbn [snd] in *.
    destruct (up =? 0).
    + apply IH in Hs; [| by rewrite Hp2]. destruct Hs as (? & ? & ? & ?).
      split_and!; (done || congruence).
    + injection Hs as <- <- <-. rewrite Hp2. split_and!; (done || congruence).
  - injection Hs as <- <- <-. done.
Qed.

Lemma collect_ok (fuel : nat) (byteCount nRx : Z) (frameRx : list Z) (s : State)
    (e : LoopEnd Z) (frameRx' : list Z) (s' : State) :
  chan_ok (phy s) ->
  collect fuel 1 byteCount nRx frameRx s = Some (e, frameRx', s') ->
  exists n, e = Left n /\ nRx + 1 <= n /\ chan_ok (phy s') /\ link s' = link s /\
            length frameRx' = length frameRx.
Proof.
  revert nRx frameRx s. induction fuel as [| fuel IH]; intros nRx frameRx s Hok Hc;
    [done |].
  cbn [collect] in Hc.
  pose proof (PHY_get_one_ok frameRx nRx s Hok) as Hg.
  destruct (PHY_get frameRx nRx 1 s) as [[r f1] s1].
  destruct Hg as (_ & Hok1 & Hl1 & Hlen1).
  change (1 <? 0) with false in Hc. cbv iota in Hc.
  destruct (nRx + 1 <? byteCount).
  - pose proof (timeUp_phy (timerRx (link s1)) s1) as [Hp2 Hl2].
    destruct (timeUp (timerRx (link s1)) s1) as [up s2]. cbn [snd] in *.
    destruct (up =? 0).
    + apply IH in Hc; [| by rewrite Hp2]. destruct Hc as (n & -> & ? & ? & ? & ?).
      exists n. split_and!; (done || congruence || lia).
    + injection Hc as <- <- <-. exists (nRx + 1). rewrite Hp2.
      split_and!; (done || congruence || lia).
  - injection Hc as <- <- <-. exists (nRx + 1). split_and!; (done || lia).
Qed.

(** On a channel in order [getFrame] returns 0 or at least 3, keeps the
    channel in order and changes no variable of the link layer but the
    timer. *)
Lemma getFrame_ok (fuel : nat) (frameRx : list Z) (maxSize : Z) (timeLimit : Q)
    (s : State) (n : Z) (frameRx' : list Z) (s' : State) :
  chan_ok (phy s) ->
  getFrame fuel frameRx maxSize timeLimit s = Some (n, frameRx', s') ->
  (n = 0 \/ 3 <= n) /\ chan_ok (phy s') /\ length frameRx' = length frameRx /\
  exists t, link s' = link (set_timerRx t s).
Proof.
  intros Hok Hg. unfold getFrame in Hg.
  destruct (timeSet timeLimit s) as [t s0] eqn:Hts.
  assert (H0 : phy s0 = phy s /\ link s0 = link s).
  { unfold timeSet, clock in Hts. cbn in Hts. by injection Hts as _ <-. }
  destruct H0 as [Hp0 Hl0].
  destruct (search_start fuel frameRx (set_timerRx t s0)) as [[[e f1] s1] |] eqn:Hs; [| done].
  apply search_start_ok in Hs; [| by rewrite <- Hp0 in Hok].
  destruct Hs as (-> & Hok1 & Hl1 & Hlen1).
  pose proof (PHY_get_one_ok f1 1 s1 Hok1) as Hg2.
  destruct (PHY_get f1 1 1 s1) as [[r f2] s2].
  destruct Hg2 as (-> & Hok2 & Hl2 & Hlen2).
  change (1 <? 0) with false in Hg. cbv iota in Hg.
  pose proof (timeUp_phy (timerRx (link s2)) s2) as [Hp3 Hl3].
  destruct (timeUp (timerRx (link s2)) s2) as [up s3]. cbn [snd] in *.
  assert (Hlink : link s2 = link (set_timerRx t s)).
  { rewrite Hl2, Hl1. unfold set_timerRx, set_link. cbn. by rewrite Hl0. }
  destruct (negb (up =? 0)).
  { injection Hg as <- <- <-. change (phy (printf _ s3)) with (phy s3).
    change (link (printf _ s3)) with (link s3). rewrite Hp3.
    split_and!; [by left | done | congruence | exists t; congruence]. }
  destruct (collect fuel 1 (rd f2 BYTECOUNTPOS) 2 f2 s3) as [[[e f4] s4] |] eqn:Hc; [| done].
  apply collect_ok in Hc; [| by rewrite Hp3].
  destruct Hc as (m & -> & Hm & Hok4 & Hl4 & Hlen4).
  pose proof (timeUp_phy (timerRx (link s4)) s4) as [Hp5 Hl5].
  destruct (timeUp (timerRx (link s4)) s4) as [up' s5]. cbn [snd] in *.
  destruct (negb (up' =? 0)); injection Hg as <- <- <-;
    try change (phy (printf _ s5)) with (phy s5);
    try change (link (printf _ s5)) with (link s5); rewrite Hp5;
    (split_and!; [(by left) || (right; lia) | done | congruence | exists t; congruence]).
Qed.

(** What a call of [LL_receive] that returns has done, on a connected
    link and a channel in order. *)
Lemma LL_receive_cases (fuel : nat) (dataRx : list Z) (maxData debug : Z) (s : State)
    (r : Z) (dataRx' : list Z) (s' : State) :
  connected (link s) <> 0 -> chan_ok (phy s) ->
  LL_receive fuel dataRx maxData debug s = Some (r, dataRx', s') ->
  (r = -5 /\ dataRx' = dataRx /\
     timeouts (link s') = timeouts (link s) + 1 /\
     badFrames (link s') = badFrames (link s) /\
     goodFrames (link s') = goodFrames (link s) \/
   r = 10 /\
     (forall i, 0 <= i < 10 -> i < Z.of_nat (length dataRx) -> rd dataRx' i = 35) /\
     timeouts (link s') = timeouts (link s) /\
     badFrames (link s') = badFrames (link s) + 1 /\
     goodFrames (link s') = goodFrames (link s) \/
   (exists nFrame, 3 <= nFrame /\ r = Z.min (nFrame - 5) maxData) /\
     timeouts (link s') = timeouts (link s) /\
     badFrames (link s') = badFrames (link s) /\
     goodFrames (link s') = goodFrames (link s) + 1) /\
  seqNumTx (link s') = seqNumTx (link s) /\
  connected (link s') = connected (link s) /\
  framesSent (link s') = framesSent (link s) /\
  length dataRx' = length dataRx /\
  chan_ok (phy s').
Proof.
  intros Hc Hok Hr. unfold LL_receive in Hr.
  destruct (Z.eqb_spec (connected (link s)) 0); [done |].
  destruct (getFrame fuel frame_array (3 * MAX_BLK) RX_WAIT s) as [[[nFrame f] s1] |] eqn:Hg;
    [| done].
  apply getFrame_ok in Hg; [| done].
  destruct Hg as (Hn & Hok1 & _ & tm & Hl1).
  assert (Hl1' : seqNumTx (link s1) = seqNumTx (link s) /\
                 connected (link s1) = connected (link s) /\
                 framesSent (link s1) = framesSent (link s) /\
                 timeouts (link s1) = timeouts (link s) /\
                 badFrames (link s1) = badFrames (link s) /\
                 goodFrames (link s1) = goodFrames (link s)) by (rewrite Hl1; done).
  destruct Hl1' as (Hsq & Hcn & Hfs & Ht & Hb & Hgd).
  destruct (Z.ltb_spec nFrame 0); [lia |].
  destruct (Z.eqb_spec nFrame 0) as [-> | Hnz].
  { injection Hr as <- <- <-. cbn. rewrite Hsq, Hcn, Hfs, Ht, Hb, Hgd.
    split_and!; try done. left. done. }
  destruct Hn as [? | Hn3]; [done |].
  destruct (checkFrame f nFrame) as [ok msgs].
  destruct (ok =? 0).
  - injection Hr as <- <- <-.
    assert (Hfill : length (for_range 0 10 (fun i d => wr d i 35) dataRx) = length dataRx /\
      forall i, 0 <= i < 10 -> i < Z.of_nat (length dataRx) ->
        rd (for_range 0 10 (fun i d => wr d i 35) dataRx) i = 35).
    { apply (for_range_inv (fun i d => wr d i 35)
        (fun k d => length d = length dataRx /\
           forall i, 0 <= i < k -> i < Z.of_nat (length dataRx) -> rd d i = 35)); [lia | |].
      - split; [done | intros; lia].
      - intros k d Hk [Hld Hd]. rewrite length_wr. split; [done |].
        intros i Hi Hil. destruct (decide (i = k)) as [-> | ?].
        + apply rd_wr_eq. lia.
        + rewrite rd_wr_ne by lia. apply Hd; lia. }
    destruct Hfill as [Hlf Hf35].
    split; [right; left |].
    + split; [done |]. split; [done |].
      destruct (negb (debug =? 0)); cbn; by rewrite Ht, Hb, Hgd.
    + destruct (negb (debug =? 0)); cbn; rewrite Hsq, Hcn, Hfs; done.
  - pose proof (processFrame_bytes f nFrame dataRx maxData) as Hp.
    destruct (processFrame f nFrame dataRx maxData) as [[d nData] sq].
    destruct Hp as (-> & _ & Hld & _).
    injection Hr as <- <- <-.
    split; [right; right |].
    + split; [by exists nFrame |].
      destruct (negb (debug =? 0)); cbn; by rewrite Ht, Hb, Hgd.
    + destruct (negb (debug =? 0)); cbn; rewrite Hsq, Hcn, Hfs; done.
Qed.

(** X18.  On a connected link and a channel in order, [LL_receive]
    returns, and what it returns is one of three things: -5, with one
    timeout more counted and the caller's array as it was; or 10, with
    one bad frame more counted and the ten first bytes of the caller's
    array set to 35, whatever [maxData] is; or the number of data bytes
    of a frame of three bytes or more, [maxData] at the most, with one
    good frame more counted.  It never returns -9, and it changes none
    of the sequence number, the connection flag and the count of frames
    sent. *)
Theorem LL_receive_outcomes (dataRx : list Z) (maxData debug : Z) (s : State) :
  connected (link s) <> 0 -> chan_ok (phy s) -> 0 <= rxTimeLimit (phy s) < 2 ^ 32 ->
  exists fuel r dataRx' s',
    (forall fuel', (fuel <= fuel')%nat ->
       LL_receive fuel' dataRx maxData debug s = Some (r, dataRx', s')) /\
    (r = -5 /\ dataRx' = dataRx /\
       timeouts (link s') = timeouts (link s) + 1 /\
       badFrames (link s') = badFrames (link s) /\
       goodFrames (link s') = goodFrames (link s) \/
     r = 10 /\
       (forall i, 0 <= i < 10 -> i < Z.of_nat (length dataRx) -> rd dataRx' i = 35) /\
       timeouts (link s') = timeouts (link s) /\
       badFrames (link s') = badFrames (link s) + 1 /\
       goodFrames (link s') = goodFrames (link s) \/
     (exists nFrame, 3 <= nFrame /\ r = Z.min (nFrame - 5) maxData) /\
       timeouts (link s') = timeouts (link s) /\
       badFrames (link s') = badFrames (link s) /\
       goodFrames (link s') = goodFrames (link s) + 1) /\
    seqNumTx (link s') = seqNumTx (link s) /\
    connected (link s') = connected (link s) /\
    framesSent (link s') = framesSent (link s) /\
    length dataRx' = length dataRx /\
    chan_ok (phy s').
Proof.
  intros Hc Hok Hlim.
  destruct (LL_receive_returns dataRx maxData debug s Hlim) as [fuel [[[r d] s'] Hr]].
  exists fuel, r, d, s'. split.
  - intros fuel' Hle. by apply (LL_receive_more fuel).
  - by apply (LL_receive_cases fuel dataRx maxData debug s).
Qed.

(** The hypotheses of X18 hold after [LL_connect] and a call of
    [LL_send] on the calm channel. *)
Lemma LL_receive_outcomes_witness :
  exists fuel r dataRx' s',
    (forall fuel', (fuel <= fuel')%nat ->
       LL_receive fuel' (replicate 12 0) 12 0 (sent calm) = Some (r, dataRx', s')) /\
    (r = -5 /\ dataRx' = replicate 12 0 /\
       timeouts (link s') = timeouts (link (sent calm)) + 1 /\
       badFrames (link s') = badFrames (link (sent calm)) /\
       goodFrames (link s') = goodFrames (link (sent calm)) \/
     r = 10 /\
       (forall i, 0 <= i < 10 -> i < Z.of_nat (length (replicate 12 0)) ->
          rd dataRx' i = 35) /\
       timeouts (link s') = timeouts (link (sent calm)) /\
       badFrames (link s') = badFrames (link (sent calm)) + 1 /\
       goodFrames (link s') = goodFrames (link (sent calm)) \/
     (exists nFrame, 3 <= nFrame /\ r = Z.min (nFrame - 5) 12) /\
       timeouts (link s') = timeouts (link (sent calm)) /\
       badFrames (link s') = badFrames (link (sent calm)) /\
       goodFrames (link s') = goodFrames (link (sent calm)) + 1) /\
    seqNumTx (link s') = seqNumTx (link (sent calm)) /\
    connected (link s') = connected (link (sent calm)) /\
    framesSent (link s') = framesSent (link (sent calm)) /\
    length dataRx' = length (replicate 12 0) /\
    chan_ok (phy s').
Proof.
  refine (LL_receive_outcomes (replicate 12 0) 12 0 (sent calm) _ _ _).
  - vm_compute. discriminate.
  - unfold chan_ok. split_and!.
    + vm_compute. reflexivity.
    + vm_compute. discriminate.
    + vm_compute. discriminate.
    + vm_compute. discriminate.
  - split.
    + vm_compute. discriminate.
    + vm_compute. reflexivity.
Defined.

(** ** A receiver that hears nothing *)

(** A read from a channel where nothing waits gives one byte made from
    the next value of [rand], and leaves the channel as it is. *)
Lemma PHY_get_silent (dataRx : list Z) (off : Z) (s : State) :
  nBytesWritten (phy s) = nBytesUsed (phy s) ->
  let '(r, d, s') := PHY_get dataRx off 1 s in
  r = 1 /\
  d = wr dataRx off (to_byte (Z.rem (Z.of_N (rand_src (env s) (rand_pos (env s)))) 256)) /\
  phy s' = phy s /\ link s' = link s /\
  rand_src (env s') = rand_src (env s) /\
  now (env s) <= now (env s').
Proof.
  intros He. unfold PHY_get.
  replace (nBytesWritten (phy s) - nBytesUsed (phy s)) with 0 by lia.
  change (0 =? 0) with true. cbv iota. cbn [rand fst snd]. rewrite Z.add_0_r.
  split; [done |]. split; [done |].
  assert (Hm : forall ms, 0 <= ms mod 2 ^ 32) by (intros; apply Z.mod_pos_bound; lia).
  destruct (rxTimeLimit _ =? 0); unfold Sleep; cbn; split_and!; try done;
    match goal with |- _ <= _ + ?m mod _ => specialize (Hm m); lia end.
Qed.

Lemma timeUp_rand (timeLimit : Z) (s : State) :
  rand_src (env (timeUp timeLimit s).2) = rand_src (env s).
Proof. unfold timeUp, clock. cbn. by destruct (_ <? _). Qed.

(** On such a channel, when no value of [rand] gives a start marker, the
    search for the start of a frame ends only when the time is up. *)
Lemma search_start_silent (fuel : nat) (frameRx : list Z) (s : State)
    (e : LoopEnd Z) (frameRx' : list Z) (s' : State) :
  nBytesWritten (phy s) = nBytesUsed (phy s) ->
  (forall i, to_byte (Z.rem (Z.of_N (rand_src (env s) i)) 256) <> STARTBYTE) ->
  search_start fuel frameRx s = Some (e, frameRx', s') ->
  e = Left 1 /\ timerRx (link s) <= now (env s') /\
  phy s' = phy s /\ link s' = link s /\ rand_src (env s') = rand_src (env s).
Proof.
  revert frameRx s. induction fuel as [| fuel IH]; intros frameRx s He Hr Hs; [done |].
  cbn [search_start] in Hs.
  pose proof (PHY_get_silent frameRx 0 s He) as Hg.
  destruct (PHY_get frameRx 0 1 s) as [[r f1] s1].
  destruct Hg as (-> & -> & Hp1 & Hl1 & Hr1 & Hn1).
  change (1 <? 0) with false in Hs. change (1 <? 1) with false in Hs. cbv iota in Hs.
  rewrite orb_false_l in Hs.
  destruct (Z.eqb_spec (rd (wr frameRx 0
      (to_byte (Z.rem (Z.of_N (rand_src (env s) (rand_pos (env s)))) 256))) 0) STARTBYTE)
    as [Heq | _].
  { destruct (rd_wr_same frameRx 0
      (to_byte (Z.rem (Z.of_N (rand_src (env s) (rand_pos (env s)))) 256))) as [Hb | Hb];
      rewrite Hb in Heq; [by apply Hr in Heq | done]. }
  cbn [negb] in Hs. cbv iota in Hs.
  pose proof (timeUp_facts (timerRx (link s1)) s1) as Ht.
  pose proof (timeUp_rand (timerRx (link s1)) s1) as Hr2.
  destruct (timeUp (timerRx (link s1)) s1) as [up s2].
  destruct Ht as (Hl2 & Hp2 & _ & Hn2 & Hup). cbn [snd] in Hr2. rewrite Hr1 in Hr2.
  destruct (Z.eqb_spec up 0) as [-> | Hnz].
  - apply IH in Hs; [| congruence | intros i; rewrite Hr2; apply Hr].
    destruct Hs as (-> & Ht & Hp & Hl & Hrs).
    split_and!; [done | | congruence | congruence | congruence].
    rewrite Hl2, Hl1 in Ht. done.
  - injection Hs as <- <- <-. destruct Hup as [[? _] | [_ Hup]]; [done |].
    split_and!; [done | | congruence | congruence | done].
    rewrite Hl1 in Hup. done.
Qed.

Lemma getFrame_silent (fuel : nat) (frameRx : list Z) (maxSize : Z) (timeLimit : Q)
    (s : State) (n : Z) (frameRx' : list Z) (s' : State) :
  nBytesWritten (phy s) = nBytesUsed (phy s) ->
  (forall i, to_byte (Z.rem (Z.of_N (rand_src (env s) i)) 256) <> STARTBYTE) ->
  getFrame fuel frameRx maxSize timeLimit s = Some (n, frameRx', s') ->
  n = 0 /\
  now (env s) + trunc (timeLimit * inject_Z CLOCKS_PER_SEC)%Q <= now (env s') /\
  phy s' = phy s /\
  exists t, link s' = link (set_timerRx t s).
Proof.
  intros He Hr Hg. unfold getFrame in Hg.
  destruct (timeSet timeLimit s) as [t s0] eqn:Hts.
  assert (H0 : phy s0 = phy s /\ link s0 = link s /\ rand_src (env s0) = rand_src (env s) /\
               now (env s) + trunc (timeLimit * inject_Z CLOCKS_PER_SEC)%Q <= t).
  { unfold timeSet, clock in Hts. cbn in Hts. injection Hts as <- <-. cbn.
    split_and!; try done. lia. }
  destruct H0 as (Hp0 & Hl0 & Hr0 & Ht0).
  destruct (search_start fuel frameRx (set_timerRx t s0)) as [[[e f1] s1] |] eqn:Hs; [| done].
  apply search_start_silent in Hs;
    [| cbn; congruence | intros i; cbn; rewrite Hr0; apply Hr].
  destruct Hs as (-> & Ht1 & Hp1 & Hl1 & Hr1).
  change (timerRx (link (set_timerRx t s0))) with t in Ht1.
  change (phy (set_timerRx t s0)) with (phy s0) in Hp1.
  pose proof (PHY_get_silent f1 1 s1 ltac:(congruence)) as Hg2.
  destruct (PHY_get f1 1 1 s1) as [[r f2] s2].
  destruct Hg2 as (-> & _ & Hp2 & Hl2 & _ & Hn2).
  change (1 <? 0) with false in Hg. cbv iota in Hg.
  pose proof (timeUp_facts (timerRx (link s2)) s2) as Hup.
  destruct (timeUp (timerRx (link s2)) s2) as [up s3].
  destruct Hup as (Hl3 & Hp3 & _ & Hn3 & Hup).
  assert (Htm : timerRx (link s2) = t) by (rewrite Hl2, Hl1; done).
  destruct Hup as [[_ Hlt] | [-> _]]; [lia |].
  change (negb (1 =? 0)) with true in Hg. cbv iota in Hg.
  injection Hg as <- <- <-.
  change (phy (printf [LLGF_Timeout 0] s3)) with (phy s3).
  change (link (printf [LLGF_Timeout 0] s3)) with (link s3).
  change (env (printf [LLGF_Timeout 0] s3)) with (env s3).
  split_and!; [done | lia | congruence |].
  exists t. rewrite Hl3, Hl2, Hl1. unfold set_timerRx, set_link. cbn. by rewrite Hl0.
Qed.

(** X19.  A receiver that hears nothing gives up: on a connected link,
    when nothing waits in the channel and no value of [rand] makes a
    start marker, [LL_receive] returns -5 with the caller's array as it
    was and one timeout more counted, after the 20000 ticks of [RX_WAIT]
    at the least. *)
Theorem LL_receive_times_out (dataRx : list Z) (maxData debug : Z) (s : State) :
  connected (link s) <> 0 ->
  nBytesWritten (phy s) = nBytesUsed (phy s) ->
  0 <= rxTimeLimit (phy s) < 2 ^ 32 ->
  (forall i, to_byte (Z.rem (Z.of_N (rand_src (env s) i)) 256) <> STARTBYTE) ->
  exists fuel s',
    (forall fuel', (fuel <= fuel')%nat ->
       LL_receive fuel' dataRx maxData debug s = Some (-5, dataRx, s')) /\
    timeouts (link s') = timeouts (link s) + 1 /\
    goodFrames (link s') = goodFrames (link s) /\
    badFrames (link s') = badFrames (link s) /\
    now (env s) + 20000 <= now (env s') /\
    phy s' = phy s.
Proof.
  intros Hc He Hlim Hr.
  destruct (LL_receive_returns dataRx maxData debug s Hlim) as [fuel [[[r d] s'] Hrec]].
  assert (Hres : r = -5 /\ d = dataRx /\
    timeouts (link s') = timeouts (link s) + 1 /\
    goodFrames (link s') = goodFrames (link s) /\
    badFrames (link s') = badFrames (link s) /\
    now (env s) + 20000 <= now (env s') /\ phy s' = phy s).
  { pose proof Hrec as Hrec'. unfold LL_receive in Hrec'.
    destruct (Z.eqb_spec (connected (link s)) 0); [done |].
    destruct (getFrame fuel frame_array (3 * MAX_BLK) RX_WAIT s) as [[[nFrame f] s1] |]
      eqn:Hg; [| done].
    apply getFrame_silent in Hg; [| done | done].
    destruct Hg as (-> & Hnow & Hp & t & Hl).
    change (0 <? 0) with false in Hrec'. change (0 =? 0) with true in Hrec'.
    cbv iota in Hrec'. injection Hrec' as <- <- <-. cbn. rewrite Hl.
    change (trunc (RX_WAIT * inject_Z CLOCKS_PER_SEC)%Q) with 20000 in Hnow.
    split_and!; done. }
  destruct Hres as (-> & -> & Hres).
  exists fuel, s'. split; [| done].
  intros fuel' Hle. by apply (LL_receive_more fuel).
Qed.

(** The hypotheses of X19 hold after [LL_connect] on the calm channel,
    where [rand] always gives 1234, the byte 210. *)
Lemma LL_receive_times_out_witness :
  exists fuel s',
    (forall fuel', (fuel <= fuel')%nat ->
       LL_receive fuel' block10 10 0 connected_calm = Some (-5, block10, s')) /\
    timeouts (link s') = timeouts (link connected_calm) + 1 /\
    goodFrames (link s') = goodFrames (link connected_calm) /\
    badFrames (link s') = badFrames (link connected_calm) /\
    now (env connected_calm) + 20000 <= now (env s') /\
    phy s' = phy connected_calm.
Proof.
  refine (LL_receive_times_out block10 10 0 connected_calm _ _ _ _).
  - vm_compute. discriminate.
  - vm_compute. reflexivity.
  - split.
    + vm_compute. discriminate.
    + vm_compute. reflexivity.
  - intros i. vm_compute. discriminate.
Defined.

(** ** What a session keeps *)

Lemma PHY_send_chan_ok (dataTx : list Z) (nBytesToSend : Z) (s : State) :
  chan_ok (phy s) -> 0 <= nBytesToSend ->
  chan_ok (phy (PHY_send dataTx nBytesToSend s).2).
Proof.
  intros (Hlen & Hu & Hw) Hn.
  pose proof (PHY_send_facts dataTx nBytesToSend s) as Hf.
  pose proof (write_start s) as Hs. cbv zeta in Hf, Hs.
  destruct (PHY_send dataTx nBytesToSend s) as [ret s'].
  rewrite Hs in Hf. destruct Hf as (_ & Hw' & Hret & Hu' & Hlen' & _).
  pose proof (noise_count_bounds s) as Hnc.
  unfold chan_ok. cbn [snd]. rewrite Hlen', Hu', Hw'. unfold BUFSIZE in *.
  destruct (Z.eqb_spec (nBytesWritten (phy s)) 0);
    match type of Hret with context [?a >? ?b] => destruct (Z.gtb_spec a b) end;
    split_and!; lia.
Qed.

(** X20.  The four operations of the link layer keep a session in order:
    after [LL_connect], [LL_discon], [LL_send] of a block whose size is
    not negative and [LL_receive], the sequence number is below 16, the
    connection flag is 0 or 1, no counter is negative, and the cursors
    of the channel array are in order and within the array. *)
Theorem session_ok_kept (s : State) :
  session_ok s ->
  (forall debug, session_ok (LL_connect debug s).2) /\
  (forall debug, session_ok (LL_discon debug s).2) /\
  (forall dataTx nData debug, 0 <= nData -> session_ok (LL_send dataTx nData debug s).2) /\
  (forall fuel dataRx maxData debug r dataRx' s',
     LL_receive fuel dataRx maxData debug s = Some (r, dataRx', s') -> session_ok s').
Proof.
  intros [Hl Hc]. pose proof Hl as (Hsq & Hcn & Hfs & Hbf & Hgf & Hto).
  pose proof Hc as (Hlen & Hu & Hw). split_and!.
  - intros debug. unfold LL_connect, PHY_open, srand_time.
    change (Qle_bool 0 PROB_ERR && Qle_bool PROB_ERR 1) with true. cbv iota.
    cbn [fst snd phy set_phy link set_link]. change (0 =? 0) with true. cbv iota.
    split.
    + destruct (negb (debug =? 0)); unfold link_ok; cbn; unfold MOD_SEQNUM;
        split_and!; first [lia | by right].
    + destruct (negb (debug =? 0)); unfold chan_ok; cbn; unfold BUFSIZE in *;
        split_and!; (done || lia).
  - intros debug. unfold LL_discon, PHY_close. change (0 =? 0) with true. cbv iota.
    split.
    + destruct (negb (debug =? 0)); unfold link_ok; cbn; unfold MOD_SEQNUM in *;
        split_and!; first [done | lia | by left].
    + by destruct (negb (debug =? 0)).
  - intros dataTx nData debug Hn. unfold LL_send.
    destruct (connected (link s) =? 0); [done |].
    destruct (Z.gtb_spec nData MAX_BLK); [done |].
    pose proof (buildDataFrame_bytes frame_array dataTx nData (seqNumTx (link s))
                  ltac:(lia) ltac:(unfold frame_array; rewrite length_replicate;
                                   unfold MAX_BLK in *; lia)) as Hb.
    destruct (buildDataFrame frame_array dataTx nData (seqNumTx (link s))) as [f nFrame].
    destruct Hb as (-> & _).
    pose proof (PHY_send_chan_ok f (5 + nData) s Hc ltac:(lia)) as Hc'.
    pose proof (PHY_send_facts f (5 + nData) s) as Hf.
    destruct (PHY_send f (5 + nData) s) as [retVal s1]. cbv zeta in Hf.
    destruct Hf as (Hl1 & _). cbn [snd] in Hc'.
    destruct (negb (retVal =? 5 + nData)).
    + split; [by rewrite <- Hl1 in Hl | done].
    + pose proof (next_range (seqNumTx (link s)) ltac:(lia)) as Hnx.
      split.
      * destruct (negb (debug =? 0)); unfold link_ok; cbn; rewrite Hl1;
          split_and!; (done || lia).
      * by destruct (negb (debug =? 0)).
  - intros fuel dataRx maxData debug r dataRx' s' Hr.
    destruct (decide (connected (link s) = 0)) as [H0 | Hne].
    + unfold LL_receive in Hr. rewrite H0 in Hr. change (0 =? 0) with true in Hr.
      cbv iota in Hr. by injection Hr as <- <- <-.
    + apply LL_receive_cases in Hr; [| done | done].
      destruct Hr as (Hcases & Hsq' & Hcn' & Hfs' & _ & Hc').
      split; [| done]. unfold link_ok. rewrite Hsq', Hcn', Hfs'.
      destruct Hcases as [(_ & _ & -> & -> & ->) | [(_ & _ & -> & -> & ->) |
                                                    (_ & -> & -> & ->)]];
        split_and!; (done || lia).
Qed.

(** The hypothesis of X20 holds after [LL_connect] on the calm channel. *)
Lemma session_ok_kept_witness :
  (forall debug, session_ok (LL_connect debug connected_calm).2) /\
  (forall debug, session_ok (LL_discon debug connected_calm).2) /\
  (forall dataTx nData debug,
     0 <= nData -> session_ok (LL_send dataTx nData debug connected_calm).2) /\
  (forall fuel dataRx maxData debug r dataRx' s',
     LL_receive fuel dataRx maxData debug connected_calm = Some (r, dataRx', s') ->
     session_ok s').
Proof.
  refine (session_ok_kept connected_calm _).
  split.
  - unfold link_ok. split_and!.
    + vm_compute. discriminate.
    + vm_compute. reflexivity.
    + right. vm_compute. reflexivity.
    + vm_compute. discriminate.
    + vm_compute. discriminate.
    + vm_compute. discriminate.
    + vm_compute. discriminate.
  - unfold chan_ok. split_and!.
    + vm_compute. reflexivity.
    + vm_compute. discriminate.
    + vm_compute. discriminate.
    + vm_compute. discriminate.
Defined.

(** ** What [PHY_send] adds to the bytes that wait *)



(** ** Frames shorter than a header and a trailer *)

(** X22.  A frame of three or four bytes, with the start marker, its own
    size and the end marker, is taken as good whatever a fourth byte is:
    no checksum is looked at.  [LL_receive] then counts a good frame,
    leaves the caller's array as it was and returns the frame size less
    5, that is -2 or -1, when [maxData] is not below it. *)
Theorem LL_receive_short_frame (junk frame rest : list Z) (fuel : nat) (dataRx : list Z)
    (maxData debug : Z) (s : State) :
  connected (link s) <> 0 -> chan_ok (phy s) -> slow_clock s ->
  pending (phy s) = junk ++ frame ++ rest ->
  Forall (fun b => b <> STARTBYTE) junk ->
  frame = [STARTBYTE; 3; ENDBYTE] \/ (exists b, frame = [STARTBYTE; 4; b; ENDBYTE]) ->
  -1 <= maxData ->
  (length junk <= 300)%nat -> (length junk + 4 <= fuel)%nat ->
  exists s',
    LL_receive fuel dataRx maxData debug s
    = Some (Z.of_nat (length frame) - 5, dataRx, s') /\
    goodFrames (link s') = goodFrames (link s) + 1 /\
    badFrames (link s') = badFrames (link s) /\
    timeouts (link s') = timeouts (link s) /\
    pending (phy s') = rest.
Proof.
  intros Hc Hok Hslow Hpend Hjunk Hframe Hmax Hj Hfuel.
  assert (HL : (length frame = 3 \/ length frame = 4)%nat).
  { destruct Hframe as [-> | [b ->]]; [by left | by right]. }
  destruct (getFrame_pending junk frame rest fuel frame_array (3 * MAX_BLK) RX_WAIT s)
    as (f & s1 & t & Hg & Hlk & Htake & _ & Hrest & _); try done.
  { by destruct Hframe as [-> | [b ->]]. }
  { by destruct Hframe as [-> | [b ->]]. }
  { unfold frame_array. rewrite length_replicate. unfold MAX_BLK. lia. }
  { change (trunc (RX_WAIT * inject_Z CLOCKS_PER_SEC)%Q) with 20000. lia. }
  { lia. }
  assert (Hrd : forall j, 0 <= j < Z.of_nat (length frame) -> rd f j = rd frame j).
  { intros j Hjr. rewrite <- (rd_take f (length frame)) by lia. by rewrite Htake. }
  assert (Hcheck : checkFrame f (Z.of_nat (length frame)) = (1, [])).
  { assert (H1 : (checkFrame f (Z.of_nat (length frame))).1 = 1).
    { rewrite checkFrame_value. unfold BYTECOUNTPOS.
      rewrite !Hrd by lia.
      destruct Hframe as [-> | [b ->]]; reflexivity. }
    pose proof (checkFrame_silent _ _ H1) as H2.
    destruct (checkFrame f (Z.of_nat (length frame))) as [ok msgs]. cbn in *. congruence. }
  unfold LL_receive. destruct (Z.eqb_spec (connected (link s)) 0); [done |].
  rewrite Hg.
  destruct (Z.ltb_spec (Z.of_nat (length frame)) 0); [lia |].
  destruct (Z.eqb_spec (Z.of_nat (length frame)) 0); [lia |].
  rewrite Hcheck. change (1 =? 0) with false. cbv iota.
  pose proof (processFrame_bytes f (Z.of_nat (length frame)) dataRx maxData) as Hp.
  destruct (processFrame f (Z.of_nat (length frame)) dataRx maxData) as [[d nData] sq].
  destruct Hp as (Hn & _ & Hld & _ & Hkeep).
  assert (Hd : d = dataRx).
  { apply list_eq_rd; [done |]. intros i Hi. apply Hkeep. lia. }
  assert (HnData : nData = Z.of_nat (length frame) - 5) by lia.
  rewrite Hd, HnData. eexists. split; [reflexivity |].
  destruct (negb (debug =? 0)); cbn; rewrite Hlk; done.
Qed.

(** The hypotheses of X22 hold when the three bytes of such a frame were
    sent on the calm channel. *)
Lemma LL_receive_short_frame_witness :
  exists s',
    LL_receive 10 block10 10 0 short_frame_state
    = Some (Z.of_nat (length [STARTBYTE; 3; ENDBYTE]) - 5, block10, s') /\
    goodFrames (link s') = goodFrames (link short_frame_state) + 1 /\
    badFrames (link s') = badFrames (link short_frame_state) /\
    timeouts (link s') = timeouts (link short_frame_state) /\
    pending (phy s') = [].
Proof.
  refine (LL_receive_short_frame [34; 34; 34; 34; 34; 34] [STARTBYTE; 3; ENDBYTE] [] 10
            block10 10 0 short_frame_state _ _ _ _ _ _ _ _ _).
  - vm_compute. discriminate.
  - unfold chan_ok. split_and!.
    + vm_compute. reflexivity.
    + vm_compute. discriminate.
    + vm_compute. discriminate.
    + vm_compute. discriminate.
  - intros i. vm_compute. discriminate.
  - vm_compute. reflexivity.
  - repeat (constructor; [discriminate |]). constructor.
  - left. reflexivity.
  - lia.
  - cbn [length]. lia.
  - cbn [length]. lia.
Defined.
